(** * Stream_Analyzer: a shallow embedding of [src/stream_analyzer.py]

    The analyzer turns chunks of audio samples into a frequency axis, a
    (temporally smoothed) magnitude spectrum, per-bin centre frequencies and
    per-bin energies.  Python floats are embedded as exact real numbers
    extended with NaN and the two infinities: rounding error and overflow of
    finite arithmetic are not represented, the special values and the way numpy
    propagates them are.  Overflow appears in one place only, the model of
    the cross-bin filter at width 5. *)

From Stdlib Require Import Reals Lra Lia ZArith List Bool Zfloor.
Import ListNotations.

Set Implicit Arguments.

(** ** Floating-point values *)

Inductive float : Type :=
| NaN
| PInf
| NInf
| Fin (r : R).

Module Float.

Definition zero : float := Fin 0%R.
Definition one : float := Fin 1%R.

(** Largest finite double, the value [np.nan_to_num] substitutes for
    infinities. *)
Definition float_max : R := ((2 - / 2 ^ 52) * 2 ^ 1023)%R.

Definition is_nan (x : float) : bool :=
  match x with NaN => true | _ => false end.

Definition is_finite (x : float) : bool :=
  match x with Fin _ => true | _ => false end.

Definition Rltb (a b : R) : bool := if Rlt_dec a b then true else false.

Definition add (a b : float) : float :=
  match a, b with
  | NaN, _ | _, NaN => NaN
  | PInf, NInf | NInf, PInf => NaN
  | PInf, _ | _, PInf => PInf
  | NInf, _ | _, NInf => NInf
  | Fin x, Fin y => Fin (x + y)
  end.

(** Sign of a finite factor decides the product with an infinity;
    [0 * inf] is NaN. *)
Definition mul_inf (pos : bool) (x : R) : float :=
  if Rltb 0 x then (if pos then PInf else NInf)
  else if Rltb x 0 then (if pos then NInf else PInf)
  else NaN.

Definition mul (a b : float) : float :=
  match a, b with
  | NaN, _ | _, NaN => NaN
  | PInf, PInf | NInf, NInf => PInf
  | PInf, NInf | NInf, PInf => NInf
  | PInf, Fin x | Fin x, PInf => mul_inf true x
  | NInf, Fin x | Fin x, NInf => mul_inf false x
  | Fin x, Fin y => Fin (x * y)
  end.

(** numpy true division: [0/0] and [inf/inf] are NaN, [x/0] is an infinity
    with the sign of [x] (the zero divisors met here are positive zeros). *)
Definition div (a b : float) : float :=
  match a, b with
  | NaN, _ | _, NaN => NaN
  | (PInf | NInf), (PInf | NInf) => NaN
  | Fin _, (PInf | NInf) => Fin 0
  | PInf, Fin y => if Rltb y 0 then NInf else PInf
  | NInf, Fin y => if Rltb y 0 then PInf else NInf
  | Fin x, Fin y =>
      if Rltb 0 y then Fin (x / y)
      else if Rltb y 0 then Fin (x / y)
      else if Rltb 0 x then PInf
      else if Rltb x 0 then NInf
      else NaN
  end.

(** [a < b] as numpy evaluates it: false as soon as one side is NaN. *)
Definition ltb (a b : float) : bool :=
  match a, b with
  | NaN, _ | _, NaN => false
  | PInf, _ => false
  | _, NInf => false
  | NInf, _ => true
  | _, PInf => true
  | Fin x, Fin y => Rltb x y
  end.

(** [a >= b], false as soon as one side is NaN. *)
Definition geb (a b : float) : bool :=
  match a, b with
  | NaN, _ | _, NaN => false
  | _, _ => negb (ltb a b)
  end.

(** [np.maximum] on two scalars: NaN propagates. *)
Definition maximum (a b : float) : float :=
  match a, b with
  | NaN, _ | _, NaN => NaN
  | _, _ => if ltb a b then b else a
  end.

Definition sub (a b : float) : float :=
  add a (match b with
         | NaN => NaN | PInf => NInf | NInf => PInf | Fin y => Fin (- y)
         end).

(** [np.log2] on one scalar: NaN below zero, minus infinity at zero. *)
Definition log2 (x : float) : float :=
  match x with
  | NaN | NInf => NaN
  | PInf => PInf
  | Fin r => if Rltb r 0 then NaN
             else if Rltb 0 r then Fin (ln r / ln 2) else NInf
  end.

(** [2 ** y]. *)
Definition exp2 (y : float) : float :=
  match y with
  | NaN => NaN
  | PInf => PInf
  | NInf => Fin 0
  | Fin r => Fin (Rpower 2 r)
  end.

(** [np.nan_to_num] on one scalar. *)
Definition nan_to_num (x : float) : float :=
  match x with
  | NaN => Fin 0
  | PInf => Fin float_max
  | NInf => Fin (- float_max)
  | Fin r => Fin r
  end.

End Float.

(** ** The numpy operations the analyzer calls

    Arrays are lists.  numpy rejects an elementwise operation on arrays of
    different shapes; here such an operation stops at the shorter array, and
    the collaborators are expected to return arrays of the shape they owe. *)

Module Np.

Definition sum (xs : list float) : float := fold_left Float.add xs Float.zero.

(** [np.mean] of a 1-d array: the sum divided by the element count, hence
    NaN ([0/0]) on an empty array. *)
Definition mean (xs : list float) : float :=
  Float.div (sum xs) (Fin (INR (length xs))).

(** [np.mean(a, axis=0)] of a 2-d array with [ncols] columns. *)
Definition mean_axis0 (ncols : nat) (rows : list (list float)) : list float :=
  map (fun j => mean (map (fun row => nth j row NaN) rows)) (seq 0 ncols).

Definition ones (n : nat) : list float := repeat Float.one n.
Definition zeros (n : nat) : list float := repeat Float.zero n.

(** [a[idx]] with an index array. *)
Definition take (a : list float) (idx : list nat) : list float :=
  map (fun i => nth i a NaN) idx.

(** [np.where(a == v)] on a 1-d integer array: the positions holding [v],
    in increasing order. *)
Definition where_eq (a : list Z) (v : Z) : list nat :=
  filter (fun i => Z.eqb (nth i a (-1)%Z) v) (seq 0 (length a)).

(** Elementwise product of two arrays of one shape. *)
Fixpoint multiply (a b : list float) : list float :=
  match a, b with
  | x :: a', y :: b' => Float.mul x y :: multiply a' b'
  | _, _ => []
  end.

(** [k * rows] where [k] holds one weight per row. *)
Fixpoint scale_rows (k : list float) (rows : list (list float))
  : list (list float) :=
  match k, rows with
  | w :: k', row :: rows' => map (Float.mul w) row :: scale_rows k' rows'
  | _, _ => []
  end.

(** [np.maximum(c, a)] with a scalar [c]. *)
Definition maximum_scalar (c : float) (a : list float) : list float :=
  map (Float.maximum c) a.

Definition nan_to_num (a : list float) : list float :=
  map Float.nan_to_num a.

(** [a[a < 0] = 0]. *)
Definition clamp_negative (a : list float) : list float :=
  map (fun x => if Float.ltb x Float.zero then Float.zero else x) a.

(** [np.argmax]: position of the first maximum; the first NaN wins. *)
Fixpoint argmax_from (best : float) (besti i : nat) (xs : list float) : nat :=
  match xs with
  | [] => besti
  | x :: xs' =>
      if Float.is_nan best then besti
      else if Float.is_nan x || Float.ltb best x
           then argmax_from x i (S i) xs'
           else argmax_from best besti (S i) xs'
  end.

Definition argmax (xs : list float) : nat :=
  match xs with
  | [] => 0
  | x :: xs' => argmax_from x 0 1 xs'
  end.

(** [np.round(x, 0)]: to the nearest integer, ties to the even one. *)
Definition round (x : R) : Z :=
  let f := Zfloor x in
  let d := (x - IZR f)%R in
  if Rlt_dec d (1 / 2) then f
  else if Rlt_dec (1 / 2) d then (f + 1)%Z
  else if Z.even f then f else (f + 1)%Z.

Definition log2 (x : R) : R := (ln x / ln 2)%R.

(** [np.linspace(start, stop, num, endpoint=True)]. *)
Definition linspace (start stop : R) (num : nat) : list R :=
  let div := (Z.of_nat num - 1)%Z in
  let delta := (stop - start)%R in
  let y :=
    map (fun i => if (0 <? div)%Z
                  then (INR i * (delta / IZR div) + start)%R
                  else (INR i * delta + start)%R) (seq 0 num) in
  if (1 <? num)%nat then removelast y ++ [stop] else y.

(** [np.logspace(start, stop, num, endpoint=True, base=base)]. *)
Definition logspace (start stop : R) (num : nat) (base : R) : list R :=
  map (fun y => Rpower base y) (linspace start stop num).

(** The same two functions on floats, for end points that may be NaN or
    infinite. *)
Definition flinspace (start stop : float) (num : nat) : list float :=
  let div := (Z.of_nat num - 1)%Z in
  let delta := Float.sub stop start in
  let y :=
    map (fun i => if (0 <? div)%Z
                  then Float.add (Float.mul (Fin (INR i))
                                            (Float.div delta (Fin (IZR div))))
                                 start
                  else Float.add (Float.mul (Fin (INR i)) delta) start)
        (seq 0 num) in
  if (1 <? num)%nat then removelast y ++ [stop] else y.

Definition flogspace2 (start stop : float) (num : nat) : list float :=
  map Float.exp2 (flinspace start stop num).

End Np.

(** ** Helpers of [utils], which the analyzer imports *)

(** Modelled from the spec: [round_up_to_even] is defined in the [utils]
    module, whose source is not available.  The spec has it yield the even
    window size (48000 Hz * 50 ms gives 2400) and the odd filter width
    [round_up_to_even(0.03 * B) - 1]: the least even integer that is not below
    the argument. *)
Definition round_up_to_even (f : R) : Z := (2 * Zceil (f / 2))%Z.

Arguments round_up_to_even : simpl never.

(** Modelled from the spec: [numpy_data_buffer], the fixed-capacity ring
    buffer of [utils].  It keeps at most [n_windows] windows, appending
    discards the oldest one once the capacity is exceeded, the most recent
    [n] items come back oldest first, and fewer than [n] come back while the
    buffer has not yet received that many. *)
Module Buffer.

Record t : Type := make {
  n_windows : nat;
  samples_per_window : nat;
  start_value : float;
  data_dimensions : nat;
  windows : list (list float)
}.

Definition lastn {A : Type} (n : nat) (l : list A) : list A :=
  skipn (length l - n) l.

Definition create (n_windows samples_per_window : nat)
           (start_value : float) (data_dimensions : nat) : t :=
  make n_windows samples_per_window start_value data_dimensions [].

Definition append_data (b : t) (w : list float) : t :=
  make (n_windows b) (samples_per_window b) (start_value b)
       (data_dimensions b) (lastn (n_windows b) (windows b ++ [w])).

(** [get_most_recent] on a buffer of samples ([data_dimensions = 1]). *)
Definition get_most_recent (b : t) (n : nat) : list float :=
  lastn n (concat (windows b)).

(** [get_most_recent] on a buffer of frames ([data_dimensions = 2]). *)
Definition get_most_recent_rows (b : t) (n : nat) : list (list float) :=
  lastn n (windows b).

Definition get_buffer_data (b : t) : list (list float) := windows b.

End Buffer.


(** ** Exceptions raised while constructing the analyzer *)

Inductive exn : Type :=
| ZeroDivisionError
| ValueError.

Inductive result (A : Type) : Type :=
| Ok (a : A)
| Raise (e : exn).

Arguments Ok {A} a.
Arguments Raise {A} e.

Definition bind {A B : Type} (r : result A) (k : A -> result B) : result B :=
  match r with
  | Ok a => k a
  | Raise e => Raise e
  end.

Notation "x <- r ;; k" := (bind r (fun x => k))
  (at level 61, r at next level, right associativity).

(** [a / b] on Python numbers. *)
Definition py_div (a b : R) : result R :=
  if Req_dec_T b 0 then Raise ZeroDivisionError else Ok (a / b)%R.

(** [np.ones(n)], [np.zeros(n)], [np.arange(n)] reject a negative length. *)
Definition np_length (n : Z) : result nat :=
  if (n <? 0)%Z then Raise ValueError else Ok (Z.to_nat n).

(** [np.max] and [np.min] have no value on an empty array. *)
Definition np_max (xs : list R) : result R :=
  match xs with
  | [] => Raise ValueError
  | x :: xs' => Ok (fold_left Rmax xs' x)
  end.

Definition np_min (xs : list Z) : result Z :=
  match xs with
  | [] => Raise ValueError
  | x :: xs' => Ok (fold_left Z.min xs' x)
  end.

(** ** The bin index table (lines 61 to 72 of the constructor) *)

Module BinTable.

(** Line 61: a descending log2-spaced sequence from [len - 1] down to 0. *)
Definition log_positions (len : nat) : list R :=
  map (fun x => (x - 1)%R)
      (Np.logspace (Np.log2 (INR len)) 0 len 2).

(** Line 62: invert, rescale by [len / n_bins] and round. *)
Definition raw_ids (len : nat) (n_bins : Z) : result (list Z) :=
  let xs := log_positions len in
  mx <- np_max xs ;;
  width <- py_div (INR len) (IZR n_bins) ;;
  Ok (map (fun x => Np.round (((x - mx) * -1) / width)%R) xs).

(** Line 63: shift by the least id and cap each id by its own position. *)
Definition fftx_bin_indices (len : nat) (n_bins : Z) : result (list Z) :=
  raw <- raw_ids len n_bins ;;
  mn <- np_min raw ;;
  Ok (map (fun i => Z.min (Z.of_nat i) (nth i raw 0%Z - mn))
          (seq 0 (length raw))).

(** Lines 68 to 70: the spectrum positions of every bin id of
    [range(n_bins)]. *)
Definition fftx_indices_per_bin (ids : list Z) (n_bins : nat)
  : list (list nat) :=
  map (fun b => Np.where_eq ids (Z.of_nat b)) (seq 0 n_bins).

(** Lines 71 and 72: the mean frequency of every bin. *)
Definition frequency_bin_centres (fftx : list float)
           (per_bin : list (list nat)) : list float :=
  map (fun idx => Np.mean (Np.take fftx idx)) per_bin.

End BinTable.

(** ** The analyzer object *)

(** Constructor arguments. *)
Record config : Type := {
  arg_rate : R;
  arg_FFT_window_size_ms : R;
  arg_updates_per_second : R;
  arg_smoothing_length_ms : R;
  arg_n_frequency_bins : Z
}.

Definition default_config : config :=
  {| arg_rate := 96000;
     arg_FFT_window_size_ms := 50;
     arg_updates_per_second := 10;
     arg_smoothing_length_ms := 50;
     arg_n_frequency_bins := 51 |}.

(** A configuration asking for more bins (3) than the spectrum has
    positions (1000 Hz * 4 ms gives a window of 4 samples, hence 2). *)
Definition cramped_config : config :=
  {| arg_rate := 1000;
     arg_FFT_window_size_ms := 4;
     arg_updates_per_second := 10;
     arg_smoothing_length_ms := 0;
     arg_n_frequency_bins := 3 |}.

(** A spectrum of two positions with as many bins. *)
Definition pair_config : config :=
  {| arg_rate := 1000;
     arg_FFT_window_size_ms := 4;
     arg_updates_per_second := 10;
     arg_smoothing_length_ms := 0;
     arg_n_frequency_bins := 2 |}.


(** A spectrum of four positions under 200 bins, for which the constructor
    derives a cross-bin filter width of 5. *)
Definition wide_config : config :=
  {| arg_rate := 1000;
     arg_FFT_window_size_ms := 8;
     arg_updates_per_second := 10;
     arg_smoothing_length_ms := 0;
     arg_n_frequency_bins := 200 |}.

(** The attributes of a [Stream_Analyzer].  [smoothing_kernel] and
    [feature_buffer] exist only when [smoothing_length_ms > 0]. *)
Record Stream_Analyzer : Type := mkAnalyzer {
  n_frequency_bins : Z;
  rate : R;
  rolling_stats_window_s : Z;
  equalizer_strength : R;
  apply_frequency_smoothing : bool;
  filter_width : Z;
  FFT_window_size : Z;
  FFT_window_size_ms : R;
  fft : list float;
  fftx : list float;
  update_window_n_frames : Z;
  data_windows_to_buffer : Z;
  data_buffer : Buffer.t;
  smoothing_length_ms : R;
  smoothing_kernel : option (list float);
  feature_buffer : option Buffer.t;
  fftx_bin_indices : list Z;
  frequency_bin_energies : list float;
  frequency_bin_centres : list float;
  fftx_indices_per_bin : list (list nat);
  fft_fps : Z;
  log_features : bool;
  num_ffts : nat;
  strongest_frequency : float;
  power_normalization_coefficients : list float;
  rolling_stats_window_n : Z;
  rolling_bin_values : Buffer.t;
  bin_mean_values : list float;
  buffer_is_updated : bool
}.

(** The four sequences [get_audio_features] returns, as values at the time
    of the return. *)
Record features : Type := mkFeatures {
  out_fftx : list float;
  out_fft : list float;
  out_frequency_bin_centres : list float;
  out_frequency_bin_energies : list float
}.

(** Assignments to the attributes that change after construction. *)
Definition set_fft (v : list float) (s : Stream_Analyzer) : Stream_Analyzer :=
  let 'mkAnalyzer a1 a2 a3 a4 a5 a6 a7 a8 _ a10 a11 a12 a13 a14 a15 a16 a17
       a18 a19 a20 a21 a22 a23 a24 a25 a26 a27 a28 a29 := s in
  mkAnalyzer a1 a2 a3 a4 a5 a6 a7 a8 v a10 a11 a12 a13 a14 a15 a16 a17
       a18 a19 a20 a21 a22 a23 a24 a25 a26 a27 a28 a29.

Definition set_data_buffer (v : Buffer.t) (s : Stream_Analyzer)
  : Stream_Analyzer :=
  let 'mkAnalyzer a1 a2 a3 a4 a5 a6 a7 a8 a9 a10 a11 a12 _ a14 a15 a16 a17
       a18 a19 a20 a21 a22 a23 a24 a25 a26 a27 a28 a29 := s in
  mkAnalyzer a1 a2 a3 a4 a5 a6 a7 a8 a9 a10 a11 a12 v a14 a15 a16 a17
       a18 a19 a20 a21 a22 a23 a24 a25 a26 a27 a28 a29.

Definition set_feature_buffer (v : option Buffer.t) (s : Stream_Analyzer)
  : Stream_Analyzer :=
  let 'mkAnalyzer a1 a2 a3 a4 a5 a6 a7 a8 a9 a10 a11 a12 a13 a14 a15 _ a17
       a18 a19 a20 a21 a22 a23 a24 a25 a26 a27 a28 a29 := s in
  mkAnalyzer a1 a2 a3 a4 a5 a6 a7 a8 a9 a10 a11 a12 a13 a14 a15 v a17
       a18 a19 a20 a21 a22 a23 a24 a25 a26 a27 a28 a29.

Definition set_frequency_bin_energies (v : list float) (s : Stream_Analyzer)
  : Stream_Analyzer :=
  let 'mkAnalyzer a1 a2 a3 a4 a5 a6 a7 a8 a9 a10 a11 a12 a13 a14 a15 a16 a17
       _ a19 a20 a21 a22 a23 a24 a25 a26 a27 a28 a29 := s in
  mkAnalyzer a1 a2 a3 a4 a5 a6 a7 a8 a9 a10 a11 a12 a13 a14 a15 a16 a17
       v a19 a20 a21 a22 a23 a24 a25 a26 a27 a28 a29.

Definition set_num_ffts (v : nat) (s : Stream_Analyzer) : Stream_Analyzer :=
  let 'mkAnalyzer a1 a2 a3 a4 a5 a6 a7 a8 a9 a10 a11 a12 a13 a14 a15 a16 a17
       a18 a19 a20 a21 a22 _ a24 a25 a26 a27 a28 a29 := s in
  mkAnalyzer a1 a2 a3 a4 a5 a6 a7 a8 a9 a10 a11 a12 a13 a14 a15 a16 a17
       a18 a19 a20 a21 a22 v a24 a25 a26 a27 a28 a29.

Definition set_strongest_frequency (v : float) (s : Stream_Analyzer)
  : Stream_Analyzer :=
  let 'mkAnalyzer a1 a2 a3 a4 a5 a6 a7 a8 a9 a10 a11 a12 a13 a14 a15 a16 a17
       a18 a19 a20 a21 a22 a23 _ a25 a26 a27 a28 a29 := s in
  mkAnalyzer a1 a2 a3 a4 a5 a6 a7 a8 a9 a10 a11 a12 a13 a14 a15 a16 a17
       a18 a19 a20 a21 a22 a23 v a25 a26 a27 a28 a29.

Definition set_rolling_bin_values (v : Buffer.t) (s : Stream_Analyzer)
  : Stream_Analyzer :=
  let 'mkAnalyzer a1 a2 a3 a4 a5 a6 a7 a8 a9 a10 a11 a12 a13 a14 a15 a16 a17
       a18 a19 a20 a21 a22 a23 a24 a25 a26 _ a28 a29 := s in
  mkAnalyzer a1 a2 a3 a4 a5 a6 a7 a8 a9 a10 a11 a12 a13 a14 a15 a16 a17
       a18 a19 a20 a21 a22 a23 a24 a25 a26 v a28 a29.

Definition set_bin_mean_values (v : list float) (s : Stream_Analyzer)
  : Stream_Analyzer :=
  let 'mkAnalyzer a1 a2 a3 a4 a5 a6 a7 a8 a9 a10 a11 a12 a13 a14 a15 a16 a17
       a18 a19 a20 a21 a22 a23 a24 a25 a26 a27 _ a29 := s in
  mkAnalyzer a1 a2 a3 a4 a5 a6 a7 a8 a9 a10 a11 a12 a13 a14 a15 a16 a17
       a18 a19 a20 a21 a22 a23 a24 a25 a26 a27 v a29.

Definition set_buffer_is_updated (v : bool) (s : Stream_Analyzer)
  : Stream_Analyzer :=
  let 'mkAnalyzer a1 a2 a3 a4 a5 a6 a7 a8 a9 a10 a11 a12 a13 a14 a15 a16 a17
       a18 a19 a20 a21 a22 a23 a24 a25 a26 a27 a28 _ := s in
  mkAnalyzer a1 a2 a3 a4 a5 a6 a7 a8 a9 a10 a11 a12 a13 a14 a15 a16 a17
       a18 a19 a20 a21 a22 a23 a24 a25 a26 a27 a28 v.

Section Analyzer.

(** The collaborators the analyzer calls and this development does not
    define: the magnitude spectrum of a window ([fft.getFFT]), the
    Savitzky-Golay filter ([scipy.signal.savgol_filter]) and the builder of
    the temporal smoothing kernel ([utils.get_smoothing_filter]), which
    yields one weight per buffered frame. *)
Variable getFFT : list float -> R -> Z -> bool -> list float.
Variable savgol_filter : list float -> Z -> Z -> list float.
Variable get_smoothing_filter : R -> R -> list float.

(** [Stream_Analyzer.__init__]. *)
Definition init (c : config) : result Stream_Analyzer :=
  let n_frequency_bins := arg_n_frequency_bins c in
  let rate := arg_rate c in
  let rolling_stats_window_s := 20%Z in
  let equalizer_strength := 0.20%R in
  let apply_frequency_smoothing := true in
  let filter_width :=
    (round_up_to_even (0.03 * IZR n_frequency_bins) - 1)%Z in
  let FFT_window_size :=
    round_up_to_even (rate * arg_FFT_window_size_ms c / 1000) in
  FFT_window_size_ms <- py_div (1000 * IZR FFT_window_size) rate ;;
  half <- np_length (Z.quot FFT_window_size 2) ;;
  let fft := Np.ones half in
  let fftx :=
    map (fun i => Float.div (Float.mul (Fin (INR i)) (Fin rate))
                            (Fin (IZR FFT_window_size)))
        (seq 0 half) in
  per_update <- py_div rate (arg_updates_per_second c) ;;
  let update_window_n_frames := round_up_to_even per_update in
  ratio <- py_div (IZR FFT_window_size) (IZR update_window_n_frames) ;;
  let data_windows_to_buffer := Z.max 1 (Zceil ratio) in
  let data_buffer :=
    Buffer.create (Z.to_nat data_windows_to_buffer)
                  (Z.to_nat update_window_n_frames) Float.zero 1 in
  let smoothing_length_ms := arg_smoothing_length_ms c in
  let smoothing_kernel :=
    if Float.Rltb 0 smoothing_length_ms
    then Some (get_smoothing_filter FFT_window_size_ms smoothing_length_ms)
    else None in
  let feature_buffer :=
    match smoothing_kernel with
    | Some k => Some (Buffer.create (length k) (length fft) Float.zero 2)
    | None => None
    end in
  fftx_bin_indices <-
    BinTable.fftx_bin_indices (length fftx) n_frequency_bins ;;
  n_bins <- np_length n_frequency_bins ;;
  let frequency_bin_energies := Np.zeros n_bins in
  let fftx_indices_per_bin :=
    BinTable.fftx_indices_per_bin fftx_bin_indices n_bins in
  let frequency_bin_centres :=
    BinTable.frequency_bin_centres fftx fftx_indices_per_bin in
  let fft_fps := 30%Z in
  let power_normalization_coefficients :=
    Np.flogspace2 (Float.log2 (Fin 1))
                  (Float.log2 (Float.log2 (Fin (rate / 2))))
                  (length fftx) in
  let rolling_stats_window_n := (rolling_stats_window_s * fft_fps)%Z in
  let rolling_bin_values :=
    Buffer.create (Z.to_nat rolling_stats_window_n) n_bins (Fin 25000) 1 in
  Ok {| n_frequency_bins := n_frequency_bins;
        rate := rate;
        rolling_stats_window_s := rolling_stats_window_s;
        equalizer_strength := equalizer_strength;
        apply_frequency_smoothing := apply_frequency_smoothing;
        filter_width := filter_width;
        FFT_window_size := FFT_window_size;
        FFT_window_size_ms := FFT_window_size_ms;
        fft := fft;
        fftx := fftx;
        update_window_n_frames := update_window_n_frames;
        data_windows_to_buffer := data_windows_to_buffer;
        data_buffer := data_buffer;
        smoothing_length_ms := smoothing_length_ms;
        smoothing_kernel := smoothing_kernel;
        feature_buffer := feature_buffer;
        fftx_bin_indices := fftx_bin_indices;
        frequency_bin_energies := frequency_bin_energies;
        frequency_bin_centres := frequency_bin_centres;
        fftx_indices_per_bin := fftx_indices_per_bin;
        fft_fps := fft_fps;
        log_features := false;
        num_ffts := 0;
        strongest_frequency := Fin 0;
        power_normalization_coefficients := power_normalization_coefficients;
        rolling_stats_window_n := rolling_stats_window_n;
        rolling_bin_values := rolling_bin_values;
        bin_mean_values := Np.ones n_bins;
        buffer_is_updated := false |}.

(** Line 94: the per-bin means over the rolling history. *)
Definition per_bin_means (history : Buffer.t) : list float :=
  Np.mean_axis0 (Buffer.samples_per_window history)
                (Buffer.get_buffer_data history).

(** Line 95: the floor [(1 - equalizer_strength) * mean(per-bin means)]. *)
Definition equalizer_floor (strength : R) (means : list float) : float :=
  Float.mul (Fin (1 - strength)) (Np.mean means).

(** [update_rolling_stats]: the current bin energies enter the rolling
    history, the per-bin means over the history are recomputed and lifted to
    the floor. *)
Definition update_rolling_stats (s : Stream_Analyzer) : Stream_Analyzer :=
  let history :=
    Buffer.append_data (rolling_bin_values s) (frequency_bin_energies s) in
  let means := per_bin_means history in
  let lifted :=
    Np.maximum_scalar (equalizer_floor (equalizer_strength s) means) means in
  set_bin_mean_values lifted (set_rolling_bin_values history s).

(** Lines 106 to 111: the temporal smoother.  Given the compensated
    spectrum, returns the feature buffer and the effective spectrum.  An
    object whose [smoothing_length_ms] is positive always carries a kernel
    and a feature buffer; the last branch of the match is not reached from
    a constructed object. *)
Definition temporal_smoothing (s : Stream_Analyzer) (spectrum : list float)
  : option Buffer.t * list float :=
  if Float.Rltb 0 (smoothing_length_ms s) then
    match smoothing_kernel s, feature_buffer s with
    | Some kernel, Some fb =>
        let fb' := Buffer.append_data fb spectrum in
        let buffered_features :=
          Buffer.get_most_recent_rows fb' (length kernel) in
        if Nat.eqb (length buffered_features) (length kernel)
        then (Some fb',
              Np.mean_axis0 (Buffer.samples_per_window fb')
                            (Np.scale_rows kernel buffered_features))
        else (Some fb', spectrum)
    | _, _ => (feature_buffer s, spectrum)
    end
  else (feature_buffer s, spectrum).

(** Lines 116 and 117: the mean of the spectrum over every bin. *)
Definition bin_energies (spectrum : list float)
           (per_bin : list (list nat)) (n_bins : Z) : list float :=
  map (fun b => Np.mean (Np.take spectrum (nth b per_bin [])))
      (seq 0 (Z.to_nat n_bins)).

(** [update_features]. *)
Definition update_features (s : Stream_Analyzer) : Stream_Analyzer :=
  let latest_data_window :=
    Buffer.get_most_recent (data_buffer s) (Z.to_nat (FFT_window_size s)) in
  let spectrum :=
    getFFT latest_data_window (rate s) (FFT_window_size s) (log_features s) in
  let spectrum :=
    Np.multiply spectrum (power_normalization_coefficients s) in
  let s := set_fft spectrum s in
  let s := set_num_ffts (num_ffts s + 1) s in
  let '(fb, spectrum) := temporal_smoothing s (fft s) in
  let s := set_fft spectrum (set_feature_buffer fb s) in
  let s :=
    set_strongest_frequency (nth (Np.argmax (fft s)) (fftx s) NaN) s in
  set_frequency_bin_energies
    (bin_energies (fft s) (fftx_indices_per_bin s) (n_frequency_bins s)) s.

(** [append_data]. *)
Definition append_data (s : Stream_Analyzer) (in_data : list float)
  : Stream_Analyzer :=
  set_buffer_is_updated true
    (set_data_buffer (Buffer.append_data (data_buffer s) in_data) s).

(** Lines 135 to 139: the bin energies as they leave the analyzer. *)
Definition postprocess (s : Stream_Analyzer) (energies : list float)
  : list float :=
  let energies := Np.nan_to_num energies in
  let energies :=
    if apply_frequency_smoothing s && (3 <? filter_width s)%Z
    then savgol_filter energies (filter_width s) 3
    else energies in
  Np.clamp_negative energies.

Definition current_features (s : Stream_Analyzer) : features :=
  mkFeatures (fftx s) (fft s) (frequency_bin_centres s)
             (frequency_bin_energies s).

(** [get_audio_features]: the analyzer after the call and the tuple it
    returns. *)
Definition get_audio_features (s : Stream_Analyzer)
  : Stream_Analyzer * features :=
  let s :=
    if buffer_is_updated s then
      let s := update_features s in
      let s := update_rolling_stats s in
      let s :=
        set_frequency_bin_energies
          (postprocess s (frequency_bin_energies s)) s in
      set_buffer_is_updated false s
    else s in
  (s, current_features s).

(** Whether bin [b] of the equalizer mean vector is at least the floor
    computed from the per-bin means of the current history. *)
Definition floor_respected (s : Stream_Analyzer) (b : nat) : bool :=
  Float.geb (nth b (bin_mean_values s) NaN)
            (equalizer_floor (equalizer_strength s)
                             (per_bin_means (rolling_bin_values s))).

(** ** Call sequences *)

Inductive call : Type :=
| Append (in_data : list float)
| Get.

Definition step (s : Stream_Analyzer) (c : call) : Stream_Analyzer :=
  match c with
  | Append d => append_data s d
  | Get => fst (get_audio_features s)
  end.

Definition run (s : Stream_Analyzer) (cs : list call) : Stream_Analyzer :=
  fold_left step cs s.

Definition appends (cs : list call) : nat :=
  length (filter (fun c => match c with Append _ => true | Get => false end)
                 cs).

End Analyzer.

(** ** Notions used in the statements *)

(** The ids of a table with at least one spectrum position and a positive
    bin count, in closed form. *)
Definition table_id (len : nat) (n_bins : Z) (i : nat) : Z :=
  Z.min (Z.of_nat i)
        (Np.round ((INR len - 1 - nth i (BinTable.log_positions len) 0%R)
                   / (INR len / IZR n_bins))).

(** What a successful construction establishes. *)
Record constructed (c : config) (s : Stream_Analyzer) : Prop := {
  c_rate_nonzero : arg_rate c <> 0%R;
  c_rate : rate s = arg_rate c;
  c_n_frequency_bins : n_frequency_bins s = arg_n_frequency_bins c;
  c_bins_pos : (0 < n_frequency_bins s)%Z;
  c_FFT_window_size :
    FFT_window_size s =
    round_up_to_even (arg_rate c * arg_FFT_window_size_ms c / 1000);
  c_window_pos : (2 <= FFT_window_size s)%Z;
  c_fft : fft s = Np.ones (Z.to_nat (Z.quot (FFT_window_size s) 2));
  c_fftx :
    fftx s =
    map (fun i => Float.div (Float.mul (Fin (INR i)) (Fin (rate s)))
                            (Fin (IZR (FFT_window_size s))))
        (seq 0 (Z.to_nat (Z.quot (FFT_window_size s) 2)));
  c_fftx_bin_indices :
    BinTable.fftx_bin_indices (Z.to_nat (Z.quot (FFT_window_size s) 2))
                              (n_frequency_bins s)
    = Ok (fftx_bin_indices s);
  c_fftx_indices_per_bin :
    fftx_indices_per_bin s =
    BinTable.fftx_indices_per_bin (fftx_bin_indices s)
                                  (Z.to_nat (n_frequency_bins s));
  c_frequency_bin_centres :
    frequency_bin_centres s =
    BinTable.frequency_bin_centres (fftx s) (fftx_indices_per_bin s);
  c_frequency_bin_energies :
    frequency_bin_energies s = Np.zeros (Z.to_nat (n_frequency_bins s));
  c_filter_width :
    filter_width s =
    (round_up_to_even (0.03 * IZR (n_frequency_bins s)) - 1)%Z;
  c_apply_frequency_smoothing : apply_frequency_smoothing s = true;
  c_equalizer_strength : equalizer_strength s = 0.20%R;
  c_smoothing_length_ms : smoothing_length_ms s = arg_smoothing_length_ms c;
  c_smoothing_on :
    (0 < smoothing_length_ms s)%R ->
    exists k, smoothing_kernel s = Some k /\
              feature_buffer s =
              Some (Buffer.create (length k) (length (fft s)) Float.zero 2);
  c_smoothing_off :
    (smoothing_length_ms s <= 0)%R ->
    smoothing_kernel s = None /\ feature_buffer s = None;
  c_rolling_bin_values :
    rolling_bin_values s =
    Buffer.create 600 (Z.to_nat (n_frequency_bins s)) (Fin 25000) 1;
  c_bin_mean_values :
    bin_mean_values s = Np.ones (Z.to_nat (n_frequency_bins s));
  c_num_ffts : num_ffts s = 0%nat;
  c_buffer_is_updated : buffer_is_updated s = false
}.

(** Attributes no method assigns after construction. *)
Definition static (s : Stream_Analyzer) :=
  (n_frequency_bins s, rate s, equalizer_strength s,
   apply_frequency_smoothing s, filter_width s, FFT_window_size s,
   fftx s, smoothing_length_ms s, smoothing_kernel s,
   frequency_bin_centres s, fftx_indices_per_bin s,
   power_normalization_coefficients s,
   Buffer.n_windows (rolling_bin_values s),
   Buffer.samples_per_window (rolling_bin_values s)).

Definition dirty (s : Stream_Analyzer) : nat :=
  if buffer_is_updated s then 1 else 0.

(** A returned bin energy is acceptable when finite and not below 0. *)
Definition finite_nonneg (x : float) : Prop :=
  Float.is_finite x = true /\ Float.geb x (Fin 0) = true.

(** Collaborators used in examples: a spectrum of ones and a spectrum of
    NaN, both of the length [getFFT] owes for the window size, and a filter
    that returns its input. *)
Definition flat_spectrum : list float -> R -> Z -> bool -> list float :=
  fun _ _ window_size _ => Np.ones (Z.to_nat (Z.quot window_size 2)).

Definition nan_spectrum : list float -> R -> Z -> bool -> list float :=
  fun _ _ window_size _ => repeat NaN (Z.to_nat (Z.quot window_size 2)).

Definition no_filter : list float -> Z -> Z -> list float :=
  fun energies _ _ => energies.

(** A spectrum with all its magnitude at position 0, of the length [getFFT]
    owes for the window size. *)
Definition low_tone_spectrum : list float -> R -> Z -> bool -> list float :=
  fun _ _ window_size _ =>
    Fin 10 :: repeat (Fin 0) (Z.to_nat (Z.quot window_size 2) - 1).

(** A spectrum whose magnitudes have all overflowed, of the length
    [getFFT] owes for the window size. *)
Definition overflowed_spectrum : list float -> R -> Z -> bool -> list float :=
  fun _ _ window_size _ => repeat PInf (Z.to_nat (Z.quot window_size 2)).

(** A double-precision result: a finite value beyond the largest finite
    double comes out as an infinity.  Rounding below that threshold is not
    modelled. *)
Definition overflow (x : float) : float :=
  match x with
  | Fin r => if Float.Rltb Float.float_max r then PInf
             else if Float.Rltb r (- Float.float_max) then NInf
                  else Fin r
  | _ => x
  end.

Definition weighted_sum (weights : list R) (xs : list float) : float :=
  overflow (Np.sum (Np.multiply (map Fin weights) xs)).

(** The weights of the least-squares cubic through five equidistant
    values, evaluated at the first, the second and the middle one. *)
Definition savgol_first : list R :=
  [69 / 70; 4 / 70; -6 / 70; 4 / 70; -1 / 70]%R.

Definition savgol_second : list R :=
  [2 / 35; 27 / 35; 12 / 35; -8 / 35; 2 / 35]%R.

Definition savgol_middle : list R :=
  [-3 / 35; 12 / 35; 17 / 35; 12 / 35; -3 / 35]%R.

(** [scipy.signal.savgol_filter(x, 5, 3)] with its default mode on an array
    of at least five values, the call the analyzer makes for 134 to 200
    bins.  An output away from the two ends is the weighted sum of the five
    values around it; the first two and the last two outputs evaluate the
    cubic fitted to the first and to the last five values. *)
Definition savgol_5_3 (x : list float) : list float :=
  let n := length x in
  map (fun i =>
         if (i <? 2)%nat
         then weighted_sum (if (i =? 0)%nat then savgol_first
                            else savgol_second)
                           (firstn 5 x)
         else if (n - 2 <=? i)%nat
              then weighted_sum (rev (if (i =? n - 1)%nat then savgol_first
                                      else savgol_second))
                                (skipn (n - 5) x)
              else weighted_sum savgol_middle (firstn 5 (skipn (i - 2) x)))
      (seq 0 n).

Definition savgol_cubic : list float -> Z -> Z -> list float :=
  fun x _ _ => savgol_5_3 x.

(** * Properties *)

(** ** Arithmetic helpers *)

Lemma Rltb_true (a b : R) : (a < b)%R -> Float.Rltb a b = true.
Proof. intro H. unfold Float.Rltb. destruct (Rlt_dec a b); [reflexivity | contradiction]. Qed.

Lemma Rltb_false (a b : R) : (b <= a)%R -> Float.Rltb a b = false.
Proof. intro H. unfold Float.Rltb. destruct (Rlt_dec a b); [lra | reflexivity]. Qed.

Lemma Rltb_spec (a b : R) : Float.Rltb a b = true <-> (a < b)%R.
Proof.
  unfold Float.Rltb. destruct (Rlt_dec a b); split; intro; try assumption;
    try reflexivity; try discriminate; contradiction.
Qed.

Lemma round_up_to_even_eq (k : Z) (f : R) :
  (IZR (2 * k) - 2 < f <= IZR (2 * k))%R -> round_up_to_even f = (2 * k)%Z.
Proof.
  intros [Hlo Hhi]. unfold round_up_to_even. f_equal.
  apply Zceil_eq. rewrite mult_IZR in Hlo, Hhi. lra.
Qed.

Lemma round_up_to_even_pos (f : R) : (0 < f)%R -> (2 <= round_up_to_even f)%Z.
Proof.
  intro Hf. unfold round_up_to_even.
  assert (H := Zceil_bound (f / 2)).
  assert (0 < Zceil (f / 2))%Z; [| lia].
  apply lt_IZR. lra.
Qed.

Lemma round_up_to_even_nonpos (f : R) : (f <= 0)%R -> (round_up_to_even f <= 0)%Z.
Proof.
  intro Hf. unfold round_up_to_even.
  assert (H := Zceil_bound (f / 2)).
  assert (Zceil (f / 2) < 1)%Z; [| lia].
  apply lt_IZR. lra.
Qed.

Lemma round_up_to_even_even (f : R) : Z.even (round_up_to_even f) = true.
Proof. unfold round_up_to_even. rewrite Z.even_mul. reflexivity. Qed.

Lemma np_round_eq (z : Z) (x : R) :
  (IZR z - 1 / 2 < x < IZR z + 1 / 2)%R -> Np.round x = z.
Proof.
  intros [Hlo Hhi]. unfold Np.round.
  pose proof (Zfloor_bound x) as [Hf1 Hf2].
  set (f := Zfloor x) in *.
  assert (Hcases : f = z \/ f = (z - 1)%Z).
  { assert (z - 2 < f < z + 1)%Z; [| lia].
    split; apply lt_IZR; rewrite ?minus_IZR, ?plus_IZR; lra. }
  destruct Hcases as [-> | ->].
  - destruct (Rlt_dec (x - IZR z) (1 / 2)); [reflexivity | lra].
  - rewrite minus_IZR in *.
    destruct (Rlt_dec (x - (IZR z - 1)) (1 / 2)); [lra |].
    destruct (Rlt_dec (1 / 2) (x - (IZR z - 1))); [f_equal; lia | lra].
Qed.

Lemma np_round_IZR (z : Z) : Np.round (IZR z) = z.
Proof. apply np_round_eq. lra. Qed.

Lemma np_round_nonneg (x : R) : (0 <= x)%R -> (0 <= Np.round x)%Z.
Proof.
  intro Hx. unfold Np.round.
  assert (Hf : (0 <= Zfloor x)%Z) by (apply Zfloor_lub; simpl; lra).
  destruct (Rlt_dec _ _); [assumption |].
  destruct (Rlt_dec _ _); [lia |].
  destruct (Z.even _); lia.
Qed.

Lemma fold_left_Rmax_le (xs : list R) (m : R) :
  Forall (fun x => (x <= m)%R) xs -> fold_left Rmax xs m = m.
Proof.
  induction 1 as [| x xs Hx _ IH]; simpl; [reflexivity |].
  rewrite Rmax_left by assumption. exact IH.
Qed.

Lemma fold_left_Zmin_le (xs : list Z) (m : Z) :
  Forall (fun x => (m <= x)%Z) xs -> fold_left Z.min xs m = m.
Proof.
  induction 1 as [| x xs Hx _ IH]; simpl; [reflexivity |].
  rewrite Z.min_l by assumption. exact IH.
Qed.

Lemma Rpower_2_log2 (x : R) : (0 < x)%R -> Rpower 2 (Np.log2 x) = x.
Proof.
  intro Hx. unfold Rpower, Np.log2.
  assert (Hln2 : (0 < ln 2)%R) by (rewrite <- ln_1; apply ln_increasing; lra).
  replace (ln x / ln 2 * ln 2)%R with (ln x) by (field; lra).
  apply exp_ln. assumption.
Qed.

Lemma Rpower_2_mono (a b : R) : (a <= b)%R -> (Rpower 2 a <= Rpower 2 b)%R.
Proof.
  intro Hab. apply Rle_Rpower; [lra | assumption].
Qed.

Lemma log2_nonneg (x : R) : (1 <= x)%R -> (0 <= Np.log2 x)%R.
Proof.
  intro Hx. unfold Np.log2.
  assert (Hln2 : (0 < ln 2)%R) by (rewrite <- ln_1; apply ln_increasing; lra).
  assert (0 <= ln x)%R.
  { destruct (Req_dec x 1) as [-> | Hne]; [rewrite ln_1; lra |].
    left. rewrite <- ln_1. apply ln_increasing; lra. }
  apply Rmult_le_pos; [assumption |]. left. apply Rinv_0_lt_compat. assumption.
Qed.

(** ** The bin index table *)

Lemma linspace_1 (a b : R) : Np.linspace a b 1 = [a].
Proof. unfold Np.linspace. simpl. f_equal. lra. Qed.

Lemma linspace_SS (a b : R) (m : nat) :
  Np.linspace a b (S (S m)) =
  map (fun i => (INR i * ((b - a) / INR (S m)) + a)%R) (seq 0 (S m)) ++ [b].
Proof.
  unfold Np.linspace.
  replace (Z.of_nat (S (S m)) - 1)%Z with (Z.of_nat (S m)) by lia.
  replace (0 <? Z.of_nat (S m))%Z with true by (symmetry; apply Z.ltb_lt; lia).
  replace (1 <? S (S m))%nat with true by reflexivity.
  rewrite <- INR_IZR_INZ.
  rewrite (seq_S (S m) 0), map_app. simpl plus. simpl (map _ [_]).
  rewrite removelast_last. reflexivity.
Qed.

Lemma linspace_length (a b : R) (n : nat) : length (Np.linspace a b n) = n.
Proof.
  destruct n as [| [| m]].
  - reflexivity.
  - rewrite linspace_1. reflexivity.
  - rewrite linspace_SS, length_app, length_map, length_seq. simpl. lia.
Qed.

Lemma linspace_head (a b : R) (n : nat) :
  exists tl, Np.linspace a b (S n) = a :: tl.
Proof.
  destruct n as [| m].
  - exists []. apply linspace_1.
  - rewrite linspace_SS. simpl seq. simpl map. eexists. simpl.
    f_equal. lra.
Qed.

Lemma linspace_last (a b : R) (m : nat) (d : R) :
  nth (S m) (Np.linspace a b (S (S m))) d = b.
Proof.
  rewrite linspace_SS.
  rewrite app_nth2; rewrite length_map, length_seq; [| lia].
  replace (S m - S m)%nat with 0%nat by lia. reflexivity.
Qed.

Lemma linspace_range (a b : R) (n : nat) :
  (b <= a)%R -> Forall (fun y => (b <= y <= a)%R) (Np.linspace a b n).
Proof.
  intro Hba. destruct n as [| [| m]].
  - constructor.
  - rewrite linspace_1. constructor; [lra | constructor].
  - rewrite linspace_SS. apply Forall_app. split.
    + apply Forall_forall. intros y Hy.
      apply in_map_iff in Hy. destruct Hy as [i [<- Hi]].
      apply in_seq in Hi.
      assert (Hm : (0 < INR (S m))%R) by (apply lt_0_INR; lia).
      assert (Hi' : (0 <= INR i <= INR (S m))%R).
      { split; [apply pos_INR | apply le_INR; lia]. }
      set (t := (INR i / INR (S m))%R).
      assert (Ht : (0 <= t <= 1)%R).
      { unfold t. split.
        - apply Rmult_le_pos; [lra |]. left. apply Rinv_0_lt_compat. lra.
        - apply Rmult_le_reg_r with (INR (S m)); [lra |].
          unfold Rdiv. rewrite Rmult_assoc, Rinv_l by lra. lra. }
      replace (INR i * ((b - a) / INR (S m)) + a)%R
        with (a - t * (a - b))%R by (unfold t; field; lra).
      nra.
    + constructor; [lra | constructor].
Qed.

Lemma log_positions_length (len : nat) :
  length (BinTable.log_positions len) = len.
Proof.
  unfold BinTable.log_positions, Np.logspace.
  rewrite !length_map. apply linspace_length.
Qed.

Lemma log_positions_head (n : nat) :
  exists tl, BinTable.log_positions (S n) = (INR (S n) - 1)%R :: tl.
Proof.
  unfold BinTable.log_positions, Np.logspace.
  destruct (linspace_head (Np.log2 (INR (S n))) 0 n) as [tl ->].
  cbn [map]. eexists. f_equal.
  rewrite Rpower_2_log2; [reflexivity | apply lt_0_INR; lia].
Qed.

Lemma log_positions_range (len : nat) :
  Forall (fun x => (0 <= x <= INR len - 1)%R) (BinTable.log_positions len).
Proof.
  destruct len as [| n]; [constructor |].
  assert (Hlen : (1 <= INR (S n))%R) by (apply (le_INR 1); lia).
  unfold BinTable.log_positions, Np.logspace.
  rewrite map_map. apply Forall_map.
  eapply Forall_impl; [| apply linspace_range; apply log2_nonneg; exact Hlen].
  intros y [Hy0 Hy1]. cbv beta.
  apply Rpower_2_mono in Hy0. apply Rpower_2_mono in Hy1.
  rewrite Rpower_O in Hy0 by lra.
  rewrite Rpower_2_log2 in Hy1 by lra. lra.
Qed.

Lemma log_positions_last (m : nat) (d : R) :
  nth (S m) (BinTable.log_positions (S (S m))) d = 0%R.
Proof.
  unfold BinTable.log_positions, Np.logspace.
  rewrite map_map.
  rewrite nth_indep with (d' := (Rpower 2 0 - 1)%R)
    by (rewrite length_map, linspace_length; lia).
  rewrite (map_nth (fun y => (Rpower 2 y - 1)%R)).
  rewrite linspace_last. rewrite Rpower_O by lra. lra.
Qed.

Lemma np_max_log_positions (n : nat) :
  np_max (BinTable.log_positions (S n)) = Ok (INR (S n) - 1)%R.
Proof.
  pose proof (log_positions_range (S n)) as Hr.
  destruct (log_positions_head n) as [tl Htl].
  rewrite Htl in *. cbn [np_max]. f_equal.
  apply fold_left_Rmax_le. inversion Hr; subst.
  eapply Forall_impl; [| eassumption]. intros x Hx. cbv beta in Hx. lra.
Qed.

Lemma raw_ids_ok (n : nat) (n_bins : Z) :
  n_bins <> 0%Z ->
  BinTable.raw_ids (S n) n_bins =
  Ok (map (fun x => Np.round ((INR (S n) - 1 - x) / (INR (S n) / IZR n_bins)))
          (BinTable.log_positions (S n))).
Proof.
  intro HB. unfold BinTable.raw_ids.
  rewrite np_max_log_positions. cbn [bind].
  unfold py_div. destruct (Req_dec_T (IZR n_bins) 0) as [H0 | _].
  { apply eq_IZR in H0. contradiction. }
  cbn [bind]. f_equal. apply map_ext. intro x. f_equal.
  unfold Rdiv. ring.
Qed.

Lemma fftx_bin_indices_ok (n : nat) (n_bins : Z) :
  (0 < n_bins)%Z ->
  BinTable.fftx_bin_indices (S n) n_bins =
  Ok (map (table_id (S n) n_bins) (seq 0 (S n))).
Proof.
  intro HB. unfold BinTable.fftx_bin_indices.
  rewrite raw_ids_ok by lia. cbn [bind].
  set (len := S n) in *.
  set (g := fun x => Np.round ((INR len - 1 - x) / (INR len / IZR n_bins))).
  assert (Hlen : (0 < INR len)%R) by (apply lt_0_INR; unfold len; lia).
  assert (HBr : (0 < IZR n_bins)%R) by (apply IZR_lt; assumption).
  assert (Hw : (0 < INR len / IZR n_bins)%R).
  { apply Rmult_lt_0_compat; [assumption | apply Rinv_0_lt_compat; assumption]. }
  assert (Hmin : np_min (map g (BinTable.log_positions len)) = Ok 0%Z).
  { pose proof (log_positions_range len) as Hr.
    destruct (log_positions_head n) as [tl Htl]. fold len in Htl.
    rewrite Htl in *. cbn [map np_min].
    assert (Hg0 : g (INR len - 1)%R = 0%Z).
    { unfold g. replace ((INR len - 1 - (INR len - 1)) / (INR len / IZR n_bins))%R
        with (IZR 0) by (field; lra).
      apply np_round_IZR. }
    rewrite Hg0. f_equal. apply fold_left_Zmin_le.
    apply Forall_map. inversion Hr; subst.
    eapply Forall_impl; [| eassumption]. intros x Hx. cbv beta in Hx.
    unfold g. apply np_round_nonneg.
    apply Rmult_le_pos; [lra |]. left. apply Rinv_0_lt_compat. assumption. }
  rewrite Hmin. cbn [bind]. f_equal.
  rewrite length_map, log_positions_length.
  apply map_ext_in. intros i Hi. apply in_seq in Hi.
  unfold table_id. f_equal. rewrite Z.sub_0_r.
  rewrite nth_indep with (d' := g 0%R)
    by (rewrite length_map, log_positions_length; lia).
  rewrite (map_nth g). reflexivity.
Qed.

Lemma table_id_bounds (len : nat) (n_bins : Z) (i : nat) :
  (0 < n_bins)%Z -> (i < len)%nat ->
  (0 <= table_id len n_bins i <= Z.of_nat i)%Z.
Proof.
  intros HB Hi. unfold table_id.
  assert (Hlen : (0 < INR len)%R) by (apply lt_0_INR; lia).
  assert (HBr : (0 < IZR n_bins)%R) by (apply IZR_lt; assumption).
  pose proof (log_positions_range len) as Hr.
  rewrite Forall_forall in Hr.
  specialize (Hr (nth i (BinTable.log_positions len) 0%R)
                 (nth_In _ _ ltac:(rewrite log_positions_length; exact Hi))).
  cbv beta in Hr.
  assert (0 <= Np.round ((INR len - 1 - nth i (BinTable.log_positions len) 0%R)
                         / (INR len / IZR n_bins))%R)%Z; [| lia].
  apply np_round_nonneg.
  apply Rmult_le_pos; [lra |]. left. apply Rinv_0_lt_compat.
  apply Rmult_lt_0_compat; [assumption | apply Rinv_0_lt_compat; assumption].
Qed.

Lemma table_id_last (m : nat) (n_bins : Z) :
  table_id (S (S m)) n_bins (S m) =
  Z.min (Z.of_nat (S m))
        (Np.round ((INR (S (S m)) - 1) / (INR (S (S m)) / IZR n_bins))).
Proof.
  unfold table_id. rewrite log_positions_last. rewrite Rminus_0_r. reflexivity.
Qed.

Lemma fftx_bin_indices_Ok_inv (len : nat) (n_bins : Z) (ids : list Z) :
  BinTable.fftx_bin_indices len n_bins = Ok ids ->
  (1 <= len)%nat /\ n_bins <> 0%Z.
Proof.
  unfold BinTable.fftx_bin_indices, BinTable.raw_ids. intro H.
  destruct len as [| n]; [discriminate |].
  split; [lia |]. intros ->.
  rewrite np_max_log_positions in H. cbn [bind] in H.
  unfold py_div in H. destruct (Req_dec_T (IZR 0) 0); [discriminate | lra].
Qed.

Lemma where_eq_In (a : list Z) (v : Z) (i : nat) :
  In i (Np.where_eq a v) <-> (i < length a)%nat /\ nth i a (-1)%Z = v.
Proof.
  unfold Np.where_eq. rewrite filter_In, in_seq, Z.eqb_eq. intuition lia.
Qed.

Lemma fftx_indices_per_bin_length (ids : list Z) (n_bins : nat) :
  length (BinTable.fftx_indices_per_bin ids n_bins) = n_bins.
Proof. unfold BinTable.fftx_indices_per_bin. rewrite length_map, length_seq. reflexivity. Qed.

Lemma fftx_indices_per_bin_nth (ids : list Z) (n_bins b : nat) :
  (b < n_bins)%nat ->
  nth b (BinTable.fftx_indices_per_bin ids n_bins) [] =
  Np.where_eq ids (Z.of_nat b).
Proof.
  intro Hb. unfold BinTable.fftx_indices_per_bin.
  rewrite nth_indep with (d' := Np.where_eq ids (Z.of_nat 0))
    by (rewrite length_map, length_seq; exact Hb).
  rewrite (map_nth (fun b => Np.where_eq ids (Z.of_nat b))).
  rewrite seq_nth by exact Hb. reflexivity.
Qed.

(** ** Construction *)

Lemma py_div_ok (a b : R) : b <> 0%R -> py_div a b = Ok (a / b)%R.
Proof. intro Hb. unfold py_div. destruct (Req_dec_T b 0); [contradiction | reflexivity]. Qed.

Lemma py_div_zero (a : R) : py_div a 0 = Raise ZeroDivisionError.
Proof. unfold py_div. destruct (Req_dec_T 0 0); [reflexivity | lra]. Qed.

Lemma py_div_Ok_inv (a b q : R) : py_div a b = Ok q -> b <> 0%R /\ q = (a / b)%R.
Proof.
  unfold py_div. destruct (Req_dec_T b 0); [discriminate |].
  intro H. inversion H. split; [assumption | reflexivity].
Qed.

Lemma np_length_ok (n : Z) : (0 <= n)%Z -> np_length n = Ok (Z.to_nat n).
Proof.
  intro Hn. unfold np_length.
  destruct (Z.ltb_spec n 0); [lia | reflexivity].
Qed.

Lemma np_length_Ok_inv (n : Z) (k : nat) :
  np_length n = Ok k -> (0 <= n)%Z /\ k = Z.to_nat n.
Proof.
  unfold np_length. destruct (Z.ltb_spec n 0) as [Hneg | Hpos]; [discriminate |].
  intro Hk. inversion Hk. split; [assumption | reflexivity].
Qed.

Section Construction.

Variable get_smoothing_filter : R -> R -> list float.

Lemma init_constructed (c : config) (s : Stream_Analyzer) :
  init get_smoothing_filter c = Ok s -> constructed c s.
Proof.
  unfold init. intro H.
  destruct (py_div _ (arg_rate c)) as [ms |] eqn:Hms; [| discriminate].
  cbn [bind] in H.
  destruct (np_length _) as [half |] eqn:Hhalf in H; [| discriminate].
  cbn [bind] in H.
  destruct (py_div (arg_rate c) _) as [per |] eqn:Hper; [| discriminate].
  cbn [bind] in H.
  destruct (py_div _ _) as [ratio |] eqn:Hratio in H; [| discriminate].
  cbn [bind] in H.
  destruct (BinTable.fftx_bin_indices _ _) as [ids |] eqn:Hids in H;
    [| discriminate].
  cbn [bind] in H.
  destruct (np_length (arg_n_frequency_bins c)) as [nb |] eqn:Hnb in H;
    [| discriminate].
  cbn [bind] in H.
  apply py_div_Ok_inv in Hms. destruct Hms as [Hrate _].
  apply np_length_Ok_inv in Hhalf. destruct Hhalf as [Hhalf0 ->].
  apply np_length_Ok_inv in Hnb. destruct Hnb as [Hnb0 ->].
  rewrite length_map, length_seq in Hids.
  pose proof (fftx_bin_indices_Ok_inv _ _ Hids) as [Hlen HB].
  inversion H; subst s; clear H.
  constructor; cbn; try reflexivity; try assumption; try lia.
  - assert (Z.even (round_up_to_even
                      (arg_rate c * arg_FFT_window_size_ms c / 1000)) = true)
      by apply round_up_to_even_even.
    set (W := round_up_to_even _) in *.
    assert (1 <= Z.quot W 2)%Z by lia.
    clearbody W. Z.to_euclidean_division_equations. lia.
  - intro Hs. rewrite Rltb_true by exact Hs. eexists. split; reflexivity.
  - intro Hs. rewrite Rltb_false by exact Hs. split; reflexivity.
Qed.

End Construction.

Section ConstructionSucceeds.

Variable get_smoothing_filter : R -> R -> list float.

(** Construction succeeds as soon as no division meets a zero and the
    spectrum and the bin vector are not empty; nothing else is checked. *)
Lemma init_ok (c : config) :
  arg_rate c <> 0%R ->
  (2 <= round_up_to_even (arg_rate c * arg_FFT_window_size_ms c / 1000))%Z ->
  arg_updates_per_second c <> 0%R ->
  round_up_to_even (arg_rate c / arg_updates_per_second c) <> 0%Z ->
  (0 < arg_n_frequency_bins c)%Z ->
  exists s, init get_smoothing_filter c = Ok s.
Proof.
  intros Hrate HW Hups Hn HB. unfold init. cbv zeta.
  rewrite (py_div_ok _ Hrate). cbn [bind].
  set (W := round_up_to_even (arg_rate c * arg_FFT_window_size_ms c / 1000))
    in *.
  assert (Hq : (1 <= Z.quot W 2)%Z).
  { clearbody W. Z.to_euclidean_division_equations. lia. }
  rewrite np_length_ok by lia. cbn [bind].
  rewrite (py_div_ok _ Hups). cbn [bind].
  rewrite py_div_ok by (intro H0; apply eq_IZR in H0; contradiction).
  cbn [bind].
  rewrite length_map, length_seq.
  destruct (Z.to_nat (Z.quot W 2)) as [| n] eqn:Hhalf; [lia |].
  rewrite fftx_bin_indices_ok by exact HB. cbn [bind].
  rewrite np_length_ok by lia. cbn [bind].
  eexists. reflexivity.
Qed.

End ConstructionSucceeds.

(** ** The dirty flag and the attributes that never change *)

Section Methods.

Variable getFFT : list float -> R -> Z -> bool -> list float.
Variable savgol_filter : list float -> Z -> Z -> list float.

Local Abbreviation get_audio_features := (get_audio_features getFFT savgol_filter).
Local Abbreviation update_features := (update_features getFFT).
Local Abbreviation do_step := (step getFFT savgol_filter).
Local Abbreviation do_run := (run getFFT savgol_filter).

Lemma get_clean (s : Stream_Analyzer) :
  buffer_is_updated s = false ->
  get_audio_features s = (s, current_features s).
Proof. intro H. unfold get_audio_features. rewrite H. reflexivity. Qed.

Lemma get_dirty (s : Stream_Analyzer) :
  buffer_is_updated s = true ->
  fst (get_audio_features s) =
  let s1 := update_rolling_stats (update_features s) in
  set_buffer_is_updated false
    (set_frequency_bin_energies
       (postprocess savgol_filter s1 (frequency_bin_energies s1)) s1).
Proof. intro H. unfold get_audio_features. rewrite H. reflexivity. Qed.

Lemma get_returns_current (s : Stream_Analyzer) :
  snd (get_audio_features s) = current_features (fst (get_audio_features s)).
Proof. reflexivity. Qed.

Lemma get_clears_flag (s : Stream_Analyzer) :
  buffer_is_updated (fst (get_audio_features s)) = false.
Proof.
  unfold get_audio_features. cbn [fst].
  destruct (buffer_is_updated s) eqn:Hd; [| exact Hd].
  destruct (update_rolling_stats _). reflexivity.
Qed.

Lemma update_features_static (s : Stream_Analyzer) :
  static (update_features s) = static s.
Proof.
  unfold update_features.
  destruct (temporal_smoothing _ _) as [fb sp]. destruct s. reflexivity.
Qed.

Lemma update_features_num_ffts (s : Stream_Analyzer) :
  num_ffts (update_features s) = (num_ffts s + 1)%nat.
Proof.
  unfold update_features.
  destruct (temporal_smoothing _ _) as [fb sp]. destruct s. reflexivity.
Qed.

Lemma update_features_rolling (s : Stream_Analyzer) :
  rolling_bin_values (update_features s) = rolling_bin_values s.
Proof.
  unfold update_features.
  destruct (temporal_smoothing _ _) as [fb sp]. destruct s. reflexivity.
Qed.

Lemma update_rolling_stats_static (s : Stream_Analyzer) :
  static (update_rolling_stats s) = static s.
Proof. destruct s. reflexivity. Qed.

Lemma get_static (s : Stream_Analyzer) :
  static (fst (get_audio_features s)) = static s.
Proof.
  unfold get_audio_features. cbn [fst].
  destruct (buffer_is_updated s); [| reflexivity].
  transitivity (static (update_rolling_stats (update_features s))).
  - generalize (update_rolling_stats (update_features s)).
    intros []. reflexivity.
  - rewrite update_rolling_stats_static. apply update_features_static.
Qed.

Lemma get_num_ffts (s : Stream_Analyzer) :
  num_ffts (fst (get_audio_features s)) = (num_ffts s + dirty s)%nat.
Proof.
  unfold get_audio_features, dirty. cbn [fst].
  destruct (buffer_is_updated s); [| lia].
  rewrite <- update_features_num_ffts.
  generalize (update_features s). intro s1. destruct s1. reflexivity.
Qed.

Lemma step_static (s : Stream_Analyzer) (c : call) :
  static (do_step s c) = static s.
Proof.
  destruct c as [d |]; [destruct s; reflexivity | apply get_static].
Qed.

Lemma run_static (cs : list call) (s : Stream_Analyzer) :
  static (do_run s cs) = static s.
Proof.
  revert s. induction cs as [| c cs IH]; intro s; [reflexivity |].
  cbn [run fold_left]. change (static (do_run (do_step s c) cs) = static s).
  rewrite IH. apply step_static.
Qed.

Lemma step_pipeline_budget (s : Stream_Analyzer) (c : call) :
  (num_ffts (do_step s c) + dirty (do_step s c)
   <= num_ffts s + dirty s + appends [c])%nat.
Proof.
  destruct c as [d |]; cbn [step].
  - unfold dirty. destruct s as []. cbn.
    destruct buffer_is_updated0; lia.
  - rewrite get_num_ffts. unfold dirty. rewrite get_clears_flag.
    cbn. lia.
Qed.

Lemma run_pipeline_budget (cs : list call) (s : Stream_Analyzer) :
  (num_ffts (do_run s cs) + dirty (do_run s cs)
   <= num_ffts s + dirty s + appends cs)%nat.
Proof.
  revert s. induction cs as [| c cs IH]; intro s; [cbn; lia |].
  change (do_run s (c :: cs)) with (do_run (do_step s c) cs).
  specialize (IH (do_step s c)).
  pose proof (step_pipeline_budget s c) as Hc.
  assert (appends (c :: cs) = appends [c] + appends cs)%nat
    by (destruct c; reflexivity).
  lia.
Qed.

End Methods.

Lemma init_default_ok (get_smoothing_filter : R -> R -> list float) :
  exists s, init get_smoothing_filter default_config = Ok s.
Proof.
  apply init_ok; cbn [default_config arg_rate arg_FFT_window_size_ms
                      arg_updates_per_second arg_n_frequency_bins].
  - lra.
  - apply round_up_to_even_pos. lra.
  - lra.
  - assert (2 <= round_up_to_even (96000 / 10))%Z
      by (apply round_up_to_even_pos; lra).
    lia.
  - lia.
Qed.

(** ** Idempotent reads, the cold start and the default filter width *)

(** C2.  After any sequence of [append_data] and [get_audio_features] calls,
    a second [get_audio_features] that follows a first one with no
    [append_data] in between returns the same four sequences and leaves the
    analyzer as the first call left it, so nothing is recomputed; and the
    number of pipeline runs ([num_ffts], which [update_features] increments,
    together with the run a set dirty flag still owes) never exceeds the
    number of [append_data] calls made so far. *)
Theorem C2_get_audio_features_idempotent
        (getFFT : list float -> R -> Z -> bool -> list float)
        (savgol_filter : list float -> Z -> Z -> list float)
        (s0 : Stream_Analyzer) (cs : list call) :
  let s := run getFFT savgol_filter s0 cs in
  let first := get_audio_features getFFT savgol_filter s in
  let second := get_audio_features getFFT savgol_filter (fst first) in
  snd second = snd first /\
  fst second = fst first /\
  (num_ffts s + dirty s <= num_ffts s0 + dirty s0 + appends cs)%nat.
Proof.
  intros s first second.
  assert (Hclean : buffer_is_updated (fst first) = false)
    by apply get_clears_flag.
  assert (Hsecond : second = (fst first, current_features (fst first)))
    by (apply get_clean; exact Hclean).
  rewrite Hsecond. cbn [fst snd].
  split; [| split].
  - symmetry. apply get_returns_current.
  - reflexivity.
  - apply run_pipeline_budget.
Qed.



Ltac from_static H :=
  unfold static in H; injection H; intros; assumption.

Lemma postprocess_narrow
      (savgol_filter : list float -> Z -> Z -> list float)
      (s : Stream_Analyzer) (energies : list float) :
  (filter_width s <= 3)%Z ->
  postprocess savgol_filter s energies =
  Np.clamp_negative (Np.nan_to_num energies).
Proof.
  intro Hw. unfold postprocess.
  replace (3 <? filter_width s)%Z with false
    by (symmetry; apply Z.ltb_ge; exact Hw).
  rewrite andb_false_r. reflexivity.
Qed.

Lemma run_savgol_irrelevant
      (getFFT : list float -> R -> Z -> bool -> list float)
      (sg1 sg2 : list float -> Z -> Z -> list float)
      (cs : list call) (s : Stream_Analyzer) :
  (filter_width s <= 3)%Z ->
  run getFFT sg1 s cs = run getFFT sg2 s cs.
Proof.
  revert s. induction cs as [| c cs IH]; intros s Hw; [reflexivity |].
  cbn [run fold_left].
  assert (Hstep : step getFFT sg1 s c = step getFFT sg2 s c).
  { destruct c as [d |]; [reflexivity |].
    cbn [step]. unfold get_audio_features. cbn [fst].
    destruct (buffer_is_updated s); [| reflexivity].
    assert (Hw1 : (filter_width (update_rolling_stats (update_features getFFT s))
                   <= 3)%Z).
    { pose proof (update_rolling_stats_static (update_features getFFT s)) as H1.
      pose proof (update_features_static getFFT s) as H2.
      rewrite H2 in H1.
      replace (filter_width (update_rolling_stats (update_features getFFT s)))
        with (filter_width s) by (symmetry; from_static H1).
      exact Hw. }
    rewrite !postprocess_narrow by exact Hw1. reflexivity. }
  rewrite Hstep. apply (IH (step getFFT sg2 s c)).
  pose proof (step_static getFFT sg2 s c) as H.
  replace (filter_width (step getFFT sg2 s c)) with (filter_width s)
    by (symmetry; from_static H).
  exact Hw.
Qed.

(** C10.  With 51 bins the filter width [round_up_to_even(0.03 * 51) - 1]
    is 1, which does not exceed 3: although frequency smoothing is enabled,
    after any sequence of calls the post-processing is just the NaN
    replacement followed by the clamp of negative values, and the analyzer
    evolves the same way whatever the Savitzky-Golay filter is. *)
Theorem C10_default_bins_skip_savgol
        (getFFT : list float -> R -> Z -> bool -> list float)
        (savgol_filter : list float -> Z -> Z -> list float)
        (get_smoothing_filter : R -> R -> list float)
        (c : config) (s : Stream_Analyzer) (cs : list call)
        (energies : list float) :
  arg_n_frequency_bins c = 51%Z ->
  init get_smoothing_filter c = Ok s ->
  (round_up_to_even (0.03 * 51) - 1 = 1)%Z /\
  filter_width s = 1%Z /\
  apply_frequency_smoothing s = true /\
  postprocess savgol_filter (run getFFT savgol_filter s cs) energies =
  Np.clamp_negative (Np.nan_to_num energies) /\
  forall other_filter,
    run getFFT other_filter s cs = run getFFT savgol_filter s cs.
Proof.
  intros HB Hinit. apply init_constructed in Hinit. destruct Hinit.
  assert (Hwidth : (round_up_to_even (0.03 * 51) - 1 = 1)%Z).
  { rewrite (round_up_to_even_eq 1); [reflexivity |]. simpl IZR. lra. }
  assert (Hfw : filter_width s = 1%Z).
  { rewrite c_filter_width0, c_n_frequency_bins0, HB. exact Hwidth. }
  split; [exact Hwidth | split; [exact Hfw | split; [assumption | split]]].
  - apply postprocess_narrow.
    pose proof (run_static getFFT savgol_filter cs s) as H.
    replace (filter_width (run getFFT savgol_filter s cs)) with (filter_width s)
      by (symmetry; from_static H).
    lia.
  - intro other. apply run_savgol_irrelevant. lia.
Qed.

Lemma C10_default_bins_skip_savgol_witness :
  exists s,
    init (fun _ _ => [Fin 1]) default_config = Ok s /\
    filter_width s = 1%Z /\
    postprocess (fun e _ _ => map (Float.add (Fin 1)) e)
                (run flat_spectrum (fun e _ _ => map (Float.add (Fin 1)) e)
                     s [Append (repeat (Fin 0) (Z.to_nat 9600)); Get])
                [Fin (-1); NaN] =
    Np.clamp_negative (Np.nan_to_num [Fin (-1); NaN]).
Proof.
  destruct (init_default_ok (fun _ _ => [Fin 1])) as [s Hs].
  exists s. split; [exact Hs |].
  pose proof (C10_default_bins_skip_savgol
                flat_spectrum (fun e _ _ => map (Float.add (Fin 1)) e)
                (fun _ _ => [Fin 1]) default_config
                [Append (repeat (Fin 0) (Z.to_nat 9600)); Get] [Fin (-1); NaN] eq_refl Hs)
    as [_ [Hfw [_ [Hpost _]]]].
  split; [exact Hfw | exact Hpost].
Defined.

(** ** NaN and finiteness through sums, means and the ring buffer *)

Lemma add_nan_r (a : float) : Float.add a NaN = NaN.
Proof. destruct a; reflexivity. Qed.

Lemma fold_add_nan (xs : list float) : fold_left Float.add xs NaN = NaN.
Proof. induction xs as [| x xs IH]; [reflexivity | exact IH]. Qed.

Lemma fold_add_In_nan (xs : list float) (acc : float) :
  In NaN xs -> fold_left Float.add xs acc = NaN.
Proof.
  revert acc. induction xs as [| x xs IH]; intros acc Hin; [destruct Hin |].
  destruct Hin as [-> | Hin]; cbn [fold_left].
  - rewrite add_nan_r. apply fold_add_nan.
  - apply IH. exact Hin.
Qed.

Lemma mean_nil : Np.mean [] = NaN.
Proof.
  unfold Np.mean, Np.sum, Float.zero, Float.div. cbn [fold_left length INR].
  rewrite !Rltb_false by lra. reflexivity.
Qed.

Lemma mean_In_nan (xs : list float) : In NaN xs -> Np.mean xs = NaN.
Proof.
  intro Hin. unfold Np.mean, Np.sum. rewrite fold_add_In_nan by exact Hin.
  reflexivity.
Qed.

Lemma fold_add_finite (xs : list float) (r : R) :
  Forall (fun x => Float.is_finite x = true) xs ->
  exists r', fold_left Float.add xs (Fin r) = Fin r'.
Proof.
  intro H. revert r. induction H as [| x xs Hx _ IH]; intro r.
  - exists r. reflexivity.
  - destruct x; try discriminate. cbn [fold_left Float.add]. apply IH.
Qed.

Lemma mean_finite (xs : list float) :
  xs <> [] ->
  Forall (fun x => Float.is_finite x = true) xs ->
  exists r, Np.mean xs = Fin r.
Proof.
  intros Hne Hfin. unfold Np.mean, Np.sum, Float.zero.
  destruct (fold_add_finite 0 Hfin) as [r' ->].
  unfold Float.div. rewrite Rltb_true.
  - eexists. reflexivity.
  - apply lt_0_INR. destruct xs; [contradiction | cbn; lia].
Qed.

Lemma mean_axis0_length (ncols : nat) (rows : list (list float)) :
  length (Np.mean_axis0 ncols rows) = ncols.
Proof. unfold Np.mean_axis0. rewrite length_map, length_seq. reflexivity. Qed.

Lemma mean_axis0_nth (ncols : nat) (rows : list (list float)) (j : nat)
      (d : float) :
  (j < ncols)%nat ->
  nth j (Np.mean_axis0 ncols rows) d =
  Np.mean (map (fun row => nth j row NaN) rows).
Proof.
  intro Hj. unfold Np.mean_axis0.
  rewrite nth_indep
    with (d' := (fun j => Np.mean (map (fun row => nth j row NaN) rows)) 0%nat)
    by (rewrite length_map, length_seq; exact Hj).
  rewrite (map_nth (fun j => Np.mean (map (fun row => nth j row NaN) rows))).
  rewrite seq_nth by exact Hj. reflexivity.
Qed.

Lemma lastn_app_last {A : Type} (n : nat) (l : list A) (x : A) :
  (1 <= n)%nat ->
  Buffer.lastn n (l ++ [x]) = Buffer.lastn (n - 1) l ++ [x].
Proof.
  intro Hn. unfold Buffer.lastn.
  rewrite length_app. cbn [length].
  rewrite skipn_app.
  replace (length l + 1 - n)%nat with (length l - (n - 1))%nat by lia.
  replace (length l - (n - 1) - length l)%nat with 0%nat by lia.
  reflexivity.
Qed.


Lemma append_data_windows (b : Buffer.t) (w : list float) :
  (1 <= Buffer.n_windows b)%nat ->
  Buffer.windows (Buffer.append_data b w) =
  Buffer.lastn (Buffer.n_windows b - 1) (Buffer.windows b) ++ [w].
Proof. intro H. cbn [Buffer.append_data Buffer.windows]. apply lastn_app_last. exact H. Qed.

Lemma mul_nan_r (a : float) : Float.mul a NaN = NaN.
Proof. destruct a; reflexivity. Qed.

Lemma geb_nan_r (a : float) : Float.geb a NaN = false.
Proof. destruct a; reflexivity. Qed.

Lemma maximum_geb_l (f m : R) :
  Float.geb (Float.maximum (Fin f) (Fin m)) (Fin f) = true.
Proof.
  unfold Float.maximum. cbn [Float.ltb].
  destruct (Float.Rltb f m) eqn:Hlt; cbn [Float.geb Float.ltb].
  - apply Rltb_spec in Hlt. rewrite Rltb_false by lra. reflexivity.
  - rewrite Rltb_false by lra. reflexivity.
Qed.

(** ** The model on small inputs *)

Lemma np_round_tie (z : Z) :
  Np.round (IZR z + 1 / 2) = if Z.even z then z else (z + 1)%Z.
Proof.
  unfold Np.round.
  rewrite (Zfloor_eq z) by lra.
  destruct (Rlt_dec (IZR z + 1 / 2 - IZR z) (1 / 2)); [lra |].
  destruct (Rlt_dec (1 / 2) (IZR z + 1 / 2 - IZR z)); [lra |].
  reflexivity.
Qed.

Example round_examples :
  Np.round (5 / 2) = 2%Z /\ Np.round (7 / 2) = 4%Z /\
  Np.round (51 - 1 / 48) = 51%Z /\ Np.round (- (1 / 4)) = 0%Z.
Proof.
  split; [| split; [| split]].
  - replace (5 / 2)%R with (IZR 2 + 1 / 2)%R by lra. apply np_round_tie.
  - replace (7 / 2)%R with (IZR 3 + 1 / 2)%R by lra. apply np_round_tie.
  - apply np_round_eq. lra.
  - apply np_round_eq. lra.
Qed.

Example round_up_to_even_examples :
  round_up_to_even 2400 = 2400%Z /\ round_up_to_even (41 / 10) = 6%Z /\
  round_up_to_even (153 / 100) = 2%Z /\ round_up_to_even 0 = 0%Z.
Proof.
  split; [| split; [| split]].
  - apply (round_up_to_even_eq 1200). simpl IZR. lra.
  - apply (round_up_to_even_eq 3). simpl IZR. lra.
  - apply (round_up_to_even_eq 1). simpl IZR. lra.
  - apply (round_up_to_even_eq 0). simpl IZR. lra.
Qed.

Example mean_examples :
  Np.mean [Fin 1; Fin 3] = Fin ((0 + 1 + 3) / INR 2) /\
  Np.mean [] = NaN /\
  Np.mean [Fin 1; NaN; Fin 3] = NaN /\
  Np.nan_to_num [NaN; Fin 2] = [Fin 0; Fin 2] /\
  Np.clamp_negative [Fin (-1); Fin 2; NaN] = [Fin 0; Fin 2; NaN].
Proof.
  split; [| split; [| split; [| split]]].
  - unfold Np.mean, Np.sum, Float.zero. cbn [fold_left Float.add Float.div].
    rewrite Rltb_true; [reflexivity | cbn; lra].
  - apply mean_nil.
  - apply mean_In_nan. right. left. reflexivity.
  - reflexivity.
  - unfold Np.clamp_negative, Float.zero. cbn [map Float.ltb].
    rewrite Rltb_true by lra. rewrite Rltb_false by lra. reflexivity.
Qed.

(** Two spectrum positions and three bins: the ids are 0 and 1, bin 2 stays
    empty. *)
Example table_two_positions_three_bins :
  BinTable.fftx_bin_indices 2 3 = Ok [0%Z; 1%Z] /\
  BinTable.fftx_indices_per_bin [0%Z; 1%Z] 3 = [[0%nat]; [1%nat]; []].
Proof.
  split; [| reflexivity].
  rewrite fftx_bin_indices_ok by lia. f_equal.
  cbn [seq map]. f_equal; [| f_equal].
  - pose proof (@table_id_bounds 2 3 0 ltac:(lia) ltac:(lia)). lia.
  - rewrite (table_id_last 0 3).
    replace ((INR 2 - 1) / (INR 2 / 3))%R with (IZR 1 + 1 / 2)%R
      by (cbn [INR]; field).
    rewrite np_round_tie. reflexivity.
Qed.

(** A ring buffer of capacity 2. *)
Example buffer_examples :
  let b0 := Buffer.create 2 1 Float.zero 2 in
  let b1 := Buffer.append_data b0 [Fin 1] in
  let b3 := Buffer.append_data (Buffer.append_data b1 [Fin 2]) [Fin 3] in
  Buffer.get_most_recent_rows b1 2 = [[Fin 1]] /\
  Buffer.get_most_recent_rows b3 2 = [[Fin 2]; [Fin 3]] /\
  Buffer.get_buffer_data b3 = [[Fin 2]; [Fin 3]] /\
  Buffer.get_most_recent b3 1 = [Fin 3].
Proof. repeat split. Qed.

(** ** The rolling adaptive equalizer *)

Lemma update_rolling_stats_history (s : Stream_Analyzer) :
  rolling_bin_values (update_rolling_stats s) =
  Buffer.append_data (rolling_bin_values s) (frequency_bin_energies s).
Proof. destruct s. reflexivity. Qed.

Lemma update_rolling_stats_means (s : Stream_Analyzer) :
  bin_mean_values (update_rolling_stats s) =
  Np.maximum_scalar
    (equalizer_floor (equalizer_strength s)
                     (per_bin_means (rolling_bin_values (update_rolling_stats s))))
    (per_bin_means (rolling_bin_values (update_rolling_stats s))).
Proof. destruct s. reflexivity. Qed.

Lemma update_rolling_stats_energies (s : Stream_Analyzer) :
  frequency_bin_energies (update_rolling_stats s) = frequency_bin_energies s.
Proof. destruct s. reflexivity. Qed.

Lemma update_features_energies
      (getFFT : list float -> R -> Z -> bool -> list float)
      (s : Stream_Analyzer) :
  frequency_bin_energies (update_features getFFT s) =
  bin_energies (fft (update_features getFFT s)) (fftx_indices_per_bin s)
               (n_frequency_bins s).
Proof.
  unfold update_features.
  destruct (temporal_smoothing _ _) as [fb sp]. destruct s. reflexivity.
Qed.

Lemma postprocess_static
      (savgol_filter : list float -> Z -> Z -> list float)
      (s1 s2 : Stream_Analyzer) (energies : list float) :
  static s1 = static s2 ->
  postprocess savgol_filter s1 energies = postprocess savgol_filter s2 energies.
Proof.
  intro H. unfold postprocess.
  replace (apply_frequency_smoothing s1) with (apply_frequency_smoothing s2)
    by (symmetry; from_static H).
  replace (filter_width s1) with (filter_width s2) by (symmetry; from_static H).
  reflexivity.
Qed.

Lemma get_dirty_fields
      (getFFT : list float -> R -> Z -> bool -> list float)
      (savgol_filter : list float -> Z -> Z -> list float)
      (s : Stream_Analyzer) :
  buffer_is_updated s = true ->
  let s1 := update_rolling_stats (update_features getFFT s) in
  let s' := fst (get_audio_features getFFT savgol_filter s) in
  rolling_bin_values s' = rolling_bin_values s1 /\
  bin_mean_values s' = bin_mean_values s1 /\
  fft s' = fft (update_features getFFT s) /\
  frequency_bin_energies s' =
  postprocess savgol_filter s
              (frequency_bin_energies (update_features getFFT s)).
Proof.
  intros Hd s1 s'. subst s'. rewrite get_dirty by exact Hd. cbv zeta. fold s1.
  assert (Hst : static s1 = static s).
  { unfold s1. rewrite update_rolling_stats_static.
    apply update_features_static. }
  rewrite <- (postprocess_static savgol_filter _ Hst).
  rewrite <- (update_rolling_stats_energies (update_features getFFT s)).
  fold s1.
  assert (Hfft : fft s1 = fft (update_features getFFT s)).
  { unfold s1. destruct (update_features getFFT s). reflexivity. }
  rewrite <- Hfft.
  destruct s1. cbn. repeat split; reflexivity.
Qed.

Lemma bin_energies_empty_bin (spectrum : list float)
      (per_bin : list (list nat)) (n_bins : Z) (b : nat) (d : float) :
  (b < Z.to_nat n_bins)%nat -> nth b per_bin [] = [] ->
  nth b (bin_energies spectrum per_bin n_bins) d = NaN.
Proof.
  intros Hb Hempty. unfold bin_energies.
  rewrite nth_indep
    with (d' := (fun b => Np.mean (Np.take spectrum (nth b per_bin []))) 0%nat)
    by (rewrite length_map, length_seq; exact Hb).
  rewrite (map_nth (fun b => Np.mean (Np.take spectrum (nth b per_bin [])))).
  rewrite seq_nth by exact Hb. cbn [plus]. rewrite Hempty. apply mean_nil.
Qed.

Lemma per_bin_means_nan (history : Buffer.t) (row : list float) (b : nat)
      (d : float) :
  (1 <= Buffer.n_windows history)%nat ->
  (b < Buffer.samples_per_window history)%nat ->
  nth b row NaN = NaN ->
  nth b (per_bin_means (Buffer.append_data history row)) d = NaN.
Proof.
  intros Hcap Hb Hrow. unfold per_bin_means, Buffer.get_buffer_data.
  cbn [Buffer.samples_per_window Buffer.append_data].
  rewrite mean_axis0_nth by exact Hb.
  apply mean_In_nan. apply in_map_iff. exists row. split; [exact Hrow |].
  fold (Buffer.windows (Buffer.append_data history row)).
  rewrite append_data_windows by exact Hcap.
  apply in_or_app. right. left. reflexivity.
Qed.

Lemma per_bin_means_length (history : Buffer.t) :
  length (per_bin_means history) = Buffer.samples_per_window history.
Proof. apply mean_axis0_length. Qed.

Lemma equalized_nan (strength : R) (means : list float) (b j : nat)
      (d : float) :
  (b < length means)%nat -> nth b means NaN = NaN ->
  (j < length means)%nat ->
  equalizer_floor strength means = NaN /\
  nth j (Np.maximum_scalar (equalizer_floor strength means) means) d = NaN.
Proof.
  intros Hb Hnan Hj.
  assert (Hfloor : equalizer_floor strength means = NaN).
  { unfold equalizer_floor. rewrite mean_In_nan; [reflexivity |].
    rewrite <- Hnan. apply nth_In. exact Hb. }
  split; [exact Hfloor |].
  rewrite Hfloor. unfold Np.maximum_scalar.
  rewrite nth_indep with (d' := Float.maximum NaN NaN)
    by (rewrite length_map; exact Hj).
  rewrite (map_nth (Float.maximum NaN)). reflexivity.
Qed.

(** ** Analyzers reached from a constructed one *)

Lemma constructed_ids (c : config) (s : Stream_Analyzer) :
  constructed c s ->
  let len := Z.to_nat (Z.quot (FFT_window_size s) 2) in
  (1 <= len)%nat /\
  fftx_bin_indices s = map (table_id len (n_frequency_bins s)) (seq 0 len).
Proof.
  intros Hc len. destruct Hc.
  pose proof (fftx_bin_indices_Ok_inv _ _ c_fftx_bin_indices0) as [Hlen _].
  fold len in c_fftx_bin_indices0, Hlen.
  split; [exact Hlen |].
  destruct len as [| n]; [lia |].
  rewrite fftx_bin_indices_ok in c_fftx_bin_indices0 by assumption.
  inversion c_fftx_bin_indices0. reflexivity.
Qed.

Lemma constructed_bin_members (c : config) (s : Stream_Analyzer) (b i : nat) :
  constructed c s ->
  (b < Z.to_nat (n_frequency_bins s))%nat ->
  let len := Z.to_nat (Z.quot (FFT_window_size s) 2) in
  In i (nth b (fftx_indices_per_bin s) []) <->
  (i < len)%nat /\ table_id len (n_frequency_bins s) i = Z.of_nat b.
Proof.
  intros Hc Hb len.
  pose proof (constructed_ids Hc) as [Hlen Hids]. fold len in Hlen, Hids.
  destruct Hc.
  rewrite c_fftx_indices_per_bin0, fftx_indices_per_bin_nth by exact Hb.
  rewrite where_eq_In, Hids, length_map, length_seq.
  split; intros [Hi Hid]; (split; [exact Hi |]).
  - rewrite nth_indep with (d' := table_id len (n_frequency_bins s) 0) in Hid
      by (rewrite length_map, length_seq; exact Hi).
    rewrite (map_nth (table_id len (n_frequency_bins s))) in Hid.
    rewrite seq_nth in Hid by exact Hi. exact Hid.
  - rewrite nth_indep with (d' := table_id len (n_frequency_bins s) 0)
      by (rewrite length_map, length_seq; exact Hi).
    rewrite (map_nth (table_id len (n_frequency_bins s))).
    rewrite seq_nth by exact Hi. exact Hid.
Qed.

(** The index sets are pairwise disjoint, and they collect exactly the
    positions whose id is below the bin count. *)
Lemma constructed_bins_disjoint (c : config) (s : Stream_Analyzer)
      (b1 b2 i : nat) :
  constructed c s ->
  (b1 < Z.to_nat (n_frequency_bins s))%nat ->
  (b2 < Z.to_nat (n_frequency_bins s))%nat ->
  In i (nth b1 (fftx_indices_per_bin s) []) ->
  In i (nth b2 (fftx_indices_per_bin s) []) ->
  b1 = b2.
Proof.
  intros Hc Hb1 Hb2 H1 H2.
  apply (constructed_bin_members i Hc Hb1) in H1.
  apply (constructed_bin_members i Hc Hb2) in H2.
  destruct H1 as [_ H1]. destruct H2 as [_ H2]. lia.
Qed.

Lemma constructed_position_collected (c : config) (s : Stream_Analyzer)
      (i : nat) :
  constructed c s ->
  let len := Z.to_nat (Z.quot (FFT_window_size s) 2) in
  (i < len)%nat ->
  (exists b, (b < Z.to_nat (n_frequency_bins s))%nat /\
             In i (nth b (fftx_indices_per_bin s) [])) <->
  (table_id len (n_frequency_bins s) i < n_frequency_bins s)%Z.
Proof.
  intros Hc len Hi.
  pose proof (table_id_bounds (c_bins_pos Hc) Hi) as Hid. fold len in Hid.
  split.
  - intros [b [Hb Hin]].
    apply (constructed_bin_members i Hc Hb) in Hin. fold len in Hin.
    destruct Hin as [_ Hin]. lia.
  - intro Hlt.
    exists (Z.to_nat (table_id len (n_frequency_bins s) i)).
    assert (Hb : (Z.to_nat (table_id len (n_frequency_bins s) i)
                  < Z.to_nat (n_frequency_bins s))%nat) by lia.
    split; [exact Hb |].
    apply (constructed_bin_members i Hc Hb). fold len.
    split; [exact Hi | lia].
Qed.

(** A bin whose id is not below the spectrum length receives no position:
    the id of a position never exceeds the position. *)
Lemma constructed_bin_beyond_spectrum (c : config) (s : Stream_Analyzer)
      (b : nat) :
  constructed c s ->
  (b < Z.to_nat (n_frequency_bins s))%nat ->
  (Z.to_nat (Z.quot (FFT_window_size s) 2) <= b)%nat ->
  nth b (fftx_indices_per_bin s) [] = [].
Proof.
  intros Hc Hb Hlen.
  destruct (nth b (fftx_indices_per_bin s) []) as [| i rest] eqn:Hbin;
    [reflexivity | exfalso].
  assert (Hin : In i (nth b (fftx_indices_per_bin s) []))
    by (rewrite Hbin; left; reflexivity).
  apply (constructed_bin_members i Hc Hb) in Hin. destruct Hin as [Hi Hid].
  pose proof (table_id_bounds (c_bins_pos Hc) Hi).
  lia.
Qed.

Lemma init_cramped_ok (get_smoothing_filter : R -> R -> list float) :
  exists s, init get_smoothing_filter cramped_config = Ok s.
Proof.
  apply init_ok; cbn [cramped_config arg_rate arg_FFT_window_size_ms
                      arg_updates_per_second arg_n_frequency_bins].
  - lra.
  - apply round_up_to_even_pos. lra.
  - lra.
  - assert (2 <= round_up_to_even (1000 / 10))%Z
      by (apply round_up_to_even_pos; lra).
    lia.
  - lia.
Qed.

Lemma cramped_shape (c := cramped_config) (s : Stream_Analyzer) :
  constructed c s ->
  n_frequency_bins s = 3%Z /\ FFT_window_size s = 4%Z /\
  Z.to_nat (Z.quot (FFT_window_size s) 2) = 2%nat.
Proof.
  intro Hc. destruct Hc.
  assert (HW : FFT_window_size s = 4%Z).
  { rewrite c_FFT_window_size0.
    cbn [c cramped_config arg_rate arg_FFT_window_size_ms].
    apply (round_up_to_even_eq 2). simpl IZR. lra. }
  split; [rewrite c_n_frequency_bins0; reflexivity | split; [exact HW |]].
  rewrite HW. reflexivity.
Qed.

Section Reached.

Variable getFFT : list float -> R -> Z -> bool -> list float.
Variable savgol_filter : list float -> Z -> Z -> list float.
Variable get_smoothing_filter : R -> R -> list float.

Lemma reached_rolling_shape (c : config) (s0 : Stream_Analyzer)
      (cs : list call) :
  constructed c s0 ->
  let s := run getFFT savgol_filter s0 cs in
  n_frequency_bins s = n_frequency_bins s0 /\
  fftx_indices_per_bin s = fftx_indices_per_bin s0 /\
  Buffer.n_windows (rolling_bin_values s) = 600%nat /\
  Buffer.samples_per_window (rolling_bin_values s)
  = Z.to_nat (n_frequency_bins s).
Proof.
  intros Hc s. pose proof (run_static getFFT savgol_filter cs s0) as H.
  fold s in H. destruct Hc.
  assert (H1 : n_frequency_bins s = n_frequency_bins s0) by from_static H.
  assert (H2 : fftx_indices_per_bin s = fftx_indices_per_bin s0)
    by from_static H.
  assert (H3 : Buffer.n_windows (rolling_bin_values s)
               = Buffer.n_windows (rolling_bin_values s0)) by from_static H.
  assert (H4 : Buffer.samples_per_window (rolling_bin_values s)
               = Buffer.samples_per_window (rolling_bin_values s0))
    by from_static H.
  rewrite c_rolling_bin_values0 in H3, H4. cbn in H3, H4.
  rewrite H1. repeat split; assumption.
Qed.

(** What a dirty [get_audio_features] does to the equalizer when some bin
    has no spectrum position. *)
Lemma dirty_get_empty_bin (c : config) (s0 : Stream_Analyzer)
      (cs : list call) (b j : nat) (d : float) :
  constructed c s0 ->
  let s := run getFFT savgol_filter s0 cs in
  buffer_is_updated s = true ->
  (b < Z.to_nat (n_frequency_bins s))%nat ->
  nth b (fftx_indices_per_bin s) [] = [] ->
  (j < Z.to_nat (n_frequency_bins s))%nat ->
  let s' := fst (get_audio_features getFFT savgol_filter s) in
  nth b (frequency_bin_energies (update_features getFFT s)) d = NaN /\
  nth b (per_bin_means (rolling_bin_values s')) d = NaN /\
  equalizer_floor (equalizer_strength s')
                  (per_bin_means (rolling_bin_values s')) = NaN /\
  nth j (bin_mean_values s') d = NaN.
Proof.
  intros Hc s Hd Hb Hempty Hj s'.
  pose proof (reached_rolling_shape cs Hc) as [_ [_ [Hcap Hcols]]].
  fold s in Hcap, Hcols.
  pose proof (get_dirty_fields getFFT savgol_filter s Hd)
    as [Hroll [Hmeans _]].
  cbv zeta in Hroll, Hmeans. fold s' in Hroll, Hmeans.
  set (computed := update_features getFFT s) in *.
  assert (Hraw : forall d', nth b (frequency_bin_energies computed) d' = NaN).
  { intro d'. unfold computed. rewrite update_features_energies.
    apply bin_energies_empty_bin; assumption. }
  rewrite update_rolling_stats_history in Hroll.
  rewrite update_rolling_stats_means, update_rolling_stats_history in Hmeans.
  unfold computed in Hroll, Hmeans.
  rewrite update_features_rolling in Hroll, Hmeans. fold computed in Hroll, Hmeans.
  assert (Hstrength : equalizer_strength s' = equalizer_strength computed).
  { pose proof (get_static getFFT savgol_filter s) as H1. fold s' in H1.
    pose proof (update_features_static getFFT s) as H2. fold computed in H2.
    rewrite <- H2 in H1. from_static H1. }
  rewrite Hstrength.
  set (history := Buffer.append_data (rolling_bin_values s)
                                     (frequency_bin_energies computed)) in *.
  assert (Hcolumn : forall d', nth b (per_bin_means history) d' = NaN).
  { intro d'. apply per_bin_means_nan; [lia | lia | apply Hraw]. }
  assert (Hwidth : length (per_bin_means history)
                   = Z.to_nat (n_frequency_bins s)).
  { rewrite per_bin_means_length. unfold history. cbn. exact Hcols. }
  rewrite Hroll, Hmeans.
  destruct (@equalized_nan (equalizer_strength computed)
                           (per_bin_means history) b j d) as [Hfloor Hall];
    try (rewrite Hwidth; assumption); [apply Hcolumn |].
  repeat split; [apply Hraw | apply Hcolumn | exact Hfloor | exact Hall].
Qed.

End Reached.

(** C9.  On a dirty [get_audio_features] the vector that enters the rolling
    equalizer history is the bin-energy vector exactly as the aggregator
    left it, before NaN replacement and clamping, while the vector returned
    is its post-processed form; the equalizer means are recomputed from the
    history that holds the raw vector.  Hence a bin without spectrum
    positions puts NaN into the history, into its per-bin mean and into the
    equalizer mean vector. *)
Theorem C9_rolling_history_takes_raw_energies
        (getFFT : list float -> R -> Z -> bool -> list float)
        (savgol_filter : list float -> Z -> Z -> list float)
        (get_smoothing_filter : R -> R -> list float)
        (c : config) (s0 : Stream_Analyzer) (cs : list call) :
  init get_smoothing_filter c = Ok s0 ->
  let s := run getFFT savgol_filter s0 cs in
  buffer_is_updated s = true ->
  let raw := frequency_bin_energies (update_features getFFT s) in
  let result := get_audio_features getFFT savgol_filter s in
  raw = bin_energies (fft (update_features getFFT s))
                     (fftx_indices_per_bin s) (n_frequency_bins s) /\
  rolling_bin_values (fst result)
  = Buffer.append_data (rolling_bin_values s) raw /\
  In raw (Buffer.get_buffer_data (rolling_bin_values (fst result))) /\
  bin_mean_values (fst result)
  = Np.maximum_scalar
      (equalizer_floor (equalizer_strength s)
                       (per_bin_means (rolling_bin_values (fst result))))
      (per_bin_means (rolling_bin_values (fst result))) /\
  out_frequency_bin_energies (snd result) = postprocess savgol_filter s raw /\
  forall b,
    (b < Z.to_nat (n_frequency_bins s))%nat ->
    nth b (fftx_indices_per_bin s) [] = [] ->
    nth b raw (Fin 0) = NaN /\
    nth b (per_bin_means (rolling_bin_values (fst result))) (Fin 0) = NaN /\
    nth b (bin_mean_values (fst result)) (Fin 0) = NaN.
Proof.
  intros Hinit s Hd raw result. apply init_constructed in Hinit.
  pose proof (reached_rolling_shape getFFT savgol_filter cs Hinit)
    as [_ [_ [Hcap _]]]. fold s in Hcap.
  pose proof (get_dirty_fields getFFT savgol_filter s Hd)
    as [Hroll [Hmeans [_ Hen]]].
  cbv zeta in Hroll, Hmeans, Hen. fold result in Hroll, Hmeans, Hen.
  rewrite update_rolling_stats_history, update_features_rolling in Hroll.
  fold raw in Hroll, Hen.
  split; [apply update_features_energies |].
  split; [exact Hroll |].
  split.
  { rewrite Hroll. unfold Buffer.get_buffer_data.
    rewrite append_data_windows by lia. apply in_or_app. right. left.
    reflexivity. }
  split.
  { rewrite Hmeans, update_rolling_stats_means, update_rolling_stats_history.
    rewrite update_features_rolling. fold raw. rewrite <- Hroll.
    replace (equalizer_strength (update_features getFFT s))
      with (equalizer_strength s); [reflexivity |].
    pose proof (update_features_static getFFT s) as H. symmetry.
    from_static H. }
  split; [exact Hen |].
  intros b Hb Hempty.
  destruct (@dirty_get_empty_bin getFFT savgol_filter c s0 cs b b (Fin 0)
              Hinit Hd Hb Hempty Hb) as [H1 [H2 [_ H4]]].
  repeat split; assumption.
Qed.

Lemma C9_rolling_history_takes_raw_energies_witness :
  exists s0,
    init (fun _ _ => []) cramped_config = Ok s0 /\
    let getFFT := flat_spectrum in
    let s := run getFFT no_filter s0 [Append (repeat (Fin 0) 100)] in
    let result := get_audio_features getFFT no_filter s in
    rolling_bin_values (fst result)
    = Buffer.append_data (rolling_bin_values s)
                         (frequency_bin_energies (update_features getFFT s)) /\
    nth 2 (frequency_bin_energies (update_features getFFT s)) (Fin 0) = NaN /\
    nth 2 (bin_mean_values (fst result)) (Fin 0) = NaN.
Proof.
  destruct (init_cramped_ok (fun _ _ => [])) as [s0 Hs0].
  exists s0. split; [exact Hs0 |].
  intros getFFT s result.
  pose proof (init_constructed _ _ Hs0) as Hc.
  pose proof (cramped_shape Hc) as [HB [_ Hlen]].
  pose proof (reached_rolling_shape getFFT no_filter
                [Append (repeat (Fin 0) 100)] Hc) as [HBs [Hbins _]].
  fold s in HBs, Hbins.
  assert (Hd : buffer_is_updated s = true) by (destruct s0; reflexivity).
  pose proof (C9_rolling_history_takes_raw_energies
                getFFT no_filter (fun _ _ => []) cramped_config
                [Append (repeat (Fin 0) 100)] Hs0 Hd)
    as [_ [Hroll [_ [_ [_ Hnan]]]]].
  fold s in Hroll, Hnan. fold result in Hroll, Hnan.
  split; [exact Hroll |].
  assert (Hb : (2 < Z.to_nat (n_frequency_bins s))%nat)
    by (rewrite HBs, HB; cbn; lia).
  assert (Hempty : nth 2 (fftx_indices_per_bin s) [] = []).
  { rewrite Hbins. apply (constructed_bin_beyond_spectrum Hc).
    - rewrite HB. cbn. lia.
    - rewrite Hlen. lia. }
  destruct (Hnan 2%nat Hb Hempty) as [H1 [_ H3]].
  split; assumption.
Defined.

(** ** The bin energies that leave the analyzer *)

Lemma nan_to_num_finite (e : list float) :
  Forall (fun x => Float.is_finite x = true) (Np.nan_to_num e).
Proof.
  unfold Np.nan_to_num. apply Forall_map, Forall_forall.
  intros x _. destruct x; reflexivity.
Qed.

Lemma clamp_negative_finite_nonneg (e : list float) :
  Forall (fun x => Float.is_finite x = true) e ->
  Forall finite_nonneg (Np.clamp_negative e).
Proof.
  intro H. unfold Np.clamp_negative. apply Forall_map.
  eapply Forall_impl; [| exact H]. intros x Hx.
  destruct x as [| | | r]; try discriminate.
  unfold finite_nonneg, Float.zero. cbn [Float.ltb].
  destruct (Float.Rltb r 0) eqn:Hr; cbn [Float.is_finite Float.geb Float.ltb].
  - split; [reflexivity |]. rewrite Rltb_false by lra. reflexivity.
  - split; [reflexivity |]. rewrite Hr. reflexivity.
Qed.

(** ** Bin centre frequencies *)

Lemma constructed_fftx_nth (c : config) (s : Stream_Analyzer) (i : nat) :
  constructed c s ->
  (i < Z.to_nat (Z.quot (FFT_window_size s) 2))%nat ->
  nth i (fftx s) NaN
  = Fin (INR i * rate s / IZR (FFT_window_size s)).
Proof.
  intros Hc Hi. rewrite (c_fftx Hc).
  set (f := fun i => Float.div (Float.mul (Fin (INR i)) (Fin (rate s)))
                               (Fin (IZR (FFT_window_size s)))).
  rewrite nth_indep with (d' := f 0%nat)
    by (rewrite length_map, length_seq; exact Hi).
  rewrite (map_nth f), seq_nth by exact Hi.
  unfold f. cbn [plus Float.mul Float.div].
  rewrite Rltb_true; [reflexivity |].
  apply IZR_lt. pose proof (c_window_pos Hc). lia.
Qed.

Lemma constructed_centre_nth (c : config) (s : Stream_Analyzer) (b : nat)
      (d : float) :
  constructed c s ->
  (b < Z.to_nat (n_frequency_bins s))%nat ->
  nth b (frequency_bin_centres s) d
  = Np.mean (Np.take (fftx s) (nth b (fftx_indices_per_bin s) [])).
Proof.
  intros Hc Hb. rewrite (c_frequency_bin_centres Hc).
  unfold BinTable.frequency_bin_centres.
  set (f := fun idx => Np.mean (Np.take (fftx s) idx)).
  assert (Hlen : length (fftx_indices_per_bin s)
                 = Z.to_nat (n_frequency_bins s)).
  { rewrite (c_fftx_indices_per_bin Hc). apply fftx_indices_per_bin_length. }
  rewrite nth_indep with (d' := f []) by (rewrite length_map, Hlen; exact Hb).
  rewrite (map_nth f). reflexivity.
Qed.

Lemma constructed_centre_nan_iff (c : config) (s : Stream_Analyzer) (b : nat)
      (d : float) :
  constructed c s ->
  (b < Z.to_nat (n_frequency_bins s))%nat ->
  nth b (frequency_bin_centres s) d = NaN <->
  nth b (fftx_indices_per_bin s) [] = [].
Proof.
  intros Hc Hb. rewrite (constructed_centre_nth d Hc Hb).
  split.
  - intro Hnan.
    destruct (nth b (fftx_indices_per_bin s) []) as [| i rest] eqn:Hbin;
      [reflexivity | exfalso].
    destruct (@mean_finite (Np.take (fftx s) (i :: rest))) as [r Hr].
    + discriminate.
    + unfold Np.take. apply Forall_map, Forall_forall. intros k Hk.
      rewrite <- Hbin in Hk.
      apply (constructed_bin_members k Hc Hb) in Hk. destruct Hk as [Hk _].
      rewrite (constructed_fftx_nth Hc Hk). reflexivity.
    + rewrite Hr in Hnan. discriminate.
  - intros ->. apply mean_nil.
Qed.

(** C6, the claim as stated, fails: with 3 bins over a spectrum of 2
    positions the centre of bin 2 is NaN at construction and
    [get_audio_features] hands it out as it is, before and after an
    update. *)
Lemma C6_counterexample :
  exists s0,
    init (fun _ _ => []) cramped_config = Ok s0 /\
    let getFFT := flat_spectrum in
    nth 2 (out_frequency_bin_centres
             (snd (get_audio_features getFFT no_filter s0))) (Fin 0)
    = NaN /\
    nth 2 (out_frequency_bin_centres
             (snd (get_audio_features getFFT no_filter
                     (run getFFT no_filter s0
                          [Append (repeat (Fin 0) 100)])))) (Fin 0)
    = NaN.
Proof.
  destruct (init_cramped_ok (fun _ _ => [])) as [s0 Hs0].
  exists s0. split; [exact Hs0 |].
  intro getFFT.
  pose proof (init_constructed _ _ Hs0) as Hc.
  pose proof (cramped_shape Hc) as [HB [_ Hlen]].
  assert (Hb : (2 < Z.to_nat (n_frequency_bins s0))%nat)
    by (rewrite HB; cbn; lia).
  assert (Hnan : nth 2 (frequency_bin_centres s0) (Fin 0) = NaN).
  { apply (constructed_centre_nan_iff (Fin 0) Hc Hb).
    apply (constructed_bin_beyond_spectrum Hc Hb). rewrite Hlen. lia. }
  split.
  - rewrite get_returns_current.
    cbn [current_features out_frequency_bin_centres].
    pose proof (get_static getFFT no_filter s0) as H.
    replace (frequency_bin_centres
               (fst (get_audio_features getFFT no_filter s0)))
      with (frequency_bin_centres s0) by (symmetry; from_static H).
    exact Hnan.
  - rewrite get_returns_current.
    cbn [current_features out_frequency_bin_centres].
    set (s := run getFFT no_filter s0 [Append (repeat (Fin 0) 100)]).
    pose proof (get_static getFFT no_filter s) as H.
    pose proof (run_static getFFT no_filter
                           [Append (repeat (Fin 0) 100)] s0) as H'.
    fold s in H'. rewrite H' in H.
    replace (frequency_bin_centres
               (fst (get_audio_features getFFT no_filter s)))
      with (frequency_bin_centres s0) by (symmetry; from_static H).
    exact Hnan.
Qed.

(** C6, amended.  [get_audio_features] always returns the bin centres
    computed at construction, unchanged: one entry per bin, and the entry of
    a bin is NaN exactly when the bin has no spectrum position. *)
Theorem C6_bin_centres_returned_as_constructed
        (getFFT : list float -> R -> Z -> bool -> list float)
        (savgol_filter : list float -> Z -> Z -> list float)
        (get_smoothing_filter : R -> R -> list float)
        (c : config) (s0 : Stream_Analyzer) (cs : list call) :
  init get_smoothing_filter c = Ok s0 ->
  let centres :=
    out_frequency_bin_centres
      (snd (get_audio_features getFFT savgol_filter
              (run getFFT savgol_filter s0 cs))) in
  centres = frequency_bin_centres s0 /\
  length centres = Z.to_nat (n_frequency_bins s0) /\
  forall b, (b < Z.to_nat (n_frequency_bins s0))%nat ->
            (nth b centres (Fin 0) = NaN <->
             nth b (fftx_indices_per_bin s0) [] = []).
Proof.
  intros Hinit centres. apply init_constructed in Hinit.
  assert (Hsame : centres = frequency_bin_centres s0).
  { unfold centres. rewrite get_returns_current.
    cbn [current_features out_frequency_bin_centres].
    pose proof (get_static getFFT savgol_filter
                           (run getFFT savgol_filter s0 cs)) as H.
    rewrite (run_static getFFT savgol_filter cs s0) in H.
    from_static H. }
  rewrite Hsame. split; [reflexivity | split].
  - rewrite (c_frequency_bin_centres Hinit).
    unfold BinTable.frequency_bin_centres.
    rewrite length_map, (c_fftx_indices_per_bin Hinit).
    apply fftx_indices_per_bin_length.
  - intros b Hb. apply (constructed_centre_nan_iff (Fin 0) Hinit Hb).
Qed.

Lemma C6_bin_centres_returned_as_constructed_witness :
  exists s0,
    init (fun _ _ => []) cramped_config = Ok s0 /\
    out_frequency_bin_centres
      (snd (get_audio_features
              flat_spectrum no_filter
              (run flat_spectrum no_filter s0
                   [Append (repeat (Fin 0) 100); Get])))
    = frequency_bin_centres s0.
Proof.
  destruct (init_cramped_ok (fun _ _ => [])) as [s0 Hs0].
  exists s0. split; [exact Hs0 |].
  exact (proj1 (C6_bin_centres_returned_as_constructed
                  flat_spectrum no_filter
                  (fun _ _ => []) cramped_config
                  [Append (repeat (Fin 0) 100); Get] Hs0)).
Defined.

(** ** What the constructor rejects *)

Section Rejections.

Variable get_smoothing_filter : R -> R -> list float.

Lemma init_zero_rate (c : config) :
  arg_rate c = 0%R -> init get_smoothing_filter c = Raise ZeroDivisionError.
Proof.
  intro H. unfold init. cbv zeta. rewrite H, py_div_zero. reflexivity.
Qed.

(** A window of fewer than two samples leaves the spectrum without a
    position; construction then stops at [np.ones] (negative length), at a
    division by zero, or at [np.max] of the empty table. *)
Lemma init_empty_spectrum (c : config) :
  (round_up_to_even (arg_rate c * arg_FFT_window_size_ms c / 1000) <= 0)%Z ->
  exists e, init get_smoothing_filter c = Raise e.
Proof.
  intro HW. unfold init. cbv zeta.
  set (W := round_up_to_even (arg_rate c * arg_FFT_window_size_ms c / 1000))
    in *.
  destruct (py_div _ (arg_rate c)) as [ms | e]; [| exists e; reflexivity].
  cbn [bind].
  destruct (np_length (Z.quot W 2)) as [half | e] eqn:Hhalf;
    [| exists e; reflexivity].
  cbn [bind].
  apply np_length_Ok_inv in Hhalf. destruct Hhalf as [Hq ->].
  assert (Hzero : Z.to_nat (Z.quot W 2) = 0%nat).
  { clearbody W. Z.to_euclidean_division_equations. lia. }
  rewrite Hzero.
  destruct (py_div (arg_rate c) _) as [per | e]; [| exists e; reflexivity].
  cbn [bind].
  destruct (py_div _ _) as [ratio | e]; [| exists e; reflexivity].
  cbn [bind seq map length].
  exists ValueError. reflexivity.
Qed.

Lemma init_nonpositive_rate (c : config) :
  (arg_rate c <= 0)%R -> (0 <= arg_FFT_window_size_ms c)%R ->
  exists e, init get_smoothing_filter c = Raise e.
Proof.
  intros Hrate Hms. apply init_empty_spectrum.
  apply round_up_to_even_nonpos.
  assert (arg_rate c * arg_FFT_window_size_ms c <= 0)%R by nra.
  lra.
Qed.

End Rejections.

(** C5, the claim as stated, fails: 3 bins over a spectrum of 2 positions is
    accepted, the analyzer is constructed. *)
Lemma C5_counterexample :
  exists s,
    init (fun _ _ => []) cramped_config = Ok s /\
    n_frequency_bins s = 3%Z /\
    length (fft s) = 2%nat /\
    (Z.of_nat (length (fft s)) < n_frequency_bins s)%Z.
Proof.
  destruct (init_cramped_ok (fun _ _ => [])) as [s Hs].
  exists s. split; [exact Hs |].
  pose proof (init_constructed _ _ Hs) as Hc.
  pose proof (cramped_shape Hc) as [HB [_ Hlen]].
  assert (Hfft : length (fft s) = 2%nat).
  { rewrite (c_fft Hc). unfold Np.ones. rewrite repeat_length. exact Hlen. }
  split; [exact HB | split; [exact Hfft |]].
  rewrite Hfft, HB. lia.
Qed.

(** C5, amended.  The constructor validates nothing itself.  A zero sample
    rate stops construction with a division by zero; a window size that
    rounds to zero, and a non-positive sample rate with a non-negative
    window duration, stop it with a division by zero or an array error; a
    bin count above the spectrum length is accepted like any positive one,
    and the bins from the spectrum length on are then empty. *)
Theorem C5_constructor_rejections
        (get_smoothing_filter : R -> R -> list float) (c : config) :
  let W := round_up_to_even (arg_rate c * arg_FFT_window_size_ms c / 1000) in
  (arg_rate c = 0%R ->
   init get_smoothing_filter c = Raise ZeroDivisionError) /\
  (W = 0%Z -> exists e, init get_smoothing_filter c = Raise e) /\
  ((arg_rate c <= 0)%R -> (0 <= arg_FFT_window_size_ms c)%R ->
   exists e, init get_smoothing_filter c = Raise e) /\
  (arg_rate c <> 0%R -> (2 <= W)%Z ->
   arg_updates_per_second c <> 0%R ->
   round_up_to_even (arg_rate c / arg_updates_per_second c) <> 0%Z ->
   (Z.quot W 2 < arg_n_frequency_bins c)%Z ->
   exists s,
     init get_smoothing_filter c = Ok s /\
     (Z.of_nat (length (fft s)) < n_frequency_bins s)%Z /\
     forall b, (Z.to_nat (Z.quot W 2) <= b)%nat ->
               (b < Z.to_nat (n_frequency_bins s))%nat ->
               nth b (fftx_indices_per_bin s) [] = []).
Proof.
  intro W. split; [apply init_zero_rate | split; [| split]].
  - intro HW. apply init_empty_spectrum. fold W. lia.
  - apply init_nonpositive_rate.
  - intros Hrate HW Hups Hn HB.
    assert (Hq : (1 <= Z.quot W 2)%Z).
    { clearbody W. Z.to_euclidean_division_equations. lia. }
    destruct (@init_ok get_smoothing_filter c Hrate HW Hups Hn) as [s Hs];
      [lia |].
    exists s. split; [exact Hs |].
    pose proof (init_constructed _ _ Hs) as Hc.
    assert (HWs : FFT_window_size s = W) by apply (c_FFT_window_size Hc).
    split.
    + rewrite (c_fft Hc). unfold Np.ones. rewrite repeat_length.
      rewrite HWs, (c_n_frequency_bins Hc). lia.
    + intros b Hlo Hhi. apply (constructed_bin_beyond_spectrum Hc Hhi).
      rewrite HWs. exact Hlo.
Qed.

Lemma C5_constructor_rejections_witness :
  (exists e,
      init (fun _ _ => [])
           {| arg_rate := 96000; arg_FFT_window_size_ms := 0;
              arg_updates_per_second := 10; arg_smoothing_length_ms := 50;
              arg_n_frequency_bins := 51 |} = Raise e) /\
  (exists s,
      init (fun _ _ => []) cramped_config = Ok s /\
      (Z.of_nat (length (fft s)) < n_frequency_bins s)%Z).
Proof.
  split.
  - apply (proj1 (proj2 (C5_constructor_rejections (fun _ _ => []) _))).
    cbn [arg_rate arg_FFT_window_size_ms].
    apply (round_up_to_even_eq 0). simpl IZR. lra.
  - destruct (proj2 (proj2 (proj2 (C5_constructor_rejections
                                     (fun _ _ => []) cramped_config))))
      as [s [Hs [Hlt _]]];
      cbn [cramped_config arg_rate arg_FFT_window_size_ms
           arg_updates_per_second arg_n_frequency_bins].
    + lra.
    + apply round_up_to_even_pos. lra.
    + lra.
    + assert (2 <= round_up_to_even (1000 / 10))%Z
        by (apply round_up_to_even_pos; lra).
      lia.
    + rewrite (round_up_to_even_eq 2) by (simpl IZR; lra). cbn. lia.
    + exists s. split; assumption.
Defined.

(** ** The temporal smoother *)



Lemma update_features_smoothing
      (getFFT : list float -> R -> Z -> bool -> list float)
      (s : Stream_Analyzer) :
  let compensated :=
    Np.multiply
      (getFFT (Buffer.get_most_recent (data_buffer s)
                                      (Z.to_nat (FFT_window_size s)))
              (rate s) (FFT_window_size s) (log_features s))
      (power_normalization_coefficients s) in
  fft (update_features getFFT s) = snd (temporal_smoothing s compensated) /\
  feature_buffer (update_features getFFT s)
  = fst (temporal_smoothing s compensated).
Proof.
  intro compensated. unfold update_features. fold compensated.
  assert (Hsame : forall v n x,
             temporal_smoothing (set_num_ffts n (set_fft v s)) x
             = temporal_smoothing s x) by (intros; destruct s; reflexivity).
  replace (fft (set_fft compensated s)) with compensated
    by (destruct s; reflexivity).
  replace (fft (set_num_ffts (num_ffts (set_fft compensated s) + 1)
                             (set_fft compensated s)))
    with compensated by (destruct s; reflexivity).
  rewrite Hsame.
  destruct (temporal_smoothing s compensated) as [fb sp].
  destruct s. split; reflexivity.
Qed.


(** ** The highest spectrum position *)

(** The last position gets the raw id [round((len - 1) * n_bins / len)],
    which is [n_bins] itself as soon as [n_bins] is below half of [len]. *)
Lemma table_id_top (m : nat) (n_bins : Z) :
  (0 < n_bins)%Z -> (2 * n_bins < Z.of_nat (S (S m)))%Z ->
  table_id (S (S m)) n_bins (S m) = n_bins.
Proof.
  intros HB Hhalf. rewrite table_id_last.
  assert (Hround :
            Np.round ((INR (S (S m)) - 1) / (INR (S (S m)) / IZR n_bins))
            = n_bins).
  { apply np_round_eq.
    assert (HBr : (0 < IZR n_bins)%R) by (apply IZR_lt; exact HB).
    assert (HL : (2 * IZR n_bins < INR (S (S m)))%R).
    { rewrite INR_IZR_INZ, <- mult_IZR. apply IZR_lt. exact Hhalf. }
    set (L := INR (S (S m))) in *. set (b := IZR n_bins) in *.
    assert (Hfrac : (0 < b / L < 1 / 2)%R).
    { split; [apply Rdiv_lt_0_compat; lra |].
      apply Rmult_lt_reg_r with L; [lra |].
      unfold Rdiv. rewrite Rmult_assoc, Rinv_l by lra. lra. }
    replace ((L - 1) / (L / b))%R with (b - b / L)%R by (field; lra).
    lra. }
  rewrite Hround. lia.
Qed.

Lemma constructed_top_position (c : config) (s : Stream_Analyzer) (m : nat) :
  constructed c s ->
  Z.to_nat (Z.quot (FFT_window_size s) 2) = S (S m) ->
  (2 * n_frequency_bins s < Z.of_nat (S (S m)))%Z ->
  nth (S m) (fftx_bin_indices s) 0%Z = n_frequency_bins s /\
  Forall (fun idx => ~ In (S m) idx) (fftx_indices_per_bin s).
Proof.
  intros Hc Hlen Hhalf.
  pose proof (constructed_ids Hc) as [_ Hids]. cbv zeta in Hids.
  rewrite Hlen in Hids.
  pose proof (c_bins_pos Hc) as HB.
  assert (Hid : forall d, nth (S m) (fftx_bin_indices s) d = n_frequency_bins s).
  { intro d. rewrite Hids.
    rewrite nth_indep with (d' := table_id (S (S m)) (n_frequency_bins s) 0)
      by (rewrite length_map, length_seq; lia).
    rewrite (map_nth (table_id (S (S m)) (n_frequency_bins s))).
    rewrite seq_nth by lia. cbn [plus].
    apply table_id_top; assumption. }
  split; [apply Hid |].
  rewrite (c_fftx_indices_per_bin Hc). unfold BinTable.fftx_indices_per_bin.
  apply Forall_map, Forall_forall. intros b Hb Hin.
  apply in_seq in Hb. apply where_eq_In in Hin. destruct Hin as [_ Hin].
  rewrite Hid in Hin. lia.
Qed.

(** C1 at the default configuration (96000 Hz, 50 ms, 51 bins): the
    spectrum has 2400 positions, position 2399 gets bin id 51, and no bin of
    [range(51)] collects it, so the index sets do not cover the spectrum. *)
Theorem C1_default_top_position_unassigned
        (get_smoothing_filter : R -> R -> list float) :
  exists s,
    init get_smoothing_filter default_config = Ok s /\
    length (fft s) = 2400%nat /\
    n_frequency_bins s = 51%Z /\
    length (fftx_indices_per_bin s) = 51%nat /\
    nth 2399 (fftx_bin_indices s) 0%Z = 51%Z /\
    Forall (fun idx => ~ In 2399%nat idx) (fftx_indices_per_bin s).
Proof.
  destruct (init_default_ok get_smoothing_filter) as [s Hs].
  exists s. split; [exact Hs |].
  pose proof (init_constructed _ _ Hs) as Hc.
  assert (HB : n_frequency_bins s = 51%Z)
    by (rewrite (c_n_frequency_bins Hc); reflexivity).
  assert (HW : FFT_window_size s = 4800%Z).
  { rewrite (c_FFT_window_size Hc).
    cbn [default_config arg_rate arg_FFT_window_size_ms].
    apply (round_up_to_even_eq 2400). simpl IZR. lra. }
  assert (Hlen : Z.to_nat (Z.quot (FFT_window_size s) 2) = S (S 2398)).
  { rewrite HW. reflexivity. }
  split.
  { rewrite (c_fft Hc). unfold Np.ones. rewrite repeat_length. exact Hlen. }
  split; [exact HB |].
  split.
  { rewrite (c_fftx_indices_per_bin Hc), fftx_indices_per_bin_length, HB.
    reflexivity. }
  rewrite <- HB at 1.
  apply (constructed_top_position Hc Hlen).
  rewrite HB. lia.
Qed.

(** * Further properties of the constructor and the methods *)

(** ** Rounding and the order of the bin ids *)

Lemma np_round_bounds (x : R) :
  (IZR (Np.round x) - 1 / 2 <= x <= IZR (Np.round x) + 1 / 2)%R.
Proof.
  unfold Np.round. pose proof (Zfloor_bound x) as [Hlo Hhi].
  destruct (Rlt_dec (x - IZR (Zfloor x)) (1 / 2)); [lra |].
  destruct (Rlt_dec (1 / 2) (x - IZR (Zfloor x)));
    [rewrite plus_IZR; lra |].
  destruct (Z.even (Zfloor x)); [lra | rewrite plus_IZR; lra].
Qed.

Lemma np_round_le_int (x : R) (z : Z) : (x <= IZR z)%R -> (Np.round x <= z)%Z.
Proof.
  intro Hx. pose proof (np_round_bounds x) as [Hlo _].
  assert (Np.round x < z + 1)%Z; [| lia].
  apply lt_IZR. rewrite plus_IZR. lra.
Qed.

Lemma np_round_mono (x y : R) : (x <= y)%R -> (Np.round x <= Np.round y)%Z.
Proof.
  intro Hxy. destruct (Z_le_gt_dec (Np.round x) (Np.round y)) as [H | H];
    [exact H | exfalso].
  pose proof (np_round_bounds x) as [Hx _].
  pose proof (np_round_bounds y) as [_ Hy].
  assert (Hz : (IZR (Np.round y) + 1 <= IZR (Np.round x))%R).
  { rewrite <- plus_IZR. apply IZR_le. lia. }
  assert (x = y) by lra. subst y. lia.
Qed.

Lemma linspace_nth (a b : R) (m i : nat) (d : R) :
  (i <= S m)%nat ->
  nth i (Np.linspace a b (S (S m))) d
  = if (i =? S m)%nat then b else (INR i * ((b - a) / INR (S m)) + a)%R.
Proof.
  intro Hi. rewrite linspace_SS.
  destruct (Nat.eqb_spec i (S m)) as [-> | Hne].
  - rewrite app_nth2; rewrite length_map, length_seq; [| lia].
    replace (S m - S m)%nat with 0%nat by lia. reflexivity.
  - rewrite app_nth1 by (rewrite length_map, length_seq; lia).
    set (f := fun i => (INR i * ((b - a) / INR (S m)) + a)%R).
    rewrite nth_indep with (d' := f 0%nat)
      by (rewrite length_map, length_seq; lia).
    rewrite (map_nth f), seq_nth by lia. reflexivity.
Qed.

Lemma linspace_descending (a b : R) (n i j : nat) (d : R) :
  (b <= a)%R -> (i <= j)%nat -> (j < n)%nat ->
  (nth j (Np.linspace a b n) d <= nth i (Np.linspace a b n) d)%R.
Proof.
  intros Hba Hij Hj. destruct n as [| [| m]]; [lia | |].
  - replace j with 0%nat by lia. replace i with 0%nat by lia. lra.
  - rewrite !linspace_nth by lia.
    assert (Hm : (0 < INR (S m))%R) by (apply lt_0_INR; lia).
    assert (Hstep : ((b - a) / INR (S m) <= 0)%R).
    { assert (0 < / INR (S m))%R by (apply Rinv_0_lt_compat; exact Hm).
      unfold Rdiv. nra. }
    destruct (Nat.eqb_spec j (S m)) as [Hjm | Hjm];
      destruct (Nat.eqb_spec i (S m)) as [Him | Him]; try lia; try lra.
    + assert (Hi' : (INR i <= INR (S m))%R) by (apply le_INR; lia).
      assert (Hpos : (0 <= INR i)%R) by apply pos_INR.
      replace b with (INR (S m) * ((b - a) / INR (S m)) + a)%R at 1
        by (field; lra).
      nra.
    + assert (Hij' : (INR i <= INR j)%R) by (apply le_INR; lia).
      nra.
Qed.

Lemma log_positions_nth (len i : nat) :
  (i < len)%nat ->
  nth i (BinTable.log_positions len) 0%R
  = (Rpower 2 (nth i (Np.linspace (Np.log2 (INR len)) 0 len) 0%R) - 1)%R.
Proof.
  intro Hi. unfold BinTable.log_positions, Np.logspace. rewrite map_map.
  set (f := fun y => (Rpower 2 y - 1)%R).
  rewrite nth_indep with (d' := f 0%R)
    by (rewrite length_map, linspace_length; exact Hi).
  rewrite (map_nth f). reflexivity.
Qed.

Lemma log_positions_descending (len i j : nat) :
  (i <= j)%nat -> (j < len)%nat ->
  (nth j (BinTable.log_positions len) 0 <= nth i (BinTable.log_positions len) 0)%R.
Proof.
  intros Hij Hj. rewrite !log_positions_nth by lia.
  assert (Hlen : (1 <= INR len)%R) by (apply (le_INR 1); lia).
  pose proof (@linspace_descending (Np.log2 (INR len)) 0 len i j 0%R
                (log2_nonneg Hlen) Hij Hj) as Hlin.
  apply Rpower_2_mono in Hlin. lra.
Qed.

Lemma table_id_mono (len : nat) (n_bins : Z) (i j : nat) :
  (0 < n_bins)%Z -> (i <= j)%nat -> (j < len)%nat ->
  (table_id len n_bins i <= table_id len n_bins j)%Z.
Proof.
  intros HB Hij Hj. unfold table_id.
  assert (Hlen : (0 < INR len)%R) by (apply lt_0_INR; lia).
  assert (HBr : (0 < IZR n_bins)%R) by (apply IZR_lt; exact HB).
  assert (Hw : (0 < / (INR len / IZR n_bins))%R).
  { apply Rinv_0_lt_compat. apply Rdiv_lt_0_compat; assumption. }
  pose proof (log_positions_descending Hij Hj) as Hdesc.
  assert (Hround :
            (Np.round ((INR len - 1 - nth i (BinTable.log_positions len) 0%R)
                       / (INR len / IZR n_bins))
             <= Np.round ((INR len - 1 - nth j (BinTable.log_positions len) 0%R)
                          / (INR len / IZR n_bins)))%Z).
  { apply np_round_mono. unfold Rdiv at 1 3.
    apply Rmult_le_compat_r; [lra | lra]. }
  lia.
Qed.

Lemma table_id_le_bins (len : nat) (n_bins : Z) (i : nat) :
  (0 < n_bins)%Z -> (i < len)%nat -> (table_id len n_bins i <= n_bins)%Z.
Proof.
  intros HB Hi. unfold table_id.
  assert (Hlen : (0 < INR len)%R) by (apply lt_0_INR; lia).
  assert (HBr : (0 < IZR n_bins)%R) by (apply IZR_lt; exact HB).
  pose proof (log_positions_range len) as Hr. rewrite Forall_forall in Hr.
  specialize (Hr (nth i (BinTable.log_positions len) 0%R)
                 (nth_In _ _ ltac:(rewrite log_positions_length; exact Hi))).
  cbv beta in Hr.
  assert (Np.round ((INR len - 1 - nth i (BinTable.log_positions len) 0%R)
                    / (INR len / IZR n_bins)) <= n_bins)%Z; [| lia].
  apply np_round_le_int.
  replace (IZR n_bins) with (INR len / (INR len / IZR n_bins))%R at 2
    by (field; lra).
  unfold Rdiv at 1 3. apply Rmult_le_compat_r; [| lra].
  left. apply Rinv_0_lt_compat. apply Rdiv_lt_0_compat; assumption.
Qed.

Lemma constructed_id_nth (c : config) (s : Stream_Analyzer) (i : nat)
      (d : Z) :
  constructed c s ->
  (i < Z.to_nat (Z.quot (FFT_window_size s) 2))%nat ->
  nth i (fftx_bin_indices s) d
  = table_id (Z.to_nat (Z.quot (FFT_window_size s) 2)) (n_frequency_bins s) i.
Proof.
  intros Hc Hi. pose proof (constructed_ids Hc) as [_ Hids].
  cbv zeta in Hids. rewrite Hids.
  set (len := Z.to_nat (Z.quot (FFT_window_size s) 2)) in *.
  rewrite nth_indep with (d' := table_id len (n_frequency_bins s) 0)
    by (rewrite length_map, length_seq; exact Hi).
  rewrite (map_nth (table_id len (n_frequency_bins s))).
  rewrite seq_nth by exact Hi. reflexivity.
Qed.

Lemma constructed_ids_length (c : config) (s : Stream_Analyzer) :
  constructed c s ->
  length (fftx_bin_indices s) = Z.to_nat (Z.quot (FFT_window_size s) 2) /\
  length (fft s) = Z.to_nat (Z.quot (FFT_window_size s) 2) /\
  length (fftx s) = Z.to_nat (Z.quot (FFT_window_size s) 2).
Proof.
  intro Hc. pose proof (constructed_ids Hc) as [_ Hids]. cbv zeta in Hids.
  rewrite Hids, length_map, length_seq.
  rewrite (c_fft Hc), (c_fftx Hc). unfold Np.ones.
  rewrite repeat_length, length_map, length_seq. repeat split.
Qed.

(** X1.  In a constructed analyzer the bin index table has one id per
    spectrum position; position 0 has id 0 and the id of position [i] lies
    between 0 and the smaller of [i] and the bin count. *)
Theorem X1_bin_ids_bounded
        (get_smoothing_filter : R -> R -> list float)
        (c : config) (s : Stream_Analyzer) (i : nat) :
  init get_smoothing_filter c = Ok s ->
  (i < length (fft s))%nat ->
  length (fftx_bin_indices s) = length (fft s) /\
  nth 0 (fftx_bin_indices s) 0%Z = 0%Z /\
  (0 <= nth i (fftx_bin_indices s) 0 <= Z.min (Z.of_nat i) (n_frequency_bins s))%Z.
Proof.
  intros Hinit Hi. apply init_constructed in Hinit.
  pose proof (constructed_ids_length Hinit) as [Hl1 [Hl2 _]].
  rewrite Hl2 in Hi.
  split; [congruence |].
  pose proof (c_bins_pos Hinit) as HB.
  split.
  - rewrite (constructed_id_nth 0%Z Hinit) by lia.
    assert (H0 : (0 < Z.to_nat (Z.quot (FFT_window_size s) 2))%nat) by lia.
    pose proof (table_id_bounds HB H0). lia.
  - rewrite (constructed_id_nth 0%Z Hinit Hi).
    pose proof (table_id_bounds HB Hi).
    pose proof (table_id_le_bins HB Hi). lia.
Qed.

Lemma X1_bin_ids_bounded_witness :
  exists s,
    init (fun _ _ => [Fin 1]) default_config = Ok s /\
    (0 <= nth 7 (fftx_bin_indices s) 0 <= Z.min 7 (n_frequency_bins s))%Z.
Proof.
  destruct (init_default_ok (fun _ _ => [Fin 1])) as [s Hs].
  exists s. split; [exact Hs |].
  assert (Hi : (7 < length (fft s))%nat).
  { pose proof (init_constructed _ _ Hs) as Hc.
    pose proof (c_window_pos Hc) as HW.
    rewrite (c_fft Hc). unfold Np.ones. rewrite repeat_length.
    rewrite (c_FFT_window_size Hc).
    cbn [default_config arg_rate arg_FFT_window_size_ms].
    rewrite (round_up_to_even_eq 2400) by (simpl IZR; lra).
    apply Nat2Z.inj_lt. rewrite Z2Nat.id by (cbn; lia). cbn. lia. }
  exact (proj2 (proj2 (X1_bin_ids_bounded (fun _ _ => [Fin 1])
                                          default_config Hs Hi))).
Defined.

(** X2.  The bin ids never decrease along the spectrum: a higher spectrum
    position never gets a lower bin id. *)
Theorem X2_bin_ids_monotone
        (get_smoothing_filter : R -> R -> list float)
        (c : config) (s : Stream_Analyzer) (i j : nat) :
  init get_smoothing_filter c = Ok s ->
  (i <= j)%nat -> (j < length (fft s))%nat ->
  (nth i (fftx_bin_indices s) 0 <= nth j (fftx_bin_indices s) 0)%Z.
Proof.
  intros Hinit Hij Hj. apply init_constructed in Hinit.
  pose proof (constructed_ids_length Hinit) as [_ [Hl2 _]].
  rewrite Hl2 in Hj.
  rewrite !(constructed_id_nth 0%Z Hinit) by lia.
  apply table_id_mono; [apply (c_bins_pos Hinit) | exact Hij | exact Hj].
Qed.

Lemma default_shape (s : Stream_Analyzer) :
  constructed default_config s ->
  FFT_window_size s = 4800%Z /\ n_frequency_bins s = 51%Z /\
  rate s = 96000%R /\
  Z.to_nat (Z.quot (FFT_window_size s) 2) = 2400%nat /\
  length (fft s) = 2400%nat.
Proof.
  intro Hc.
  assert (HW : FFT_window_size s = 4800%Z).
  { rewrite (c_FFT_window_size Hc).
    cbn [default_config arg_rate arg_FFT_window_size_ms].
    apply (round_up_to_even_eq 2400). simpl IZR. lra. }
  assert (Hlen : Z.to_nat (Z.quot (FFT_window_size s) 2) = 2400%nat)
    by (rewrite HW; reflexivity).
  split; [exact HW |].
  split; [rewrite (c_n_frequency_bins Hc); reflexivity |].
  split; [rewrite (c_rate Hc); reflexivity |].
  split; [exact Hlen |].
  rewrite (c_fft Hc). unfold Np.ones. rewrite repeat_length. exact Hlen.
Qed.

Lemma X2_bin_ids_monotone_witness :
  exists s,
    init (fun _ _ => [Fin 1]) default_config = Ok s /\
    (nth 100 (fftx_bin_indices s) 0 <= nth 2000 (fftx_bin_indices s) 0)%Z.
Proof.
  destruct (init_default_ok (fun _ _ => [Fin 1])) as [s Hs].
  exists s. split; [exact Hs |].
  pose proof (default_shape (init_constructed _ _ Hs)) as [_ [_ [_ [_ Hlen]]]].
  apply (X2_bin_ids_monotone (fun _ _ => [Fin 1]) default_config Hs).
  - apply Nat.leb_le. reflexivity.
  - rewrite Hlen. apply Nat.ltb_lt. reflexivity.
Defined.

(** ** The index sets of the bins *)

Lemma where_eq_NoDup (a : list Z) (v : Z) : NoDup (Np.where_eq a v).
Proof. unfold Np.where_eq. apply NoDup_filter. apply seq_NoDup. Qed.

(** X3.  The index sets built for the bins [0 .. B-1] hold spectrum positions
    without repetition, each set holds exactly the positions whose id is its
    bin, two different bins share no position, and a position lies in some
    set exactly when its id is below the bin count. *)
Theorem X3_index_sets_by_id
        (get_smoothing_filter : R -> R -> list float)
        (c : config) (s : Stream_Analyzer) :
  init get_smoothing_filter c = Ok s ->
  length (fftx_indices_per_bin s) = Z.to_nat (n_frequency_bins s) /\
  (forall b, (b < Z.to_nat (n_frequency_bins s))%nat ->
             NoDup (nth b (fftx_indices_per_bin s) []) /\
             forall i, In i (nth b (fftx_indices_per_bin s) []) <->
                       (i < length (fft s))%nat /\
                       nth i (fftx_bin_indices s) 0%Z = Z.of_nat b) /\
  (forall b1 b2 i,
      (b1 < Z.to_nat (n_frequency_bins s))%nat ->
      (b2 < Z.to_nat (n_frequency_bins s))%nat ->
      In i (nth b1 (fftx_indices_per_bin s) []) ->
      In i (nth b2 (fftx_indices_per_bin s) []) -> b1 = b2) /\
  (forall i, (i < length (fft s))%nat ->
             (exists b, (b < Z.to_nat (n_frequency_bins s))%nat /\
                        In i (nth b (fftx_indices_per_bin s) [])) <->
             (nth i (fftx_bin_indices s) 0 < n_frequency_bins s)%Z).
Proof.
  intro Hinit. apply init_constructed in Hinit.
  pose proof (constructed_ids_length Hinit) as [_ [Hl2 _]].
  split.
  { rewrite (c_fftx_indices_per_bin Hinit). apply fftx_indices_per_bin_length. }
  split; [| split].
  - intros b Hb. split.
    + rewrite (c_fftx_indices_per_bin Hinit), fftx_indices_per_bin_nth
        by exact Hb.
      apply where_eq_NoDup.
    + intro i. rewrite (constructed_bin_members i Hinit Hb). rewrite Hl2.
      split; intros [Hi Hid]; (split; [exact Hi |]).
      * rewrite (constructed_id_nth 0%Z Hinit Hi). exact Hid.
      * rewrite (constructed_id_nth 0%Z Hinit Hi) in Hid. exact Hid.
  - intros b1 b2 i. apply (@constructed_bins_disjoint c s b1 b2 i Hinit).
  - intros i Hi. rewrite Hl2 in Hi.
    rewrite (constructed_id_nth 0%Z Hinit Hi).
    apply (@constructed_position_collected c s i Hinit Hi).
Qed.

Lemma X3_index_sets_by_id_witness :
  exists s,
    init (fun _ _ => []) cramped_config = Ok s /\
    length (fftx_indices_per_bin s) = 3%nat /\
    NoDup (nth 1 (fftx_indices_per_bin s) []).
Proof.
  destruct (init_cramped_ok (fun _ _ => [])) as [s Hs].
  exists s. split; [exact Hs |].
  pose proof (cramped_shape (init_constructed _ _ Hs)) as [HB _].
  destruct (X3_index_sets_by_id (fun _ _ => []) cramped_config Hs)
    as [Hlen [Hsets _]].
  rewrite HB in Hlen, Hsets.
  split; [exact Hlen |].
  apply (Hsets 1%nat). apply Nat.ltb_lt. reflexivity.
Defined.

(** ** The frequency axis and the bin centres *)

(** X4.  With a positive sample rate the frequency axis of a constructed
    analyzer holds [i * rate / W] at position [i]: it starts at 0, grows
    strictly with the position and stays below the Nyquist frequency
    [rate / 2]. *)
Theorem X4_frequency_axis
        (get_smoothing_filter : R -> R -> list float)
        (c : config) (s : Stream_Analyzer) (i j : nat) :
  init get_smoothing_filter c = Ok s ->
  (0 < rate s)%R ->
  (i < j)%nat -> (j < length (fftx s))%nat ->
  exists fi fj,
    nth 0 (fftx s) NaN = Fin 0 /\
    nth i (fftx s) NaN = Fin fi /\ nth j (fftx s) NaN = Fin fj /\
    fi = (INR i * rate s / IZR (FFT_window_size s))%R /\
    (0 <= fi < fj)%R /\ (fj < rate s / 2)%R.
Proof.
  intros Hinit Hrate Hij Hj. apply init_constructed in Hinit.
  pose proof (constructed_ids_length Hinit) as [_ [_ Hl3]].
  rewrite Hl3 in Hj.
  pose proof (c_window_pos Hinit) as HW.
  assert (HWr : (0 < IZR (FFT_window_size s))%R) by (apply IZR_lt; lia).
  exists (INR i * rate s / IZR (FFT_window_size s))%R,
         (INR j * rate s / IZR (FFT_window_size s))%R.
  assert (Hinv : (0 < / IZR (FFT_window_size s))%R)
    by (apply Rinv_0_lt_compat; exact HWr).
  assert (Hi0 : (0 <= INR i)%R) by apply pos_INR.
  assert (Hij' : (INR i < INR j)%R) by (apply lt_INR; exact Hij).
  assert (Hhalf : (2 * INR j < IZR (FFT_window_size s))%R).
  { rewrite INR_IZR_INZ, <- mult_IZR. apply IZR_lt.
    assert (Z.of_nat j < Z.quot (FFT_window_size s) 2)%Z by lia.
    generalize dependent (FFT_window_size s). intros W. intros.
    Z.to_euclidean_division_equations. lia. }
  split.
  { rewrite (constructed_fftx_nth Hinit) by lia. f_equal.
    cbn [INR]. unfold Rdiv. ring. }
  split; [apply (constructed_fftx_nth Hinit); lia |].
  split; [apply (constructed_fftx_nth Hinit); exact Hj |].
  split; [reflexivity |].
  split.
  - unfold Rdiv. split.
    + apply Rmult_le_pos; [apply Rmult_le_pos; lra | lra].
    + apply Rmult_lt_compat_r; [exact Hinv |].
      apply Rmult_lt_compat_r; [exact Hrate | exact Hij'].
  - apply Rmult_lt_reg_r with (IZR (FFT_window_size s)); [exact HWr |].
    unfold Rdiv. rewrite Rmult_assoc, Rinv_l by lra. nra.
Qed.

Lemma X4_frequency_axis_witness :
  exists s fi fj,
    init (fun _ _ => [Fin 1]) default_config = Ok s /\
    nth 1 (fftx s) NaN = Fin fi /\ nth 2399 (fftx s) NaN = Fin fj /\
    (0 <= fi < fj)%R /\ (fj < rate s / 2)%R.
Proof.
  destruct (init_default_ok (fun _ _ => [Fin 1])) as [s Hs].
  pose proof (init_constructed _ _ Hs) as Hc.
  pose proof (default_shape Hc) as [_ [_ [Hrate [Hlen _]]]].
  pose proof (constructed_ids_length Hc) as [_ [_ Hl3]].
  assert (H0 : (0 < rate s)%R) by (rewrite Hrate; lra).
  assert (Hij : (1 < 2399)%nat) by (apply Nat.ltb_lt; reflexivity).
  assert (Hj : (2399 < length (fftx s))%nat)
    by (rewrite Hl3, Hlen; apply Nat.ltb_lt; reflexivity).
  destruct (X4_frequency_axis (fun _ _ => [Fin 1]) default_config Hs H0 Hij Hj)
    as [fi [fj [_ [Hi [Hjv [_ [Hord Hny]]]]]]].
  exists s, fi, fj. repeat split; try assumption; apply Hord.
Defined.

Lemma fold_add_reals (rs : list R) (acc : R) :
  fold_left Float.add (map Fin rs) (Fin acc) = Fin (fold_left Rplus rs acc).
Proof.
  revert acc. induction rs as [| r rs IH]; intro acc; [reflexivity |].
  cbn [map fold_left Float.add]. apply IH.
Qed.

Lemma fold_Rplus_bounds (rs : list R) (acc lo hi : R) :
  Forall (fun r => (lo <= r <= hi)%R) rs ->
  (acc + INR (length rs) * lo <= fold_left Rplus rs acc
   <= acc + INR (length rs) * hi)%R.
Proof.
  intro H. revert acc. induction H as [| r rs Hr _ IH]; intro acc.
  - cbn [fold_left length INR]. lra.
  - cbn [fold_left]. specialize (IH (acc + r)%R).
    rewrite length_cons, S_INR. lra.
Qed.

Lemma mean_reals_bounds (rs : list R) (lo hi : R) :
  rs <> [] ->
  Forall (fun r => (lo <= r <= hi)%R) rs ->
  exists m, Np.mean (map Fin rs) = Fin m /\ (lo <= m <= hi)%R.
Proof.
  intros Hne Hb. unfold Np.mean, Np.sum, Float.zero.
  rewrite fold_add_reals, length_map.
  assert (Hn : (0 < INR (length rs))%R).
  { apply lt_0_INR. destruct rs; [contradiction | cbn; lia]. }
  unfold Float.div. rewrite Rltb_true by exact Hn.
  eexists. split; [reflexivity |].
  pose proof (fold_Rplus_bounds 0 Hb) as [Hlo Hhi].
  assert (Hinv : (0 < / INR (length rs))%R) by (apply Rinv_0_lt_compat; exact Hn).
  split.
  - apply Rmult_le_reg_r with (INR (length rs)); [exact Hn |].
    unfold Rdiv. rewrite Rmult_assoc, Rinv_l by lra. lra.
  - apply Rmult_le_reg_r with (INR (length rs)); [exact Hn |].
    unfold Rdiv. rewrite Rmult_assoc, Rinv_l by lra. lra.
Qed.

Lemma greatest_position (l : list nat) :
  l <> [] -> exists p, In p l /\ forall i, In i l -> (i <= p)%nat.
Proof.
  induction l as [| x l IH]; [contradiction |]. intros _.
  destruct l as [| y l].
  - exists x. split; [left; reflexivity |].
    intros i [<- | []]. lia.
  - destruct IH as [p [Hp Hmax]]; [discriminate |].
    destruct (le_lt_dec x p) as [Hxp | Hxp].
    + exists p. split; [right; exact Hp |].
      intros i [<- | Hi]; [exact Hxp | apply Hmax; exact Hi].
    + exists x. split; [left; reflexivity |].
      intros i [<- | Hi]; [lia |]. specialize (Hmax i Hi). lia.
Qed.

(** The frequencies a bin averages, as reals. *)
Lemma constructed_bin_frequencies (c : config) (s : Stream_Analyzer)
      (b : nat) :
  constructed c s ->
  (b < Z.to_nat (n_frequency_bins s))%nat ->
  Np.take (fftx s) (nth b (fftx_indices_per_bin s) [])
  = map Fin (map (fun i => (INR i * rate s / IZR (FFT_window_size s))%R)
                 (nth b (fftx_indices_per_bin s) [])).
Proof.
  intros Hc Hb. unfold Np.take. rewrite map_map. apply map_ext_in.
  intros i Hi. apply (constructed_bin_members i Hc Hb) in Hi.
  destruct Hi as [Hi _]. apply (constructed_fftx_nth Hc Hi).
Qed.

Lemma constructed_centre_between (c : config) (s : Stream_Analyzer)
      (b lo hi : nat) :
  constructed c s -> (0 < rate s)%R ->
  (b < Z.to_nat (n_frequency_bins s))%nat ->
  nth b (fftx_indices_per_bin s) [] <> [] ->
  (forall i, In i (nth b (fftx_indices_per_bin s) []) -> (lo <= i <= hi)%nat) ->
  exists m,
    nth b (frequency_bin_centres s) NaN = Fin m /\
    (INR lo * rate s / IZR (FFT_window_size s) <= m
     <= INR hi * rate s / IZR (FFT_window_size s))%R.
Proof.
  intros Hc Hrate Hb Hne Hrange.
  rewrite (constructed_centre_nth NaN Hc Hb).
  rewrite (constructed_bin_frequencies Hc Hb).
  apply mean_reals_bounds.
  - destruct (nth b (fftx_indices_per_bin s) []); [contradiction | discriminate].
  - apply Forall_map, Forall_forall. intros i Hi.
    destruct (Hrange i Hi) as [Hlo Hhi].
    apply le_INR in Hlo. apply le_INR in Hhi.
    pose proof (c_window_pos Hc) as HW.
    assert (HWr : (0 < IZR (FFT_window_size s))%R) by (apply IZR_lt; lia).
    assert (Hinv : (0 < / IZR (FFT_window_size s))%R)
      by (apply Rinv_0_lt_compat; exact HWr).
    unfold Rdiv. split.
    + apply Rmult_le_compat_r; [lra |]. apply Rmult_le_compat_r; lra.
    + apply Rmult_le_compat_r; [lra |]. apply Rmult_le_compat_r; lra.
Qed.

(** X5.  With a positive sample rate the centre of every non-empty bin is a
    finite frequency between 0 and the highest frequency of the axis, hence
    below the Nyquist frequency [rate / 2]. *)
Theorem X5_bin_centres_in_band
        (get_smoothing_filter : R -> R -> list float)
        (c : config) (s : Stream_Analyzer) (b : nat) :
  init get_smoothing_filter c = Ok s ->
  (0 < rate s)%R ->
  (b < Z.to_nat (n_frequency_bins s))%nat ->
  nth b (fftx_indices_per_bin s) [] <> [] ->
  exists m,
    nth b (frequency_bin_centres s) NaN = Fin m /\
    (0 <= m < rate s / 2)%R.
Proof.
  intros Hinit Hrate Hb Hne. apply init_constructed in Hinit.
  set (len := Z.to_nat (Z.quot (FFT_window_size s) 2)).
  destruct (@constructed_centre_between c s b 0 (len - 1) Hinit Hrate Hb Hne)
    as [m [Hm [Hlo Hhi]]].
  { intros i Hi. apply (constructed_bin_members i Hinit Hb) in Hi.
    fold len in Hi. lia. }
  exists m. split; [exact Hm |].
  pose proof (c_window_pos Hinit) as HW.
  assert (HWr : (0 < IZR (FFT_window_size s))%R) by (apply IZR_lt; lia).
  split.
  - cbn [INR] in Hlo. unfold Rdiv in Hlo. rewrite !Rmult_0_l in Hlo. exact Hlo.
  - eapply Rle_lt_trans; [exact Hhi |].
    assert (Hhalf : (2 * INR (len - 1) < IZR (FFT_window_size s))%R).
    { rewrite INR_IZR_INZ, <- mult_IZR. apply IZR_lt.
      assert (Hq : (1 <= Z.quot (FFT_window_size s) 2
                    /\ 2 * Z.quot (FFT_window_size s) 2 <= FFT_window_size s)%Z)
        by (Z.to_euclidean_division_equations; lia).
      unfold len. lia. }
    apply Rmult_lt_reg_r with (IZR (FFT_window_size s)); [exact HWr |].
    unfold Rdiv. rewrite Rmult_assoc, Rinv_l by lra. nra.
Qed.

(** X6.  With a positive sample rate the centres of the non-empty bins grow
    strictly with the bin id. *)
Theorem X6_bin_centres_increasing
        (get_smoothing_filter : R -> R -> list float)
        (c : config) (s : Stream_Analyzer) (b1 b2 : nat) :
  init get_smoothing_filter c = Ok s ->
  (0 < rate s)%R ->
  (b1 < b2)%nat -> (b2 < Z.to_nat (n_frequency_bins s))%nat ->
  nth b1 (fftx_indices_per_bin s) [] <> [] ->
  nth b2 (fftx_indices_per_bin s) [] <> [] ->
  exists m1 m2,
    nth b1 (frequency_bin_centres s) NaN = Fin m1 /\
    nth b2 (frequency_bin_centres s) NaN = Fin m2 /\
    (m1 < m2)%R.
Proof.
  intros Hinit Hrate H12 Hb2 Hne1 Hne2. apply init_constructed in Hinit.
  assert (Hb1 : (b1 < Z.to_nat (n_frequency_bins s))%nat) by lia.
  set (len := Z.to_nat (Z.quot (FFT_window_size s) 2)).
  destruct (greatest_position Hne1) as [p [Hp Hmax]].
  pose proof (proj1 (constructed_bin_members p Hinit Hb1) Hp) as [Hplen Hpid].
  fold len in Hplen, Hpid.
  assert (Hsep : forall j, In j (nth b2 (fftx_indices_per_bin s) []) ->
                           (S p <= j <= len - 1)%nat).
  { intros j Hj. apply (constructed_bin_members j Hinit Hb2) in Hj.
    fold len in Hj. destruct Hj as [Hjlen Hjid].
    split; [| lia].
    destruct (le_lt_dec j p) as [Hjp | Hjp]; [exfalso | lia].
    pose proof (table_id_mono (c_bins_pos Hinit) Hjp Hplen). lia. }
  destruct (@constructed_centre_between c s b1 0 p Hinit Hrate Hb1 Hne1)
    as [m1 [Hm1 [_ Hhi1]]].
  { intros i Hi. specialize (Hmax i Hi). lia. }
  destruct (@constructed_centre_between c s b2 (S p) (len - 1)
              Hinit Hrate Hb2 Hne2 Hsep) as [m2 [Hm2 [Hlo2 _]]].
  exists m1, m2. split; [exact Hm1 | split; [exact Hm2 |]].
  eapply Rle_lt_trans; [exact Hhi1 |].
  eapply Rlt_le_trans; [| exact Hlo2].
  pose proof (c_window_pos Hinit) as HW.
  assert (Hinv : (0 < / IZR (FFT_window_size s))%R)
    by (apply Rinv_0_lt_compat; apply IZR_lt; lia).
  rewrite S_INR. unfold Rdiv.
  apply Rmult_lt_compat_r; [exact Hinv |]. nra.
Qed.

Lemma cramped_bins (s : Stream_Analyzer) :
  constructed cramped_config s ->
  fftx_indices_per_bin s = [[0%nat]; [1%nat]; []] /\ rate s = 1000%R /\
  n_frequency_bins s = 3%Z.
Proof.
  intro Hc. pose proof (cramped_shape Hc) as [HB [_ Hlen]].
  pose proof (c_fftx_bin_indices Hc) as Hids. rewrite Hlen, HB in Hids.
  rewrite (proj1 table_two_positions_three_bins) in Hids.
  inversion Hids as [Hids'].
  split; [| split; [rewrite (c_rate Hc); reflexivity | exact HB]].
  rewrite (c_fftx_indices_per_bin Hc), <- Hids', HB. reflexivity.
Qed.

Lemma X5_bin_centres_in_band_witness :
  exists s m,
    init (fun _ _ => []) cramped_config = Ok s /\
    nth 1 (frequency_bin_centres s) NaN = Fin m /\
    (0 <= m < rate s / 2)%R.
Proof.
  destruct (init_cramped_ok (fun _ _ => [])) as [s Hs].
  pose proof (cramped_bins (init_constructed _ _ Hs)) as [Hbins [Hrate HB]].
  destruct (X5_bin_centres_in_band (fun _ _ => []) cramped_config (b := 1) Hs)
    as [m Hm].
  - rewrite Hrate. lra.
  - rewrite HB. apply Nat.ltb_lt. reflexivity.
  - rewrite Hbins. discriminate.
  - exists s, m. split; [exact Hs | exact Hm].
Defined.

Lemma X6_bin_centres_increasing_witness :
  exists s m1 m2,
    init (fun _ _ => []) cramped_config = Ok s /\
    nth 0 (frequency_bin_centres s) NaN = Fin m1 /\
    nth 1 (frequency_bin_centres s) NaN = Fin m2 /\
    (m1 < m2)%R.
Proof.
  destruct (init_cramped_ok (fun _ _ => [])) as [s Hs].
  pose proof (cramped_bins (init_constructed _ _ Hs)) as [Hbins [Hrate HB]].
  destruct (X6_bin_centres_increasing (fun _ _ => []) cramped_config
                                      (b1 := 0) (b2 := 1) Hs)
    as [m1 [m2 Hm]].
  - rewrite Hrate. lra.
  - apply Nat.ltb_lt. reflexivity.
  - rewrite HB. apply Nat.ltb_lt. reflexivity.
  - rewrite Hbins. discriminate.
  - rewrite Hbins. discriminate.
  - exists s, m1, m2. split; [exact Hs | exact Hm].
Defined.

(** ** The outcome of the constructor *)

Lemma init_buffering (get_smoothing_filter : R -> R -> list float)
      (c : config) (s : Stream_Analyzer) :
  init get_smoothing_filter c = Ok s ->
  arg_updates_per_second c <> 0%R /\
  update_window_n_frames s
  = round_up_to_even (arg_rate c / arg_updates_per_second c) /\
  update_window_n_frames s <> 0%Z /\
  data_windows_to_buffer s
  = Z.max 1 (Zceil (IZR (FFT_window_size s) / IZR (update_window_n_frames s))) /\
  data_buffer s
  = Buffer.create (Z.to_nat (data_windows_to_buffer s))
                  (Z.to_nat (update_window_n_frames s)) Float.zero 1 /\
  power_normalization_coefficients s
  = Np.flogspace2 (Float.log2 (Fin 1))
                  (Float.log2 (Float.log2 (Fin (rate s / 2))))
                  (length (fftx s)) /\
  FFT_window_size_ms s = (1000 * IZR (FFT_window_size s) / rate s)%R.
Proof.
  unfold init. intro H.
  destruct (py_div _ (arg_rate c)) as [ms |] eqn:Hms; [| discriminate].
  cbn [bind] in H.
  destruct (np_length _) as [half |] eqn:Hhalf in H; [| discriminate].
  cbn [bind] in H.
  destruct (py_div (arg_rate c) _) as [per |] eqn:Hper; [| discriminate].
  cbn [bind] in H.
  destruct (py_div _ _) as [ratio |] eqn:Hratio in H; [| discriminate].
  cbn [bind] in H.
  destruct (BinTable.fftx_bin_indices _ _) as [ids |] eqn:Hids in H;
    [| discriminate].
  cbn [bind] in H.
  destruct (np_length (arg_n_frequency_bins c)) as [nb |] eqn:Hnb in H;
    [| discriminate].
  cbn [bind] in H.
  apply py_div_Ok_inv in Hms. destruct Hms as [_ ->].
  apply py_div_Ok_inv in Hper. destruct Hper as [Hups ->].
  apply py_div_Ok_inv in Hratio. destruct Hratio as [Hn ->].
  inversion H; subst s; clear H. cbn.
  repeat split; try reflexivity; try assumption.
  intro H0. apply Hn. rewrite H0. reflexivity.
Qed.

(** X7.  An analyzer is constructed only from a sample rate and an update
    rate other than zero, a window of at least two samples, a chunk length
    [round_up_to_even(rate / updates_per_second)] other than zero and a
    positive bin count; its spectrum then has at least one position and its
    bin-energy vector at least one entry. *)
Theorem X7_construction_requires
        (get_smoothing_filter : R -> R -> list float)
        (c : config) (s : Stream_Analyzer) :
  init get_smoothing_filter c = Ok s ->
  arg_rate c <> 0%R /\
  (2 <= round_up_to_even (arg_rate c * arg_FFT_window_size_ms c / 1000))%Z /\
  arg_updates_per_second c <> 0%R /\
  round_up_to_even (arg_rate c / arg_updates_per_second c) <> 0%Z /\
  (0 < arg_n_frequency_bins c)%Z /\
  (1 <= length (fft s))%nat /\
  (1 <= length (frequency_bin_energies s))%nat.
Proof.
  intro Hs.
  pose proof (init_constructed _ _ Hs) as Hc.
  pose proof (init_buffering _ _ Hs) as [Hups [Hn [Hn0 _]]].
  pose proof (c_window_pos Hc) as HW.
  pose proof (c_bins_pos Hc) as HB.
  split; [apply (c_rate_nonzero Hc) |].
  split; [rewrite <- (c_FFT_window_size Hc); exact HW |].
  split; [exact Hups |].
  split; [rewrite <- Hn; exact Hn0 |].
  split; [rewrite <- (c_n_frequency_bins Hc); exact HB |].
  split.
  - rewrite (c_fft Hc). unfold Np.ones. rewrite repeat_length.
    assert (1 <= Z.quot (FFT_window_size s) 2)%Z
      by (Z.to_euclidean_division_equations; lia).
    lia.
  - rewrite (c_frequency_bin_energies Hc). unfold Np.zeros.
    rewrite repeat_length. lia.
Qed.

Lemma X7_construction_requires_witness :
  exists s,
    init (fun _ _ => [Fin 1]) default_config = Ok s /\
    (1 <= length (fft s))%nat /\
    (1 <= length (frequency_bin_energies s))%nat.
Proof.
  destruct (init_default_ok (fun _ _ => [Fin 1])) as [s Hs].
  exists s. split; [exact Hs |].
  apply (X7_construction_requires _ _ Hs).
Defined.

(** X8.  Which exception stops the constructor before it allocates the
    sample buffer.  With a non-zero sample rate: a negative window size
    raises ValueError (negative array length at line 43); otherwise a zero
    update rate raises ZeroDivisionError (line 46); otherwise a zero chunk
    length raises ZeroDivisionError (line 47). *)
Theorem X8_constructor_early_exceptions
        (get_smoothing_filter : R -> R -> list float) (c : config) :
  let W := round_up_to_even (arg_rate c * arg_FFT_window_size_ms c / 1000) in
  let n := round_up_to_even (arg_rate c / arg_updates_per_second c) in
  arg_rate c <> 0%R ->
  ((W < 0)%Z -> init get_smoothing_filter c = Raise ValueError) /\
  ((0 <= W)%Z -> arg_updates_per_second c = 0%R ->
   init get_smoothing_filter c = Raise ZeroDivisionError) /\
  ((0 <= W)%Z -> arg_updates_per_second c <> 0%R -> n = 0%Z ->
   init get_smoothing_filter c = Raise ZeroDivisionError).
Proof.
  intros W n Hrate.
  assert (Heven : Z.even W = true) by apply round_up_to_even_even.
  unfold init. cbv zeta. fold W. rewrite (py_div_ok _ Hrate). cbn [bind].
  split; [| split].
  - intro HW. unfold np_length.
    replace (Z.quot W 2 <? 0)%Z with true; [reflexivity |].
    symmetry. apply Z.ltb_lt. clearbody W.
    apply Z.even_spec in Heven. destruct Heven as [k ->].
    rewrite Z.mul_comm, Z.quot_mul by lia. lia.
  - intros HW Hups.
    rewrite np_length_ok
      by (clearbody W; Z.to_euclidean_division_equations; lia).
    cbn [bind]. rewrite Hups, py_div_zero. reflexivity.
  - intros HW Hups Hn.
    rewrite np_length_ok
      by (clearbody W; Z.to_euclidean_division_equations; lia).
    cbn [bind]. rewrite (py_div_ok _ Hups). cbn [bind]. fold n.
    rewrite Hn, py_div_zero. reflexivity.
Qed.

Lemma X8_constructor_early_exceptions_witness :
  init (fun _ _ => [Fin 1])
       {| arg_rate := 96000; arg_FFT_window_size_ms := -50;
          arg_updates_per_second := 10; arg_smoothing_length_ms := 50;
          arg_n_frequency_bins := 51 |} = Raise ValueError /\
  init (fun _ _ => [Fin 1])
       {| arg_rate := 96000; arg_FFT_window_size_ms := 50;
          arg_updates_per_second := 0; arg_smoothing_length_ms := 50;
          arg_n_frequency_bins := 51 |} = Raise ZeroDivisionError.
Proof.
  assert (Hrate : (96000 <> 0)%R) by lra.
  split.
  - apply (proj1 (X8_constructor_early_exceptions (fun _ _ => [Fin 1])
                    {| arg_rate := 96000; arg_FFT_window_size_ms := -50;
                       arg_updates_per_second := 10;
                       arg_smoothing_length_ms := 50;
                       arg_n_frequency_bins := 51 |} Hrate)).
    cbn [arg_rate arg_FFT_window_size_ms].
    rewrite (round_up_to_even_eq (-2400)) by (simpl IZR; lra). lia.
  - apply (proj1 (proj2 (X8_constructor_early_exceptions (fun _ _ => [Fin 1])
                    {| arg_rate := 96000; arg_FFT_window_size_ms := 50;
                       arg_updates_per_second := 0;
                       arg_smoothing_length_ms := 50;
                       arg_n_frequency_bins := 51 |} Hrate))).
    + cbn [arg_rate arg_FFT_window_size_ms].
      assert (2 <= round_up_to_even (96000 * 50 / 1000))%Z
        by (apply round_up_to_even_pos; lra).
      lia.
    + reflexivity.
Defined.

(** ** The sample buffer *)

(** X9.  When the chunk length [update_window_n_frames] is positive, the
    constructor asks for at least one window in the sample buffer, and the
    windows it asks for together hold at least one full FFT window:
    [data_windows_to_buffer * update_window_n_frames >= FFT_window_size]. *)
Theorem X9_sample_buffer_holds_a_window
        (get_smoothing_filter : R -> R -> list float)
        (c : config) (s : Stream_Analyzer) :
  init get_smoothing_filter c = Ok s ->
  (0 < update_window_n_frames s)%Z ->
  (1 <= data_windows_to_buffer s)%Z /\
  (FFT_window_size s
   <= data_windows_to_buffer s * update_window_n_frames s)%Z /\
  Buffer.n_windows (data_buffer s) = Z.to_nat (data_windows_to_buffer s) /\
  Buffer.samples_per_window (data_buffer s)
  = Z.to_nat (update_window_n_frames s).
Proof.
  intros Hinit Hn.
  pose proof (init_buffering _ _ Hinit) as [_ [_ [_ [Hd [Hbuf _]]]]].
  assert (Hd1 : (1 <= data_windows_to_buffer s)%Z) by (rewrite Hd; lia).
  split; [exact Hd1 |].
  split; [| rewrite Hbuf; split; reflexivity].
  assert (Hc : (Zceil (IZR (FFT_window_size s) / IZR (update_window_n_frames s))
                <= data_windows_to_buffer s)%Z) by (rewrite Hd; lia).
  pose proof (Zceil_bound (IZR (FFT_window_size s)
                           / IZR (update_window_n_frames s))) as [_ Hb].
  assert (Hnr : (0 < IZR (update_window_n_frames s))%R)
    by (apply IZR_lt; exact Hn).
  apply IZR_le in Hc. apply le_IZR. rewrite mult_IZR.
  assert (Hw : (IZR (FFT_window_size s)
                = IZR (FFT_window_size s) / IZR (update_window_n_frames s)
                  * IZR (update_window_n_frames s))%R) by (field; lra).
  rewrite Hw at 1. apply Rmult_le_compat_r; lra.
Qed.

Lemma X9_sample_buffer_holds_a_window_witness :
  exists s,
    init (fun _ _ => [Fin 1]) default_config = Ok s /\
    (FFT_window_size s
     <= data_windows_to_buffer s * update_window_n_frames s)%Z.
Proof.
  destruct (init_default_ok (fun _ _ => [Fin 1])) as [s Hs].
  exists s. split; [exact Hs |].
  apply (X9_sample_buffer_holds_a_window (fun _ _ => [Fin 1]) default_config Hs).
  pose proof (init_buffering _ _ Hs) as [_ [Hn _]]. rewrite Hn.
  cbn [default_config arg_rate arg_updates_per_second].
  assert (2 <= round_up_to_even (96000 / 10))%Z
    by (apply round_up_to_even_pos; lra).
  lia.
Defined.

(** ** The shape of what [get_audio_features] returns *)

Lemma flinspace_length (start stop : float) (n : nat) :
  length (Np.flinspace start stop n) = n.
Proof.
  unfold Np.flinspace. destruct n as [| [| m]]; [reflexivity | reflexivity |].
  replace (1 <? S (S m))%nat with true by reflexivity.
  rewrite (seq_S (S m) 0), map_app. cbn [map].
  rewrite removelast_last, length_app, length_map, length_seq. cbn. lia.
Qed.

Lemma multiply_length (a b : list float) :
  length (Np.multiply a b) = Nat.min (length a) (length b).
Proof.
  revert b. induction a as [| x a IH]; intro b; [reflexivity |].
  destruct b as [| y b]; [reflexivity |]. cbn [Np.multiply length].
  rewrite IH. reflexivity.
Qed.

Lemma bin_energies_length (spectrum : list float)
      (per_bin : list (list nat)) (n_bins : Z) :
  length (bin_energies spectrum per_bin n_bins) = Z.to_nat n_bins.
Proof.
  unfold bin_energies. rewrite length_map, length_seq. reflexivity.
Qed.

Lemma get_dirty_feature_buffer
      (getFFT : list float -> R -> Z -> bool -> list float)
      (savgol_filter : list float -> Z -> Z -> list float)
      (s : Stream_Analyzer) :
  buffer_is_updated s = true ->
  feature_buffer (fst (get_audio_features getFFT savgol_filter s))
  = feature_buffer (update_features getFFT s).
Proof.
  intro Hd. rewrite get_dirty by exact Hd. cbv zeta.
  generalize (update_features getFFT s). intro s1.
  generalize (postprocess savgol_filter (update_rolling_stats s1)
                (frequency_bin_energies (update_rolling_stats s1))).
  intro e. destruct s1. reflexivity.
Qed.

Lemma temporal_smoothing_shape (s : Stream_Analyzer) (spectrum : list float)
      (len : nat) :
  length spectrum = len ->
  (forall fb, feature_buffer s = Some fb -> Buffer.samples_per_window fb = len) ->
  length (snd (temporal_smoothing s spectrum)) = len /\
  (forall fb, fst (temporal_smoothing s spectrum) = Some fb ->
              Buffer.samples_per_window fb = len).
Proof.
  intros Hsp Hfb. unfold temporal_smoothing.
  destruct (Float.Rltb 0 (smoothing_length_ms s));
    [| split; [exact Hsp | exact Hfb]].
  destruct (smoothing_kernel s) as [kernel |];
    [| split; [exact Hsp | exact Hfb]].
  destruct (feature_buffer s) as [fb |] eqn:Hbuf;
    [| split; [exact Hsp | exact Hfb]].
  specialize (Hfb fb eq_refl).
  destruct (Nat.eqb _ _); cbn [fst snd]; split.
  - rewrite mean_axis0_length. exact Hfb.
  - intros fb' Heq. inversion Heq. exact Hfb.
  - exact Hsp.
  - intros fb' Heq. inversion Heq. exact Hfb.
Qed.

Section Shapes.

Variable getFFT : list float -> R -> Z -> bool -> list float.
Variable savgol_filter : list float -> Z -> Z -> list float.

(** The shapes the collaborators owe: a spectrum of half the window size,
    and as many filtered values as unfiltered ones. *)
Hypothesis getFFT_length :
  forall data rate window_size log_scale,
    length (getFFT data rate window_size log_scale)
    = Z.to_nat (Z.quot window_size 2).
Hypothesis savgol_filter_length :
  forall e w p, length (savgol_filter e w p) = length e.

Definition shaped (s : Stream_Analyzer) : Prop :=
  length (fft s) = Z.to_nat (Z.quot (FFT_window_size s) 2) /\
  length (power_normalization_coefficients s)
  = Z.to_nat (Z.quot (FFT_window_size s) 2) /\
  length (frequency_bin_energies s) = Z.to_nat (n_frequency_bins s) /\
  forall fb, feature_buffer s = Some fb ->
             Buffer.samples_per_window fb
             = Z.to_nat (Z.quot (FFT_window_size s) 2).

Lemma postprocess_length (s : Stream_Analyzer) (e : list float) :
  length (postprocess savgol_filter s e) = length e.
Proof.
  unfold postprocess, Np.clamp_negative, Np.nan_to_num.
  destruct (apply_frequency_smoothing s && (3 <? filter_width s)%Z);
    rewrite ?length_map, ?savgol_filter_length, ?length_map; reflexivity.
Qed.

Lemma step_shaped (s : Stream_Analyzer) (c : call) :
  shaped s -> shaped (step getFFT savgol_filter s c).
Proof.
  intro Hs. destruct c as [d |]; cbn [step]; [destruct s; exact Hs |].
  destruct (buffer_is_updated s) eqn:Hd;
    [| rewrite get_clean by exact Hd; exact Hs].
  destruct Hs as [Hfft [Hpow [Hen Hfb]]].
  pose proof (get_static getFFT savgol_filter s) as Hst.
  set (s' := fst (get_audio_features getFFT savgol_filter s)) in *.
  assert (HW : FFT_window_size s' = FFT_window_size s) by from_static Hst.
  assert (HB : n_frequency_bins s' = n_frequency_bins s) by from_static Hst.
  assert (HP : power_normalization_coefficients s'
               = power_normalization_coefficients s) by from_static Hst.
  destruct (get_dirty_fields getFFT savgol_filter s Hd)
    as [_ [_ [Hfft' Hen']]].
  cbv zeta in Hfft', Hen'. fold s' in Hfft', Hen'.
  pose proof (get_dirty_feature_buffer getFFT savgol_filter s Hd) as Hfb'.
  fold s' in Hfb'.
  pose proof (update_features_smoothing getFFT s) as Hsm. cbv zeta in Hsm.
  destruct Hsm as [Hsm1 Hsm2].
  set (compensated :=
         Np.multiply
           (getFFT (Buffer.get_most_recent (data_buffer s)
                                           (Z.to_nat (FFT_window_size s)))
                   (rate s) (FFT_window_size s) (log_features s))
           (power_normalization_coefficients s)) in *.
  assert (Hcomp : length compensated
                  = Z.to_nat (Z.quot (FFT_window_size s) 2)).
  { unfold compensated. rewrite multiply_length, getFFT_length, Hpow. lia. }
  destruct (@temporal_smoothing_shape s compensated _ Hcomp Hfb) as [Hout Hbuf].
  unfold shaped. rewrite HW, HB, HP.
  split; [rewrite Hfft', Hsm1; exact Hout |].
  split; [exact Hpow |].
  split.
  - rewrite Hen', postprocess_length, update_features_energies.
    apply bin_energies_length.
  - intros fb Hsome. apply Hbuf. rewrite <- Hsm2, <- Hfb'. exact Hsome.
Qed.

Lemma run_shaped (cs : list call) (s : Stream_Analyzer) :
  shaped s -> shaped (run getFFT savgol_filter s cs).
Proof.
  revert s. induction cs as [| c cs IH]; intros s Hs; [exact Hs |].
  cbn [run fold_left]. apply (IH (step getFFT savgol_filter s c)).
  apply step_shaped. exact Hs.
Qed.

End Shapes.

Lemma constructed_shaped (get_smoothing_filter : R -> R -> list float)
      (c : config) (s : Stream_Analyzer) :
  init get_smoothing_filter c = Ok s -> shaped s.
Proof.
  intro Hinit. pose proof (init_constructed _ _ Hinit) as Hc.
  pose proof (constructed_ids_length Hc) as [_ [Hl2 Hl3]].
  pose proof (init_buffering _ _ Hinit) as [_ [_ [_ [_ [_ [Hpow _]]]]]].
  unfold shaped. split; [exact Hl2 |].
  split.
  { rewrite Hpow. unfold Np.flogspace2.
    rewrite length_map, flinspace_length. exact Hl3. }
  split.
  { rewrite (c_frequency_bin_energies Hc). unfold Np.zeros.
    apply repeat_length. }
  intros fb Hfb.
  destruct (Rlt_dec 0 (smoothing_length_ms s)) as [Hon | Hoff].
  - destruct (c_smoothing_on Hc Hon) as [k [_ Hbuf]].
    rewrite Hbuf in Hfb. inversion Hfb. cbn. exact Hl2.
  - destruct (c_smoothing_off Hc) as [_ Hnone]; [lra |].
    rewrite Hnone in Hfb. discriminate.
Qed.

(** X10.  If [getFFT] returns one magnitude per spectrum position and the
    Savitzky-Golay filter returns as many values as it receives, then after
    any sequence of calls [get_audio_features] returns a frequency axis and
    a spectrum of [W/2] entries and bin centres and bin energies of [B]
    entries. *)
Theorem X10_feature_lengths
        (getFFT : list float -> R -> Z -> bool -> list float)
        (savgol_filter : list float -> Z -> Z -> list float)
        (get_smoothing_filter : R -> R -> list float)
        (c : config) (s0 : Stream_Analyzer) (cs : list call) :
  (forall data rate window_size log_scale,
      length (getFFT data rate window_size log_scale)
      = Z.to_nat (Z.quot window_size 2)) ->
  (forall e w p, length (savgol_filter e w p) = length e) ->
  init get_smoothing_filter c = Ok s0 ->
  let out := snd (get_audio_features getFFT savgol_filter
                    (run getFFT savgol_filter s0 cs)) in
  length (out_fftx out) = Z.to_nat (Z.quot (FFT_window_size s0) 2) /\
  length (out_fft out) = Z.to_nat (Z.quot (FFT_window_size s0) 2) /\
  length (out_frequency_bin_centres out) = Z.to_nat (n_frequency_bins s0) /\
  length (out_frequency_bin_energies out) = Z.to_nat (n_frequency_bins s0).
Proof.
  intros HgetFFT Hsavgol Hinit out.
  pose proof (init_constructed _ _ Hinit) as Hc.
  pose proof (constructed_ids_length Hc) as [_ [_ Hl3]].
  pose proof (constructed_shaped _ _ Hinit) as Hs0.
  pose proof (@run_shaped getFFT savgol_filter HgetFFT Hsavgol
                          (cs ++ [Get]) s0 Hs0) as Hs.
  unfold run in Hs. rewrite fold_left_app in Hs. cbn [fold_left step] in Hs.
  fold (run getFFT savgol_filter s0 cs) in Hs.
  pose proof (run_static getFFT savgol_filter (cs ++ [Get]) s0) as Hst.
  unfold run in Hst. rewrite fold_left_app in Hst.
  cbn [fold_left step] in Hst.
  fold (run getFFT savgol_filter s0 cs) in Hst.
  set (s' := fst (get_audio_features getFFT savgol_filter
                    (run getFFT savgol_filter s0 cs))) in *.
  assert (HW : FFT_window_size s' = FFT_window_size s0) by from_static Hst.
  assert (HB : n_frequency_bins s' = n_frequency_bins s0) by from_static Hst.
  assert (Hx : fftx s' = fftx s0) by from_static Hst.
  assert (Hcen : frequency_bin_centres s' = frequency_bin_centres s0)
    by from_static Hst.
  destruct Hs as [Hfft [_ [Hen _]]]. rewrite HW in Hfft. rewrite HB in Hen.
  unfold out. rewrite get_returns_current. fold s'.
  cbn [current_features out_fftx out_fft out_frequency_bin_centres
       out_frequency_bin_energies].
  rewrite Hx, Hcen.
  split; [exact Hl3 | split; [exact Hfft | split; [| exact Hen]]].
  rewrite (c_frequency_bin_centres Hc). unfold BinTable.frequency_bin_centres.
  rewrite length_map, (c_fftx_indices_per_bin Hc).
  apply fftx_indices_per_bin_length.
Qed.

Lemma X10_feature_lengths_witness :
  exists s0,
    init (fun _ _ => [Fin 1; Fin 3]) default_config = Ok s0 /\
    let out := snd (get_audio_features flat_spectrum no_filter
                      (run flat_spectrum no_filter s0
                           [Append (repeat (Fin 0) (Z.to_nat 9600)); Get;
                            Append (repeat (Fin 1) (Z.to_nat 9600))])) in
    length (out_fft out) = Z.to_nat (Z.quot (FFT_window_size s0) 2) /\
    length (out_frequency_bin_energies out) = Z.to_nat (n_frequency_bins s0).
Proof.
  destruct (init_default_ok (fun _ _ => [Fin 1; Fin 3])) as [s0 Hs0].
  exists s0. split; [exact Hs0 |].
  destruct (@X10_feature_lengths flat_spectrum no_filter
              (fun _ _ => [Fin 1; Fin 3]) default_config s0
              [Append (repeat (Fin 0) (Z.to_nat 9600)); Get;
               Append (repeat (Fin 1) (Z.to_nat 9600))])
    as [_ [Hfft [_ Hen]]].
  - intros data rate window_size log_scale. unfold flat_spectrum, Np.ones.
    apply repeat_length.
  - intros e w p. reflexivity.
  - exact Hs0.
  - split; [exact Hfft | exact Hen].
Defined.

(** ** From raw to returned bin energies *)

(** What the last lines of [get_audio_features] make of one raw energy when
    the cross-bin filter is skipped. *)
Definition sanitized (x : float) : float :=
  match x with
  | NaN | NInf => Fin 0
  | PInf => Fin Float.float_max
  | Fin r => Fin (Rmax r 0)
  end.

Lemma float_max_pos : (0 < Float.float_max)%R.
Proof.
  unfold Float.float_max.
  assert (H52 : (0 < 2 ^ 52)%R) by (apply pow_lt; lra).
  assert (H1023 : (0 < 2 ^ 1023)%R) by (apply pow_lt; lra).
  assert (Hinv : (/ 2 ^ 52 <= 1)%R).
  { rewrite <- Rinv_1. apply Rinv_le_contravar; [lra |].
    apply pow_R1_Rle. lra. }
  apply Rmult_lt_0_compat; lra.
Qed.

Lemma clamp_nan_to_num (x : float) :
  (if Float.ltb (Float.nan_to_num x) Float.zero
   then Float.zero else Float.nan_to_num x) = sanitized x.
Proof.
  pose proof float_max_pos as Hmax.
  destruct x as [| | | r]; unfold Float.zero, sanitized;
    cbn [Float.nan_to_num Float.ltb].
  - rewrite Rltb_false by lra. reflexivity.
  - rewrite Rltb_false by lra. reflexivity.
  - rewrite Rltb_true by lra. reflexivity.
  - destruct (Rlt_dec r 0) as [Hneg | Hpos].
    + rewrite Rltb_true by exact Hneg. rewrite Rmax_right by lra. reflexivity.
    + rewrite Rltb_false by lra. rewrite Rmax_left by lra. reflexivity.
Qed.

(** X11.  When the filter width does not exceed 3, a dirty
    [get_audio_features] returns, bin by bin, the larger of the raw energy
    and 0 for a finite raw energy, 0 for NaN and for minus infinity, and the
    largest finite double for plus infinity. *)
Theorem X11_returned_energies_pointwise
        (getFFT : list float -> R -> Z -> bool -> list float)
        (savgol_filter : list float -> Z -> Z -> list float)
        (s : Stream_Analyzer) :
  buffer_is_updated s = true ->
  (filter_width s <= 3)%Z ->
  out_frequency_bin_energies (snd (get_audio_features getFFT savgol_filter s))
  = map sanitized (frequency_bin_energies (update_features getFFT s)).
Proof.
  intros Hd Hw. rewrite get_returns_current.
  cbn [current_features out_frequency_bin_energies].
  destruct (get_dirty_fields getFFT savgol_filter s Hd) as [_ [_ [_ Hen]]].
  cbv zeta in Hen. rewrite Hen, postprocess_narrow by exact Hw.
  unfold Np.clamp_negative, Np.nan_to_num. rewrite map_map.
  apply map_ext. intro x. apply clamp_nan_to_num.
Qed.

Lemma X11_returned_energies_pointwise_witness :
  exists s0,
    init (fun _ _ => []) cramped_config = Ok s0 /\
    let s := append_data s0 (repeat (Fin 0) 100) in
    out_frequency_bin_energies (snd (get_audio_features nan_spectrum no_filter s))
    = map sanitized (frequency_bin_energies (update_features nan_spectrum s)).
Proof.
  destruct (init_cramped_ok (fun _ _ => [])) as [s0 Hs0].
  exists s0. split; [exact Hs0 |].
  pose proof (init_constructed _ _ Hs0) as Hc.
  pose proof (cramped_shape Hc) as [HB _].
  intro s.
  apply X11_returned_energies_pointwise.
  - unfold s. destruct s0. reflexivity.
  - assert (Hfw : filter_width s = filter_width s0)
      by (unfold s; destruct s0; reflexivity).
    rewrite Hfw, (c_filter_width Hc), HB.
    rewrite (round_up_to_even_eq 1) by (simpl IZR; lra). lia.
Defined.

(** ** The equalizer vector, entry by entry *)

(** X12.  In an update step whose per-bin means are all finite the floor is
    finite and every entry of the equalizer vector is the larger of the floor
    and the per-bin mean: means at or above the floor are kept, lower ones
    are lifted to the floor. *)
Theorem X12_equalizer_lifts_to_floor (s : Stream_Analyzer) :
  let s' := update_rolling_stats s in
  let means := per_bin_means (rolling_bin_values s') in
  means <> [] ->
  Forall (fun m => Float.is_finite m = true) means ->
  exists floor,
    equalizer_floor (equalizer_strength s) means = Fin floor /\
    length (bin_mean_values s') = length means /\
    forall b, (b < length means)%nat ->
              exists m, nth b means NaN = Fin m /\
                        nth b (bin_mean_values s') NaN = Fin (Rmax floor m).
Proof.
  intros s' means Hne Hfin.
  destruct (mean_finite Hne Hfin) as [r Hr].
  exists ((1 - equalizer_strength s) * r)%R.
  assert (Hfloor : equalizer_floor (equalizer_strength s) means
                   = Fin ((1 - equalizer_strength s) * r)).
  { unfold equalizer_floor. rewrite Hr. reflexivity. }
  split; [exact Hfloor |].
  assert (Hvec : bin_mean_values s'
                 = Np.maximum_scalar
                     (equalizer_floor (equalizer_strength s) means) means)
    by apply update_rolling_stats_means.
  rewrite Hvec, Hfloor. unfold Np.maximum_scalar.
  split; [apply length_map |].
  intros b Hb.
  set (f := ((1 - equalizer_strength s) * r)%R).
  assert (Hnth : nth b (map (Float.maximum (Fin f)) means) NaN
                 = Float.maximum (Fin f) (nth b means NaN)).
  { rewrite nth_indep with (d' := Float.maximum (Fin f) NaN)
      by (rewrite length_map; exact Hb).
    apply map_nth. }
  rewrite Hnth.
  rewrite Forall_forall in Hfin.
  specialize (Hfin (nth b means NaN) (nth_In _ _ Hb)).
  destruct (nth b means NaN) as [| | | m]; try discriminate.
  exists m. split; [reflexivity |].
  unfold Float.maximum. cbn [Float.ltb].
  destruct (Rlt_dec f m) as [Hlt | Hge].
  - rewrite Rltb_true by exact Hlt. rewrite Rmax_right by lra. reflexivity.
  - rewrite Rltb_false by lra. rewrite Rmax_left by lra. reflexivity.
Qed.

(** ** The strongest frequency *)

Lemma ltb_irrefl (a : float) : Float.ltb a a = false.
Proof.
  destruct a as [| | | r]; try reflexivity.
  cbn [Float.ltb]. apply Rltb_false. lra.
Qed.

Lemma ltb_overtaken (a b c : float) :
  Float.ltb a b = true -> Float.ltb a c = false -> Float.is_nan c = false ->
  Float.ltb b c = false.
Proof.
  destruct a as [| | | x], b as [| | | y], c as [| | | z];
    cbn [Float.ltb Float.is_nan]; intros Hab Hac Hc;
    try discriminate; try reflexivity.
  apply Rltb_spec in Hab.
  destruct (Rlt_dec x z) as [Hxz | Hxz];
    [rewrite Rltb_true in Hac by exact Hxz; discriminate |].
  apply Rltb_false. lra.
Qed.

Lemma argmax_from_greatest (xs pre : list float) (best : float) (besti : nat) :
  Forall (fun x => Float.is_nan x = false) (pre ++ xs) ->
  Float.is_nan best = false ->
  (besti < length pre)%nat ->
  nth besti (pre ++ xs) NaN = best ->
  (forall j, (j < length pre)%nat ->
             Float.ltb best (nth j (pre ++ xs) NaN) = false) ->
  let k := Np.argmax_from best besti (length pre) xs in
  (k < length (pre ++ xs))%nat /\
  forall j, (j < length (pre ++ xs))%nat ->
            Float.ltb (nth k (pre ++ xs) NaN) (nth j (pre ++ xs) NaN) = false.
Proof.
  revert pre best besti.
  induction xs as [| x xs IH]; intros pre best besti Hnan Hbest Hlt Hval Hmax.
  - cbn [Np.argmax_from]. rewrite app_nil_r in *.
    split; [exact Hlt |]. intros j Hj. rewrite Hval. apply Hmax. exact Hj.
  - cbn [Np.argmax_from]. rewrite Hbest.
    assert (Hx : Float.is_nan x = false).
    { rewrite Forall_forall in Hnan. apply Hnan. apply in_or_app. right.
      left. reflexivity. }
    rewrite Hx. cbn [orb].
    assert (Hsplit : pre ++ x :: xs = (pre ++ [x]) ++ xs)
      by (rewrite <- app_assoc; reflexivity).
    assert (Hlen : length (pre ++ [x]) = S (length pre))
      by (rewrite length_app; cbn; lia).
    assert (Hxi : nth (length pre) (pre ++ x :: xs) NaN = x)
      by (rewrite app_nth2 by lia; rewrite Nat.sub_diag; reflexivity).
    destruct (Float.ltb best x) eqn:Hcmp.
    + specialize (IH (pre ++ [x]) x (length pre)).
      rewrite Hlen, <- Hsplit in IH. apply IH; try assumption; try lia.
      intros j Hj. destruct (Nat.eq_dec j (length pre)) as [-> | Hne].
      * rewrite Hxi. apply ltb_irrefl.
      * apply (@ltb_overtaken best x _ Hcmp); [apply Hmax; lia |].
        rewrite Forall_forall in Hnan. apply Hnan. apply nth_In.
        rewrite length_app. cbn. lia.
    + specialize (IH (pre ++ [x]) best besti).
      rewrite Hlen, <- Hsplit in IH. apply IH; try assumption; try lia.
      intros j Hj. destruct (Nat.eq_dec j (length pre)) as [-> | Hne].
      * rewrite Hxi. exact Hcmp.
      * apply Hmax. lia.
Qed.

Lemma argmax_greatest (xs : list float) :
  xs <> [] ->
  Forall (fun x => Float.is_nan x = false) xs ->
  (Np.argmax xs < length xs)%nat /\
  forall j, (j < length xs)%nat ->
            Float.ltb (nth (Np.argmax xs) xs NaN) (nth j xs NaN) = false.
Proof.
  intros Hne Hnan. destruct xs as [| x xs]; [contradiction |].
  unfold Np.argmax.
  apply (@argmax_from_greatest xs [x] x 0).
  - exact Hnan.
  - inversion Hnan. assumption.
  - cbn. lia.
  - reflexivity.
  - intros j Hj. cbn in Hj. replace j with 0%nat by lia. apply ltb_irrefl.
Qed.

Lemma update_features_strongest
      (getFFT : list float -> R -> Z -> bool -> list float)
      (s : Stream_Analyzer) :
  strongest_frequency (update_features getFFT s)
  = nth (Np.argmax (fft (update_features getFFT s))) (fftx s) NaN.
Proof.
  unfold update_features.
  destruct (temporal_smoothing _ _) as [fb sp]. destruct s. reflexivity.
Qed.

(** X13.  After [update_features], when the spectrum is not empty, holds no
    NaN and is no longer than the frequency axis, [strongest_frequency] is
    the axis frequency of a spectrum position whose magnitude no other
    position exceeds. *)
Theorem X13_strongest_frequency
        (getFFT : list float -> R -> Z -> bool -> list float)
        (s : Stream_Analyzer) :
  let s' := update_features getFFT s in
  fft s' <> [] ->
  Forall (fun x => Float.is_nan x = false) (fft s') ->
  (length (fft s') <= length (fftx s))%nat ->
  exists k,
    (k < length (fft s'))%nat /\
    strongest_frequency s' = nth k (fftx s) NaN /\
    In (strongest_frequency s') (fftx s) /\
    forall j, (j < length (fft s'))%nat ->
              Float.ltb (nth k (fft s') NaN) (nth j (fft s') NaN) = false.
Proof.
  intros s' Hne Hnan Hlen.
  destruct (argmax_greatest Hne Hnan) as [Hk Hmax].
  exists (Np.argmax (fft s')).
  assert (Hsf : strongest_frequency s' = nth (Np.argmax (fft s')) (fftx s) NaN)
    by apply update_features_strongest.
  split; [exact Hk | split; [exact Hsf | split; [| exact Hmax]]].
  rewrite Hsf. apply nth_In. lia.
Qed.

(** ** The pink-noise compensation curve *)


Lemma log2_pos (x : R) : (1 < x)%R -> (0 < Np.log2 x)%R.
Proof.
  intro Hx. unfold Np.log2.
  assert (Hln2 : (0 < ln 2)%R) by (rewrite <- ln_1; apply ln_increasing; lra).
  assert (Hlnx : (0 < ln x)%R) by (rewrite <- ln_1; apply ln_increasing; lra).
  apply Rdiv_lt_0_compat; assumption.
Qed.

Lemma float_log2_pos (x : R) : (0 < x)%R -> Float.log2 (Fin x) = Fin (Np.log2 x).
Proof.
  intro Hx. unfold Float.log2.
  rewrite Rltb_false by lra. rewrite Rltb_true by exact Hx. reflexivity.
Qed.

Lemma float_log2_neg (x : R) : (x < 0)%R -> Float.log2 (Fin x) = NaN.
Proof. intro Hx. unfold Float.log2. rewrite Rltb_true by exact Hx. reflexivity. Qed.

Lemma flinspace_finite (a b : R) (n : nat) :
  Np.flinspace (Fin a) (Fin b) n = map Fin (Np.linspace a b n).
Proof.
  assert (Hbody : forall m,
             map (fun i =>
                    if (0 <? Z.of_nat n - 1)%Z
                    then Float.add
                           (Float.mul (Fin (INR i))
                              (Float.div (Float.sub (Fin b) (Fin a))
                                         (Fin (IZR (Z.of_nat n - 1)))))
                           (Fin a)
                    else Float.add
                           (Float.mul (Fin (INR i)) (Float.sub (Fin b) (Fin a)))
                           (Fin a)) (seq 0 m)
             = map Fin
                   (map (fun i => if (0 <? Z.of_nat n - 1)%Z
                                  then (INR i * ((b - a) / IZR (Z.of_nat n - 1))
                                        + a)%R
                                  else (INR i * (b - a) + a)%R) (seq 0 m))).
  { intro m. rewrite map_map. apply map_ext. intro i.
    destruct (Z.ltb_spec 0 (Z.of_nat n - 1)) as [Hpos | Hneg].
    - cbn [Float.sub Float.add Float.div].
      rewrite Rltb_true by (apply IZR_lt; exact Hpos). reflexivity.
    - reflexivity. }
  unfold Np.flinspace, Np.linspace.
  destruct n as [| [| m]].
  - reflexivity.
  - replace (1 <? 1)%nat with false by reflexivity. apply Hbody.
  - replace (1 <? S (S m))%nat with true by reflexivity.
    rewrite Hbody. rewrite (seq_S (S m) 0), !map_app. cbn [map].
    rewrite !removelast_last. reflexivity.
Qed.

Lemma flinspace_nan (start : float) (n : nat) :
  Np.flinspace start NaN n = repeat NaN n.
Proof.
  assert (Hbody : forall m k,
             map (fun i =>
                    if (0 <? Z.of_nat n - 1)%Z
                    then Float.add
                           (Float.mul (Fin (INR i))
                              (Float.div (Float.sub NaN start)
                                         (Fin (IZR (Z.of_nat n - 1)))))
                           start
                    else Float.add
                           (Float.mul (Fin (INR i)) (Float.sub NaN start))
                           start) (seq k m)
             = repeat NaN m).
  { induction m as [| m IH]; intro k; [reflexivity |].
    cbn [seq map repeat]. rewrite IH. f_equal.
    destruct (0 <? Z.of_nat n - 1)%Z; reflexivity. }
  unfold Np.flinspace.
  destruct n as [| [| m]].
  - reflexivity.
  - replace (1 <? 1)%nat with false by reflexivity. apply Hbody.
  - replace (1 <? S (S m))%nat with true by reflexivity.
    rewrite Hbody. rewrite (repeat_cons (S m) NaN) at 1.
    rewrite removelast_last. symmetry.
    change (repeat NaN (S (S m))) with (NaN :: repeat NaN (S m)).
    rewrite (repeat_cons (S m) NaN). reflexivity.
Qed.


(** X15.  With a sample rate below 2 Hz the logarithm of a negative number
    makes every coefficient of the compensation curve NaN. *)
Theorem X15_compensation_curve_nan
        (get_smoothing_filter : R -> R -> list float)
        (c : config) (s : Stream_Analyzer) :
  init get_smoothing_filter c = Ok s ->
  (rate s < 2)%R ->
  power_normalization_coefficients s = repeat NaN (length (fft s)).
Proof.
  intros Hinit Hrate.
  pose proof (init_constructed _ _ Hinit) as Hc.
  pose proof (constructed_ids_length Hc) as [_ [Hl2 Hl3]].
  pose proof (init_buffering _ _ Hinit) as [_ [_ [_ [_ [_ [Hpow _]]]]]].
  assert (Hne : rate s <> 0%R)
    by (rewrite (c_rate Hc); apply (c_rate_nonzero Hc)).
  assert (Hstop : Float.log2 (Float.log2 (Fin (rate s / 2))) = NaN).
  { destruct (Rlt_dec (rate s / 2) 0) as [Hneg | Hpos].
    - rewrite float_log2_neg by exact Hneg. reflexivity.
    - assert (H0 : (0 < rate s / 2)%R) by lra.
      rewrite (float_log2_pos H0). apply float_log2_neg.
      unfold Np.log2.
      assert (Hln2 : (0 < ln 2)%R)
        by (rewrite <- ln_1; apply ln_increasing; lra).
      assert (Hlnx : (ln (rate s / 2) < 0)%R)
        by (rewrite <- ln_1; apply ln_increasing; lra).
      assert (Hinv : (0 < / ln 2)%R) by (apply Rinv_0_lt_compat; exact Hln2).
      unfold Rdiv. nra. }
  rewrite Hpow, Hstop, Hl3, <- Hl2. unfold Np.flogspace2.
  rewrite flinspace_nan.
  generalize (length (fft s)). intro n.
  clear. induction n as [| n IH]; [reflexivity |].
  cbn [repeat map Float.exp2]. rewrite IH. reflexivity.
Qed.

Lemma curve_is_real (get_smoothing_filter : R -> R -> list float)
      (c : config) (s : Stream_Analyzer) :
  init get_smoothing_filter c = Ok s ->
  (2 < rate s)%R ->
  exists rs, power_normalization_coefficients s = map Fin rs /\
             length rs = length (fft s).
Proof.
  intros Hinit Hrate.
  pose proof (init_constructed _ _ Hinit) as Hc.
  pose proof (constructed_ids_length Hc) as [_ [Hl2 Hl3]].
  pose proof (init_buffering _ _ Hinit) as [_ [_ [_ [_ [_ [Hpow _]]]]]].
  assert (Hhalf : (1 < rate s / 2)%R) by lra.
  pose proof (log2_pos Hhalf) as Hl.
  exists (Np.logspace (Np.log2 1) (Np.log2 (Np.log2 (rate s / 2)))
                      (length (fft s)) 2).
  split.
  - rewrite Hpow, Hl3, <- Hl2.
    rewrite (float_log2_pos (x := 1)) by lra.
    rewrite (float_log2_pos (x := rate s / 2)) by lra.
    rewrite (float_log2_pos Hl).
    unfold Np.flogspace2, Np.logspace. rewrite flinspace_finite, !map_map.
    reflexivity.
  - unfold Np.logspace. rewrite length_map, linspace_length. reflexivity.
Qed.

Lemma multiply_reals (a b : list R) :
  Forall (fun x => Float.is_nan x = false) (Np.multiply (map Fin a) (map Fin b)).
Proof.
  revert b. induction a as [| x a IH]; intro b; [constructor |].
  destruct b as [| y b]; [constructor |].
  cbn [map Np.multiply]. constructor; [reflexivity | apply IH].
Qed.

Lemma X13_strongest_frequency_witness :
  exists s0,
    init (fun _ _ => []) cramped_config = Ok s0 /\
    In (strongest_frequency
          (update_features flat_spectrum (append_data s0 (repeat (Fin 0) 100))))
       (fftx s0).
Proof.
  destruct (init_cramped_ok (fun _ _ => [])) as [s0 Hs0].
  exists s0. split; [exact Hs0 |].
  pose proof (init_constructed _ _ Hs0) as Hc.
  pose proof (cramped_shape Hc) as [_ [HW Hlen]].
  pose proof (constructed_ids_length Hc) as [_ [Hl2 Hl3]].
  destruct (curve_is_real _ _ Hs0) as [rs [Hcurve Hrs]];
    [rewrite (c_rate Hc); cbn; lra |].
  rewrite Hl2, Hlen in Hrs.
  set (s := append_data s0 (repeat (Fin 0) 100)).
  assert (Hfftx : fftx s = fftx s0) by (unfold s; destruct s0; reflexivity).
  assert (Hoff : (smoothing_length_ms s <= 0)%R).
  { replace (smoothing_length_ms s) with (smoothing_length_ms s0)
      by (unfold s; destruct s0; reflexivity).
    rewrite (c_smoothing_length_ms Hc). cbn. lra. }
  assert (Hfft : fft (update_features flat_spectrum s)
                 = Np.multiply (map Fin [1; 1]%R) (map Fin rs)).
  { pose proof (update_features_smoothing flat_spectrum s) as Hsm.
    cbv zeta in Hsm. destruct Hsm as [Hsm _]. rewrite Hsm.
    unfold temporal_smoothing. rewrite Rltb_false by exact Hoff. cbn [snd].
    replace (power_normalization_coefficients s)
      with (power_normalization_coefficients s0)
      by (unfold s; destruct s0; reflexivity).
    replace (FFT_window_size s) with (FFT_window_size s0)
      by (unfold s; destruct s0; reflexivity).
    unfold flat_spectrum. rewrite Hlen, Hcurve. reflexivity. }
  destruct (X13_strongest_frequency flat_spectrum s) as [k [_ [_ [Hin _]]]].
  - rewrite Hfft. destruct rs as [| r rs]; [discriminate | discriminate].
  - rewrite Hfft. apply multiply_reals.
  - rewrite Hfft, multiply_length, !length_map, Hrs, Hfftx, Hl3, Hlen.
    cbn. lia.
  - rewrite Hfftx in Hin. exact Hin.
Defined.


(** A configuration with a sample rate of 1 Hz. *)
Definition slow_config : config :=
  {| arg_rate := 1;
     arg_FFT_window_size_ms := 50;
     arg_updates_per_second := 10;
     arg_smoothing_length_ms := 0;
     arg_n_frequency_bins := 1 |}.

Lemma X15_compensation_curve_nan_witness :
  exists s,
    init (fun _ _ => []) slow_config = Ok s /\
    power_normalization_coefficients s = repeat NaN (length (fft s)).
Proof.
  destruct (@init_ok (fun _ _ => []) slow_config) as [s Hs];
    cbn [slow_config arg_rate arg_FFT_window_size_ms
         arg_updates_per_second arg_n_frequency_bins].
  - lra.
  - apply round_up_to_even_pos. lra.
  - lra.
  - assert (2 <= round_up_to_even (1 / 10))%Z
      by (apply round_up_to_even_pos; lra).
    lia.
  - lia.
  - exists s. split; [exact Hs |].
    apply (X15_compensation_curve_nan (fun _ _ => []) slow_config Hs).
    rewrite (c_rate (init_constructed _ _ Hs)). cbn. lra.
Defined.

(** ** Appending without reading *)

Lemma run_appends
      (getFFT : list float -> R -> Z -> bool -> list float)
      (savgol_filter : list float -> Z -> Z -> list float)
      (chunks : list (list float)) (s : Stream_Analyzer) :
  let s1 := run getFFT savgol_filter s (map Append chunks) in
  num_ffts s1 = num_ffts s /\
  current_features s1 = current_features s /\
  rolling_bin_values s1 = rolling_bin_values s /\
  bin_mean_values s1 = bin_mean_values s /\
  data_buffer s1 = fold_left Buffer.append_data chunks (data_buffer s) /\
  buffer_is_updated s1
  = match chunks with [] => buffer_is_updated s | _ :: _ => true end.
Proof.
  revert s. induction chunks as [| d chunks IH]; intro s.
  - cbn. repeat split.
  - cbn [map run fold_left step].
    specialize (IH (append_data s d)). cbv zeta in IH.
    fold (run getFFT savgol_filter (append_data s d) (map Append chunks)).
    destruct IH as [H1 [H2 [H3 [H4 [H5 H6]]]]].
    rewrite H1, H2, H3, H4, H5, H6.
    destruct s. cbn. destruct chunks; repeat split.
Qed.

(** X16.  However many chunks are appended between two reads, the appends
    only fill the sample buffer in order: the spectrum, the bin energies,
    the pipeline counter and the equalizer are left as they were, and the
    next [get_audio_features] runs the pipeline once. *)
Theorem X16_appends_coalesce
        (getFFT : list float -> R -> Z -> bool -> list float)
        (savgol_filter : list float -> Z -> Z -> list float)
        (s : Stream_Analyzer) (chunks : list (list float)) :
  chunks <> [] ->
  let s1 := run getFFT savgol_filter s (map Append chunks) in
  current_features s1 = current_features s /\
  num_ffts s1 = num_ffts s /\
  bin_mean_values s1 = bin_mean_values s /\
  rolling_bin_values s1 = rolling_bin_values s /\
  data_buffer s1 = fold_left Buffer.append_data chunks (data_buffer s) /\
  num_ffts (fst (get_audio_features getFFT savgol_filter s1))
  = (num_ffts s + 1)%nat.
Proof.
  intros Hne s1.
  destruct (run_appends getFFT savgol_filter chunks s)
    as [H1 [H2 [H3 [H4 [H5 H6]]]]].
  fold s1 in H1, H2, H3, H4, H5, H6.
  repeat split; try assumption.
  rewrite get_num_ffts, H1. unfold dirty. rewrite H6.
  destruct chunks; [contradiction | reflexivity].
Qed.

Lemma X16_appends_coalesce_witness :
  exists s0,
    init (fun _ _ => []) cramped_config = Ok s0 /\
    num_ffts (fst (get_audio_features flat_spectrum no_filter
                     (run flat_spectrum no_filter s0
                          (map Append [repeat (Fin 0) 100; repeat (Fin 1) 100;
                                       repeat (Fin 2) 100]))))
    = 1%nat.
Proof.
  destruct (init_cramped_ok (fun _ _ => [])) as [s0 Hs0].
  exists s0. split; [exact Hs0 |].
  destruct (@X16_appends_coalesce flat_spectrum no_filter s0
              [repeat (Fin 0) 100; repeat (Fin 1) 100; repeat (Fin 2) 100])
    as [_ [_ [_ [_ [_ Hn]]]]]; [discriminate |].
  rewrite Hn, (c_num_ffts (init_constructed _ _ Hs0)). reflexivity.
Defined.

(** ** Raw bin energies *)





(** * Small analyzers: the equalizer, the smoother and the cross-bin filter *)

(** ** A spectrum of two positions *)

Lemma table_id_own_position (len : nat) (n_bins : Z) (i : nat) :
  (INR i <= (INR len - 1 - nth i (BinTable.log_positions len) 0%R)
            / (INR len / IZR n_bins))%R ->
  table_id len n_bins i = Z.of_nat i.
Proof.
  intro H. unfold table_id.
  apply np_round_mono in H. rewrite INR_IZR_INZ, np_round_IZR in H. lia.
Qed.

Lemma two_position_table (n_bins : Z) :
  (2 <= n_bins)%Z ->
  BinTable.fftx_bin_indices 2 n_bins = Ok [0%Z; 1%Z].
Proof.
  intro HB. rewrite fftx_bin_indices_ok by lia. f_equal.
  cbn [seq map]. f_equal; [| f_equal].
  - pose proof (@table_id_bounds 2 n_bins 0 ltac:(lia) ltac:(lia)). lia.
  - rewrite (table_id_last 0 n_bins).
    assert (H : (1 <= Np.round ((INR 2 - 1) / (INR 2 / IZR n_bins)))%Z).
    { rewrite <- (np_round_IZR 1) at 1. apply np_round_mono.
      assert (HBr : (2 <= IZR n_bins)%R) by (apply IZR_le; exact HB).
      replace ((INR 2 - 1) / (INR 2 / IZR n_bins))%R with (IZR n_bins / 2)%R
        by (cbn [INR]; field; lra).
      lra. }
    lia.
Qed.

Lemma init_pair_ok (get_smoothing_filter : R -> R -> list float) :
  exists s, init get_smoothing_filter pair_config = Ok s.
Proof.
  apply init_ok; cbn [pair_config arg_rate arg_FFT_window_size_ms
                      arg_updates_per_second arg_n_frequency_bins].
  - lra.
  - apply round_up_to_even_pos. lra.
  - lra.
  - assert (2 <= round_up_to_even (1000 / 10))%Z
      by (apply round_up_to_even_pos; lra).
    lia.
  - lia.
Qed.

Lemma pair_shape (s : Stream_Analyzer) :
  constructed pair_config s ->
  n_frequency_bins s = 2%Z /\ FFT_window_size s = 4%Z /\
  rate s = 1000%R /\ smoothing_length_ms s = 0%R /\
  fftx_indices_per_bin s = [[0%nat]; [1%nat]].
Proof.
  intro Hc.
  assert (HB : n_frequency_bins s = 2%Z)
    by (rewrite (c_n_frequency_bins Hc); reflexivity).
  assert (HW : FFT_window_size s = 4%Z).
  { rewrite (c_FFT_window_size Hc).
    cbn [pair_config arg_rate arg_FFT_window_size_ms].
    apply (round_up_to_even_eq 2). simpl IZR. lra. }
  split; [exact HB | split; [exact HW |]].
  split; [rewrite (c_rate Hc); reflexivity |].
  split; [rewrite (c_smoothing_length_ms Hc); reflexivity |].
  pose proof (c_fftx_bin_indices Hc) as Hids. rewrite HW, HB in Hids.
  change (Z.to_nat (Z.quot 4 2)) with 2%nat in Hids.
  rewrite two_position_table in Hids by lia.
  inversion Hids as [Hids'].
  rewrite (c_fftx_indices_per_bin Hc), <- Hids', HB. reflexivity.
Qed.

Lemma curve_positive (get_smoothing_filter : R -> R -> list float)
      (c : config) (s : Stream_Analyzer) :
  init get_smoothing_filter c = Ok s ->
  (2 < rate s)%R ->
  exists rs, power_normalization_coefficients s = map Fin rs /\
             length rs = length (fft s) /\
             Forall (fun r => 0 < r)%R rs.
Proof.
  intros Hinit Hrate.
  pose proof (init_constructed _ _ Hinit) as Hc.
  pose proof (constructed_ids_length Hc) as [_ [Hl2 Hl3]].
  pose proof (init_buffering _ _ Hinit) as [_ [_ [_ [_ [_ [Hpow _]]]]]].
  assert (Hhalf : (1 < rate s / 2)%R) by lra.
  pose proof (log2_pos Hhalf) as Hl.
  exists (Np.logspace (Np.log2 1) (Np.log2 (Np.log2 (rate s / 2)))
                      (length (fft s)) 2).
  split; [| split].
  - rewrite Hpow, Hl3, <- Hl2.
    rewrite (float_log2_pos (x := 1)) by lra.
    rewrite (float_log2_pos (x := rate s / 2)) by lra.
    rewrite (float_log2_pos Hl).
    unfold Np.flogspace2, Np.logspace. rewrite flinspace_finite, !map_map.
    reflexivity.
  - unfold Np.logspace. rewrite length_map, linspace_length. reflexivity.
  - unfold Np.logspace. apply Forall_map, Forall_forall. intros y _.
    unfold Rpower. apply exp_pos.
Qed.

Lemma update_features_unsmoothed
      (getFFT : list float -> R -> Z -> bool -> list float)
      (s : Stream_Analyzer) :
  (smoothing_length_ms s <= 0)%R ->
  fft (update_features getFFT s)
  = Np.multiply
      (getFFT (Buffer.get_most_recent (data_buffer s)
                                      (Z.to_nat (FFT_window_size s)))
              (rate s) (FFT_window_size s) (log_features s))
      (power_normalization_coefficients s).
Proof.
  intro Hoff. pose proof (update_features_smoothing getFFT s) as Hsm.
  cbv zeta in Hsm. destruct Hsm as [Hsm _]. rewrite Hsm.
  unfold temporal_smoothing. rewrite Rltb_false by exact Hoff. reflexivity.
Qed.

Lemma mean_single (x : R) : Np.mean [Fin x] = Fin x.
Proof.
  unfold Np.mean, Np.sum, Float.zero. cbn [fold_left Float.add length].
  unfold Float.div. rewrite Rltb_true by (cbn [INR]; lra).
  f_equal. cbn [INR]. field.
Qed.

Lemma mean_pair (x y : R) : Np.mean [Fin x; Fin y] = Fin ((x + y) / 2).
Proof.
  unfold Np.mean, Np.sum, Float.zero. cbn [fold_left Float.add length].
  unfold Float.div. rewrite Rltb_true by (cbn [INR]; lra).
  f_equal. cbn [INR]. field.
Qed.

(** The first update of the two-bin analyzer on a spectrum with magnitudes
    [x] and [y]: the bin energies are the compensated magnitudes. *)
Lemma pair_first_update
      (getFFT : list float -> R -> Z -> bool -> list float)
      (s0 : Stream_Analyzer) (data : list float) (x y : R) :
  init (fun _ _ => []) pair_config = Ok s0 ->
  (forall d r b, getFFT d r 4%Z b = [Fin x; Fin y]) ->
  let s := update_features getFFT (append_data s0 data) in
  exists r0 r1,
    (0 < r0)%R /\ (0 < r1)%R /\
    frequency_bin_energies s = [Fin (x * r0); Fin (y * r1)] /\
    rolling_bin_values s = Buffer.create 600 2 (Fin 25000) 1 /\
    equalizer_strength s = 0.20%R.
Proof.
  intros Hs0 Hfft s.
  pose proof (init_constructed _ _ Hs0) as Hc.
  pose proof (pair_shape Hc) as [HB [HW [Hrate [Hsm Hbins]]]].
  pose proof (constructed_ids_length Hc) as [_ [Hl2 _]].
  destruct (curve_positive _ _ Hs0) as [rs [Hcurve [Hrs Hpos]]];
    [rewrite Hrate; lra |].
  rewrite Hl2, HW in Hrs. change (Z.to_nat (Z.quot 4 2)) with 2%nat in Hrs.
  destruct rs as [| r0 [| r1 [| r2 rs]]]; try discriminate.
  inversion Hpos as [| ? ? Hr0 Hpos']; subst.
  inversion Hpos' as [| ? ? Hr1 _]; subst.
  exists r0, r1. split; [exact Hr0 | split; [exact Hr1 |]].
  set (s1 := append_data s0 data) in *.
  assert (Hst : static s1 = static s0) by (unfold s1; destruct s0; reflexivity).
  assert (HW1 : FFT_window_size s1 = 4%Z) by (rewrite <- HW; from_static Hst).
  assert (Hpn1 : power_normalization_coefficients s1
                 = power_normalization_coefficients s0) by from_static Hst.
  assert (Hsm1 : smoothing_length_ms s1 = smoothing_length_ms s0)
    by from_static Hst.
  assert (Hbins1 : fftx_indices_per_bin s1 = fftx_indices_per_bin s0)
    by from_static Hst.
  assert (HB1 : n_frequency_bins s1 = n_frequency_bins s0) by from_static Hst.
  assert (Hspec : fft s = [Fin (x * r0); Fin (y * r1)]).
  { unfold s. rewrite update_features_unsmoothed by (rewrite Hsm1, Hsm; lra).
    rewrite HW1, Hfft, Hpn1, Hcurve. reflexivity. }
  split; [| split].
  - unfold s at 1. rewrite update_features_energies. fold s.
    rewrite Hspec, Hbins1, HB1, Hbins, HB. unfold bin_energies.
    change (Z.to_nat 2) with 2%nat. cbn [seq map nth Np.take].
    rewrite !mean_single. reflexivity.
  - unfold s. rewrite update_features_rolling.
    replace (rolling_bin_values s1) with (rolling_bin_values s0)
      by (unfold s1; destruct s0; reflexivity).
    rewrite (c_rolling_bin_values Hc), HB. reflexivity.
  - pose proof (update_features_static getFFT s1) as Hst'. fold s in Hst'.
    rewrite Hst in Hst'.
    assert (He : equalizer_strength s = equalizer_strength s0)
      by from_static Hst'.
    rewrite He. apply (c_equalizer_strength Hc).
Qed.

Lemma X12_equalizer_lifts_to_floor_witness :
  exists s0 floor kept lifted,
    init (fun _ _ => []) pair_config = Ok s0 /\
    let s := update_features low_tone_spectrum
                             (append_data s0 (repeat (Fin 0) 100)) in
    let s' := update_rolling_stats s in
    let means := per_bin_means (rolling_bin_values s') in
    equalizer_floor (equalizer_strength s) means = Fin floor /\
    nth 0 means NaN = Fin kept /\ (floor < kept)%R /\
    nth 0 (bin_mean_values s') NaN = Fin kept /\
    nth 1 means NaN = Fin lifted /\ (lifted < floor)%R /\
    nth 1 (bin_mean_values s') NaN = Fin floor.
Proof.
  destruct (init_pair_ok (fun _ _ => [])) as [s0 Hs0].
  destruct (@pair_first_update low_tone_spectrum s0 (repeat (Fin 0) 100)
                               10 0 Hs0)
    as [r0 [r1 [Hr0 [Hr1 [Hen [Hroll Hes]]]]]]; [reflexivity |].
  cbv zeta in Hen, Hroll, Hes.
  set (s := update_features low_tone_spectrum
                            (append_data s0 (repeat (Fin 0) 100))) in *.
  assert (Hmeans : per_bin_means (rolling_bin_values (update_rolling_stats s))
                   = [Fin (10 * r0); Fin (0 * r1)]).
  { rewrite update_rolling_stats_history, Hroll, Hen.
    unfold per_bin_means, Np.mean_axis0.
    cbn [Buffer.append_data Buffer.create Buffer.samples_per_window
         Buffer.get_buffer_data Buffer.windows Buffer.n_windows app].
    unfold Buffer.lastn. cbn [length Nat.sub skipn seq map nth].
    rewrite !mean_single. reflexivity. }
  destruct (X12_equalizer_lifts_to_floor s) as [floor [Hfloor [_ Hvec]]].
  - rewrite Hmeans. discriminate.
  - rewrite Hmeans. repeat constructor.
  - assert (Hval : floor = ((1 - 0.20) * ((10 * r0 + 0 * r1) / 2))%R).
    { rewrite Hmeans in Hfloor. unfold equalizer_floor in Hfloor.
      rewrite mean_pair, Hes in Hfloor. cbn [Float.mul] in Hfloor.
      inversion Hfloor. reflexivity. }
    destruct (Hvec 0%nat) as [m0 [Hm0 Hv0]]; [rewrite Hmeans; cbn; lia |].
    destruct (Hvec 1%nat) as [m1 [Hm1 Hv1]]; [rewrite Hmeans; cbn; lia |].
    assert (Hm0' : m0 = (10 * r0)%R)
      by (rewrite Hmeans in Hm0; cbn [nth] in Hm0; inversion Hm0; reflexivity).
    assert (Hm1' : m1 = (0 * r1)%R)
      by (rewrite Hmeans in Hm1; cbn [nth] in Hm1; inversion Hm1; reflexivity).
    exists s0, floor, m0, m1. split; [exact Hs0 |].
    cbv zeta. fold s.
    assert (Hlt0 : (floor < m0)%R) by lra.
    assert (Hlt1 : (m1 < floor)%R) by lra.
    split; [exact Hfloor |].
    split; [exact Hm0 |]. split; [exact Hlt0 |].
    split; [rewrite Hv0, Rmax_right by lra; reflexivity |].
    split; [exact Hm1 |]. split; [exact Hlt1 |].
    rewrite Hv1, Rmax_left by lra. reflexivity.
Defined.

(** ** The equalizer floor under NaN energies *)

Section Poisoned.

Variable getFFT : list float -> R -> Z -> bool -> list float.
Variable savgol_filter : list float -> Z -> Z -> list float.

Lemma run_append (s0 : Stream_Analyzer) (cs : list call)
      (in_data : list float) :
  append_data (run getFFT savgol_filter s0 cs) in_data
  = run getFFT savgol_filter s0 (cs ++ [Append in_data]).
Proof. unfold run. rewrite fold_left_app. reflexivity. Qed.

(** A dirty [get_audio_features] whose pipeline leaves NaN as the energy of
    some bin: the floor of the equalizer is NaN and no entry of the
    equalizer vector compares greater than or equal to it. *)
Lemma dirty_get_nan_energy (c : config) (s0 : Stream_Analyzer)
      (cs : list call) (b : nat) :
  constructed c s0 ->
  let s := run getFFT savgol_filter s0 cs in
  buffer_is_updated s = true ->
  (b < Z.to_nat (n_frequency_bins s))%nat ->
  (forall d, nth b (frequency_bin_energies (update_features getFFT s)) d
             = NaN) ->
  let s' := fst (get_audio_features getFFT savgol_filter s) in
  equalizer_floor (equalizer_strength s')
                  (per_bin_means (rolling_bin_values s')) = NaN /\
  forall j, floor_respected s' j = false.
Proof.
  intros Hc s Hd Hb Hraw s'.
  pose proof (reached_rolling_shape getFFT savgol_filter cs Hc)
    as [_ [_ [Hcap Hcols]]].
  fold s in Hcap, Hcols.
  pose proof (get_dirty_fields getFFT savgol_filter s Hd) as [Hroll _].
  cbv zeta in Hroll. fold s' in Hroll.
  set (computed := update_features getFFT s) in *.
  rewrite update_rolling_stats_history in Hroll.
  unfold computed in Hroll. rewrite update_features_rolling in Hroll.
  fold computed in Hroll.
  set (history := Buffer.append_data (rolling_bin_values s)
                                     (frequency_bin_energies computed)) in *.
  assert (Hcolumn : nth b (per_bin_means history) NaN = NaN)
    by (apply per_bin_means_nan; [lia | lia | apply Hraw]).
  assert (Hwidth : length (per_bin_means history)
                   = Z.to_nat (n_frequency_bins s)).
  { rewrite per_bin_means_length. unfold history. cbn. exact Hcols. }
  assert (Hfloor : equalizer_floor (equalizer_strength s')
                     (per_bin_means (rolling_bin_values s')) = NaN).
  { rewrite Hroll. unfold equalizer_floor.
    rewrite mean_In_nan; [apply mul_nan_r |].
    rewrite <- Hcolumn. apply nth_In. rewrite Hwidth. exact Hb. }
  split; [exact Hfloor |].
  intro j. unfold floor_respected. rewrite Hfloor. apply geb_nan_r.
Qed.

End Poisoned.

Lemma multiply_nan_l (n : nat) (b : list float) :
  Forall (fun x => x = NaN) (Np.multiply (repeat NaN n) b).
Proof.
  revert b. induction n as [| n IH]; intro b; [constructor |].
  destruct b as [| y b]; [constructor |].
  cbn [repeat Np.multiply]. constructor; [reflexivity | apply IH].
Qed.

Lemma mean_take_nan (a : list float) (idx : list nat) :
  Forall (fun x => x = NaN) a -> Np.mean (Np.take a idx) = NaN.
Proof.
  intro Ha. destruct idx as [| i idx]; [apply mean_nil |].
  apply mean_In_nan. cbn [Np.take map]. left.
  destruct (Nat.lt_ge_cases i (length a)) as [Hi | Hi].
  - rewrite Forall_forall in Ha. apply Ha. apply nth_In. exact Hi.
  - apply nth_overflow. exact Hi.
Qed.

Lemma narrow_filter_width (c : config) (s : Stream_Analyzer) :
  constructed c s -> (0 < n_frequency_bins s <= 66)%Z ->
  filter_width s = 1%Z.
Proof.
  intros Hc HB. rewrite (c_filter_width Hc).
  rewrite (round_up_to_even_eq 1); [reflexivity |].
  assert (0 < IZR (n_frequency_bins s) <= 66)%R
    by (split; [apply IZR_lt | apply IZR_le]; lia).
  simpl IZR. lra.
Qed.

(** C4.  The equalizer floor is lost as soon as one bin energy is NaN: the
    rolling history takes the energies before [np.nan_to_num] reaches them,
    the mean over the per-bin means and with it the floor are NaN, and no
    entry of the equalizer vector compares greater than or equal to the
    floor, while the same call returns the energy of that bin as 0.  After
    any call sequence this happens on the next update of an analyzer with 3
    bins over 2 spectrum positions, whatever the samples (bin 2 is empty),
    and on the next update of an analyzer with 2 bins over 2 positions when
    the spectrum of the window is NaN. *)
Theorem C4_equalizer_floor_lost_to_nan
        (getFFT : list float -> R -> Z -> bool -> list float)
        (savgol_filter : list float -> Z -> Z -> list float)
        (get_smoothing_filter : R -> R -> list float)
        (cs : list call) (in_data : list float) :
  (exists s0,
      init get_smoothing_filter cramped_config = Ok s0 /\
      let s := append_data (run getFFT savgol_filter s0 cs) in_data in
      let r := get_audio_features getFFT savgol_filter s in
      (forall b, floor_respected (fst r) b = false) /\
      nth 2 (out_frequency_bin_energies (snd r)) NaN = Fin 0) /\
  (exists s0,
      init get_smoothing_filter pair_config = Ok s0 /\
      let s := append_data (run nan_spectrum savgol_filter s0 cs) in_data in
      let r := get_audio_features nan_spectrum savgol_filter s in
      (forall b, floor_respected (fst r) b = false) /\
      out_frequency_bin_energies (snd r) = [Fin 0; Fin 0]).
Proof.
  split.
  - destruct (init_cramped_ok get_smoothing_filter) as [s0 Hs0].
    exists s0. split; [exact Hs0 |].
    pose proof (init_constructed _ _ Hs0) as Hc.
    pose proof (cramped_shape Hc) as [HB [_ Hlen]].
    rewrite run_append.
    set (cs' := cs ++ [Append in_data]).
    pose proof (reached_rolling_shape getFFT savgol_filter cs' Hc)
      as [HBs [Hbins _]].
    pose proof (run_static getFFT savgol_filter cs' s0) as Hst.
    set (s := run getFFT savgol_filter s0 cs') in *.
    assert (Hd : buffer_is_updated s = true).
    { unfold s, cs'. rewrite <- run_append.
      destruct (run getFFT savgol_filter s0 cs). reflexivity. }
    assert (Hb : (2 < Z.to_nat (n_frequency_bins s))%nat)
      by (rewrite HBs, HB; cbn; lia).
    assert (Hempty : nth 2 (fftx_indices_per_bin s) [] = []).
    { rewrite Hbins. apply (constructed_bin_beyond_spectrum Hc).
      - rewrite HB. cbn. lia.
      - rewrite Hlen. lia. }
    assert (Hraw : forall d,
               nth 2 (frequency_bin_energies (update_features getFFT s)) d
               = NaN).
    { intro d. rewrite update_features_energies.
      apply bin_energies_empty_bin; assumption. }
    intro r. split.
    + apply (@dirty_get_nan_energy getFFT savgol_filter cramped_config s0
                                   cs' 2 Hc Hd Hb Hraw).
    + unfold r. rewrite get_returns_current.
      cbn [current_features out_frequency_bin_energies].
      destruct (get_dirty_fields getFFT savgol_filter s Hd)
        as [_ [_ [_ Hen]]].
      cbv zeta in Hen. rewrite Hen, postprocess_narrow.
      * unfold Np.clamp_negative, Np.nan_to_num. rewrite map_map.
        set (f := fun x => if Float.ltb (Float.nan_to_num x) Float.zero
                           then Float.zero else Float.nan_to_num x).
        rewrite nth_indep with (d' := f NaN).
        -- rewrite (map_nth f), Hraw. unfold f, Float.zero.
           cbn [Float.nan_to_num Float.ltb].
           rewrite Rltb_false by lra. reflexivity.
        -- rewrite length_map, update_features_energies, bin_energies_length.
           exact Hb.
      * assert (Hw : filter_width s = filter_width s0) by from_static Hst.
        rewrite Hw, (narrow_filter_width Hc); [lia | rewrite HB; lia].
  - destruct (init_pair_ok get_smoothing_filter) as [s0 Hs0].
    exists s0. split; [exact Hs0 |].
    pose proof (init_constructed _ _ Hs0) as Hc.
    pose proof (pair_shape Hc) as [HB [HW [_ [Hsm _]]]].
    rewrite run_append.
    set (cs' := cs ++ [Append in_data]).
    pose proof (run_static nan_spectrum savgol_filter cs' s0) as Hst.
    set (s := run nan_spectrum savgol_filter s0 cs') in *.
    assert (Hd : buffer_is_updated s = true).
    { unfold s, cs'. rewrite <- run_append.
      destruct (run nan_spectrum savgol_filter s0 cs). reflexivity. }
    assert (HBs : n_frequency_bins s = 2%Z)
      by (rewrite <- HB; from_static Hst).
    assert (Hsms : smoothing_length_ms s = 0%R)
      by (rewrite <- Hsm; from_static Hst).
    assert (Hw : filter_width s = 1%Z).
    { assert (Hw : filter_width s = filter_width s0) by from_static Hst.
      rewrite Hw. apply (narrow_filter_width Hc). rewrite HB. lia. }
    assert (Hraw : frequency_bin_energies (update_features nan_spectrum s)
                   = [NaN; NaN]).
    { rewrite update_features_energies.
      rewrite update_features_unsmoothed by (rewrite Hsms; lra).
      unfold bin_energies. rewrite HBs. change (Z.to_nat 2) with 2%nat.
      cbn [seq map]. unfold nan_spectrum.
      rewrite !mean_take_nan by apply multiply_nan_l. reflexivity. }
    intro r. split.
    + apply (@dirty_get_nan_energy nan_spectrum savgol_filter pair_config s0
                                   cs' 0 Hc Hd).
      * fold s. rewrite HBs. cbn. lia.
      * fold s. intro d. rewrite Hraw. reflexivity.
    + unfold r. rewrite get_returns_current.
      cbn [current_features out_frequency_bin_energies].
      destruct (get_dirty_fields nan_spectrum savgol_filter s Hd)
        as [_ [_ [_ Hen]]].
      cbv zeta in Hen. rewrite Hen, postprocess_narrow by (rewrite Hw; lia).
      rewrite Hraw. unfold Np.clamp_negative, Np.nan_to_num, Float.zero.
      cbn [map Float.nan_to_num Float.ltb].
      rewrite Rltb_false by lra. reflexivity.
Qed.

(** ** The temporal smoother *)












(** ** The cross-bin filter *)

Lemma cube_root_below (u a b : R) :
  (0 < u)%R -> (u * u * u = a)%R -> (0 < b)%R -> (a < b * b * b)%R ->
  (u < b)%R.
Proof.
  intros Hu Hcube Hb Hlt.
  destruct (Rlt_le_dec u b) as [H | H]; [exact H |].
  exfalso.
  assert (b * b <= u * u)%R by nra.
  assert (b * b * b <= u * u * u)%R by nra.
  lra.
Qed.

Lemma four_positions :
  let p := fun i => nth i (BinTable.log_positions 4) 0%R in
  (p 1%nat < 2)%R /\ (p 2%nat < 1)%R /\ p 3%nat = 0%R.
Proof.
  intro p. unfold p.
  set (a := Np.log2 (INR 4)).
  assert (Ha : Rpower 2 a = 4%R).
  { unfold a. rewrite Rpower_2_log2 by (cbn [INR]; lra). cbn [INR]. lra. }
  assert (Hpos : forall y, (0 < Rpower 2 y)%R)
    by (intro y; unfold Rpower; apply exp_pos).
  split; [| split].
  - rewrite log_positions_nth by lia. fold a.
    rewrite (@linspace_nth a 0 2 1 0%R) by lia.
    replace (1 =? 3)%nat with false by reflexivity.
    set (e := (INR 1 * ((0 - a) / INR 3) + a)%R).
    assert (He : (e + e + e = a + a)%R) by (unfold e; cbn [INR]; field).
    assert (Hcube : (Rpower 2 e * Rpower 2 e * Rpower 2 e = 16)%R).
    { rewrite <- !Rpower_plus, He, Rpower_plus, Ha. lra. }
    pose proof (@cube_root_below (Rpower 2 e) 16 3 (Hpos e) Hcube
                                 ltac:(lra) ltac:(lra)).
    lra.
  - rewrite log_positions_nth by lia. fold a.
    rewrite (@linspace_nth a 0 2 2 0%R) by lia.
    replace (2 =? 3)%nat with false by reflexivity.
    set (e := (INR 2 * ((0 - a) / INR 3) + a)%R).
    assert (He : (e + e + e = a)%R) by (unfold e; cbn [INR]; field).
    assert (Hcube : (Rpower 2 e * Rpower 2 e * Rpower 2 e = 4)%R).
    { rewrite <- !Rpower_plus, He, Ha. reflexivity. }
    pose proof (@cube_root_below (Rpower 2 e) 4 2 (Hpos e) Hcube
                                 ltac:(lra) ltac:(lra)).
    lra.
  - rewrite log_positions_nth by lia. fold a.
    rewrite (@linspace_nth a 0 2 3 0%R) by lia.
    replace (3 =? 3)%nat with true by reflexivity.
    rewrite Rpower_O by lra. lra.
Qed.

Lemma four_position_table :
  BinTable.fftx_bin_indices 4 200 = Ok [0%Z; 1%Z; 2%Z; 3%Z].
Proof.
  destruct four_positions as [H1 [H2 H3]]. cbv beta in H1, H2, H3.
  rewrite fftx_bin_indices_ok by lia. f_equal.
  cbn [seq map]. f_equal; [| f_equal; [| f_equal; [| f_equal]]].
  - pose proof (@table_id_bounds 4 200 0 ltac:(lia) ltac:(lia)). lia.
  - apply (@table_id_own_position 4 200 1).
    replace (INR 4) with 4%R by (cbn [INR]; lra).
    replace (INR 1) with 1%R by (cbn [INR]; lra).
    apply Rmult_le_reg_r with (4 / 200)%R; [lra |].
    unfold Rdiv at 2. rewrite Rmult_assoc, Rinv_l by lra. lra.
  - apply (@table_id_own_position 4 200 2).
    replace (INR 4) with 4%R by (cbn [INR]; lra).
    replace (INR 2) with 2%R by (cbn [INR]; lra).
    apply Rmult_le_reg_r with (4 / 200)%R; [lra |].
    unfold Rdiv at 2. rewrite Rmult_assoc, Rinv_l by lra. lra.
  - apply (@table_id_own_position 4 200 3).
    replace (INR 4) with 4%R by (cbn [INR]; lra).
    replace (INR 3) with 3%R by (cbn [INR]; lra).
    rewrite H3.
    apply Rmult_le_reg_r with (4 / 200)%R; [lra |].
    unfold Rdiv at 2. rewrite Rmult_assoc, Rinv_l by lra. lra.
Qed.

Lemma init_wide_ok (get_smoothing_filter : R -> R -> list float) :
  exists s, init get_smoothing_filter wide_config = Ok s.
Proof.
  apply init_ok; cbn [wide_config arg_rate arg_FFT_window_size_ms
                      arg_updates_per_second arg_n_frequency_bins].
  - lra.
  - apply round_up_to_even_pos. lra.
  - lra.
  - assert (2 <= round_up_to_even (1000 / 10))%Z
      by (apply round_up_to_even_pos; lra).
    lia.
  - lia.
Qed.

Lemma wide_shape (s : Stream_Analyzer) :
  constructed wide_config s ->
  n_frequency_bins s = 200%Z /\ FFT_window_size s = 8%Z /\
  rate s = 1000%R /\ smoothing_length_ms s = 0%R /\
  filter_width s = 5%Z /\
  fftx_indices_per_bin s
  = [[0%nat]; [1%nat]; [2%nat]; [3%nat]] ++ repeat [] 196.
Proof.
  intro Hc.
  assert (HB : n_frequency_bins s = 200%Z)
    by (rewrite (c_n_frequency_bins Hc); reflexivity).
  assert (HW : FFT_window_size s = 8%Z).
  { rewrite (c_FFT_window_size Hc).
    cbn [wide_config arg_rate arg_FFT_window_size_ms].
    apply (round_up_to_even_eq 4). simpl IZR. lra. }
  split; [exact HB | split; [exact HW |]].
  split; [rewrite (c_rate Hc); reflexivity |].
  split; [rewrite (c_smoothing_length_ms Hc); reflexivity |].
  split.
  - rewrite (c_filter_width Hc), HB.
    rewrite (round_up_to_even_eq 3) by (simpl IZR; lra). reflexivity.
  - pose proof (c_fftx_bin_indices Hc) as Hids. rewrite HW, HB in Hids.
    change (Z.to_nat (Z.quot 8 2)) with 4%nat in Hids.
    rewrite four_position_table in Hids. inversion Hids as [Hids'].
    rewrite (c_fftx_indices_per_bin Hc), <- Hids', HB.
    reflexivity.
Qed.

Lemma map_seq_const {A : Type} (f : nat -> A) (v : A) (n start : nat) :
  (forall i, (start <= i < start + n)%nat -> f i = v) ->
  map f (seq start n) = repeat v n.
Proof.
  revert start. induction n as [| n IH]; intros start H; [reflexivity |].
  cbn [seq map repeat]. f_equal.
  - apply H. lia.
  - apply IH. intros i Hi. apply H. lia.
Qed.

Lemma mean_single_inf : Np.mean [PInf] = PInf.
Proof.
  unfold Np.mean, Np.sum, Float.zero. cbn [fold_left Float.add length].
  cbn [Float.div]. rewrite Rltb_false by (cbn [INR]; lra). reflexivity.
Qed.

(** The first update of the 200-bin analyzer on the overflowed spectrum:
    the four bins that hold a spectrum position get plus infinity, the
    other 196 are empty. *)
Lemma wide_first_update (s0 : Stream_Analyzer) (in_data : list float) :
  init (fun _ _ => []) wide_config = Ok s0 ->
  let s := append_data s0 in_data in
  buffer_is_updated s = true /\
  filter_width s = 5%Z /\ apply_frequency_smoothing s = true /\
  frequency_bin_energies (update_features overflowed_spectrum s)
  = repeat PInf 4 ++ repeat NaN 196.
Proof.
  intros Hs0 s.
  pose proof (init_constructed _ _ Hs0) as Hc.
  pose proof (wide_shape Hc) as [HB [HW [Hrate [Hsm [Hfw Hbins]]]]].
  pose proof (constructed_ids_length Hc) as [_ [Hl2 _]].
  destruct (curve_positive _ _ Hs0) as [rs [Hcurve [Hrs Hpos]]];
    [rewrite Hrate; lra |].
  rewrite Hl2, HW in Hrs. change (Z.to_nat (Z.quot 8 2)) with 4%nat in Hrs.
  destruct rs as [| r0 [| r1 [| r2 [| r3 [| r4 rs]]]]]; try discriminate.
  assert (Hst : static s = static s0) by (unfold s; destruct s0; reflexivity).
  assert (HW1 : FFT_window_size s = 8%Z) by (rewrite <- HW; from_static Hst).
  assert (Hpn1 : power_normalization_coefficients s
                 = power_normalization_coefficients s0) by from_static Hst.
  assert (Hsm1 : smoothing_length_ms s = smoothing_length_ms s0)
    by from_static Hst.
  assert (Hbins1 : fftx_indices_per_bin s = fftx_indices_per_bin s0)
    by from_static Hst.
  assert (HB1 : n_frequency_bins s = n_frequency_bins s0) by from_static Hst.
  assert (Hfw1 : filter_width s = filter_width s0) by from_static Hst.
  assert (Hap1 : apply_frequency_smoothing s = apply_frequency_smoothing s0)
    by from_static Hst.
  split; [unfold s; destruct s0; reflexivity |].
  split; [rewrite Hfw1; exact Hfw |].
  split; [rewrite Hap1; apply (c_apply_frequency_smoothing Hc) |].
  assert (Hspec : fft (update_features overflowed_spectrum s)
                  = repeat PInf 4).
  { rewrite update_features_unsmoothed by (rewrite Hsm1, Hsm; lra).
    rewrite HW1, Hpn1, Hcurve. unfold overflowed_spectrum.
    change (Z.to_nat (Z.quot 8 2)) with 4%nat.
    cbn [repeat map Np.multiply Float.mul]. unfold Float.mul_inf.
    repeat match goal with
           | H : Forall _ (_ :: _) |- _ => inversion H; subst; clear H
           end.
    rewrite !Rltb_true by assumption. reflexivity. }
  rewrite update_features_energies, Hspec, Hbins1, HB1, Hbins, HB.
  unfold bin_energies. change (Z.to_nat 200) with (4 + 196)%nat.
  rewrite seq_app, map_app. f_equal.
  - cbn [seq map nth app repeat Np.take]. rewrite mean_single_inf.
    reflexivity.
  - apply map_seq_const. intros b Hb.
    rewrite app_nth2 by (cbn [length]; lia).
    rewrite nth_repeat. apply mean_nil.
Qed.

Lemma nth_map_seq {A : Type} (f : nat -> A) (n i : nat) (d : A) :
  (i < n)%nat -> nth i (map f (seq 0 n)) d = f i.
Proof.
  intro Hi. rewrite nth_indep with (d' := f 0%nat)
    by (rewrite length_map, length_seq; exact Hi).
  rewrite (map_nth f), seq_nth by exact Hi. reflexivity.
Qed.

(** The filter on four bins at the largest finite double followed by 196
    bins at 0: the weighted sum around bin 2 exceeds the largest finite
    double, the one around bin 5 is negative. *)
Lemma wide_filtered :
  let x := Np.nan_to_num (repeat PInf 4 ++ repeat NaN 196) in
  length (savgol_5_3 x) = 200%nat /\
  nth 2 (savgol_5_3 x) NaN = PInf /\
  nth 5 (savgol_5_3 x) NaN = Fin (-3 / 35 * Float.float_max).
Proof.
  intro x.
  pose proof float_max_pos as HM.
  set (M := Float.float_max) in *.
  assert (Hx : x = [Fin M; Fin M; Fin M; Fin M; Fin 0; Fin 0; Fin 0; Fin 0]
                   ++ repeat (Fin 0) 192) by reflexivity.
  assert (Hlen : length x = 200%nat) by reflexivity.
  unfold savgol_5_3. rewrite Hlen.
  split; [rewrite length_map, length_seq; reflexivity |].
  split.
  - rewrite nth_map_seq by lia.
    replace (2 <? 2)%nat with false by reflexivity.
    replace (200 - 2 <=? 2)%nat with false by reflexivity.
    rewrite Hx. cbn [app Nat.sub skipn firstn].
    unfold weighted_sum, savgol_middle, Np.sum, Float.zero.
    cbn [map Np.multiply Float.mul fold_left Float.add]. unfold overflow.
    fold M. rewrite Rltb_true by lra. reflexivity.
  - rewrite nth_map_seq by lia.
    replace (5 <? 2)%nat with false by reflexivity.
    replace (200 - 2 <=? 5)%nat with false by reflexivity.
    rewrite Hx. cbn [app Nat.sub skipn firstn].
    unfold weighted_sum, savgol_middle, Np.sum, Float.zero.
    cbn [map Np.multiply Float.mul fold_left Float.add]. unfold overflow.
    fold M. rewrite Rltb_false by lra. rewrite Rltb_false by lra.
    f_equal. lra.
Qed.

Lemma clamp_negative_not_below (e : list float) :
  Forall (fun x => Float.ltb x (Fin 0) = false) (Np.clamp_negative e).
Proof.
  unfold Np.clamp_negative, Float.zero. apply Forall_map, Forall_forall.
  intros x _. destruct (Float.ltb x (Fin 0)) eqn:Hx; [| exact Hx].
  apply ltb_irrefl.
Qed.

Lemma clamped_finite_iff (y : float) :
  finite_nonneg (if Float.ltb y Float.zero then Float.zero else y)
  <-> y <> NaN /\ y <> PInf.
Proof.
  unfold finite_nonneg, Float.zero.
  destruct y as [| | | r]; cbn [Float.ltb].
  - split; [intros [H _]; discriminate | intros [H _]; contradiction].
  - split; [intros [H _]; discriminate | intros [_ H]; contradiction].
  - cbn [Float.is_finite Float.geb Float.ltb].
    rewrite Rltb_false by lra.
    split; [intros _; split; discriminate | intros _; split; reflexivity].
  - split; [intros _; split; discriminate |]. intros _.
    destruct (Float.Rltb r 0) eqn:Hr;
      cbn [Float.is_finite Float.geb Float.ltb].
    + rewrite Rltb_false by lra. split; reflexivity.
    + rewrite Hr. split; reflexivity.
Qed.

Section Returned.

Variable getFFT : list float -> R -> Z -> bool -> list float.
Variable savgol_filter : list float -> Z -> Z -> list float.

(** A property of the stored bin energies that holds at construction and
    of everything lines 135 to 139 produce holds after every call
    sequence. *)
Lemma run_energies_invariant (P : list float -> Prop)
      (s0 : Stream_Analyzer) (cs : list call) :
  P (frequency_bin_energies s0) ->
  (forall s e, static s = static s0 -> P (postprocess savgol_filter s e)) ->
  P (frequency_bin_energies (run getFFT savgol_filter s0 cs)).
Proof.
  intros H0 Hpost.
  assert (Hgen : forall s, static s = static s0 ->
                           P (frequency_bin_energies s) ->
                           P (frequency_bin_energies
                                (run getFFT savgol_filter s cs))).
  { induction cs as [| c cs' IH]; intros s Hst Hs; [exact Hs |].
    cbn [run fold_left].
    apply (IH (step getFFT savgol_filter s c)).
    - rewrite step_static. exact Hst.
    - destruct c as [d |]; cbn [step].
      + destruct s. exact Hs.
      + destruct (buffer_is_updated s) eqn:Hd.
        * destruct (get_dirty_fields getFFT savgol_filter s Hd)
            as [_ [_ [_ Hen]]].
          rewrite Hen. apply Hpost. exact Hst.
        * rewrite get_clean by exact Hd. exact Hs. }
  apply Hgen; [reflexivity | exact H0].
Qed.

Lemma returned_energies (s0 : Stream_Analyzer) (cs : list call) :
  out_frequency_bin_energies
    (snd (get_audio_features getFFT savgol_filter
            (run getFFT savgol_filter s0 cs)))
  = frequency_bin_energies (run getFFT savgol_filter s0 (cs ++ [Get])).
Proof.
  rewrite get_returns_current. unfold run. rewrite fold_left_app.
  reflexivity.
Qed.

End Returned.

(** C3, amended.  Whatever samples are appended and however the calls
    interleave, no bin energy [get_audio_features] returns is below 0: the
    final clamp replaces every negative value, minus infinity included.
    When the cross-bin filter is skipped (filter width of 3 or less) every
    returned energy is also finite, and so it is whenever the filter yields
    finite values on finite values.  When the filter runs, it receives
    finite values only and nothing but the clamp follows it: a returned
    energy is finite and not below 0 exactly when the filter did not yield
    NaN or plus infinity for that bin, which reach the caller unchanged. *)
Theorem C3_bin_energies_not_below_zero
        (getFFT : list float -> R -> Z -> bool -> list float)
        (savgol_filter : list float -> Z -> Z -> list float)
        (get_smoothing_filter : R -> R -> list float)
        (c : config) (s0 : Stream_Analyzer) (cs : list call) :
  init get_smoothing_filter c = Ok s0 ->
  let s := run getFFT savgol_filter s0 cs in
  let out :=
    out_frequency_bin_energies
      (snd (get_audio_features getFFT savgol_filter s)) in
  Forall (fun x => Float.ltb x (Fin 0) = false) out /\
  ((filter_width s0 <= 3)%Z -> Forall finite_nonneg out) /\
  ((forall e w p,
       Forall (fun x => Float.is_finite x = true) e ->
       Forall (fun x => Float.is_finite x = true) (savgol_filter e w p)) ->
   Forall finite_nonneg out) /\
  ((3 < filter_width s0)%Z -> buffer_is_updated s = true ->
   let sanitized_energies :=
     Np.nan_to_num (frequency_bin_energies (update_features getFFT s)) in
   let filtered := savgol_filter sanitized_energies (filter_width s0) 3%Z in
   Forall (fun x => Float.is_finite x = true) sanitized_energies /\
   out = Np.clamp_negative filtered /\
   forall b, (b < length filtered)%nat ->
             (finite_nonneg (nth b out NaN)
              <-> nth b filtered NaN <> NaN /\ nth b filtered NaN <> PInf)).
Proof.
  intros Hinit s out.
  pose proof (init_constructed _ _ Hinit) as Hc.
  assert (Hzero : forall P : float -> Prop,
             P (Fin 0) -> Forall P (frequency_bin_energies s0)).
  { intros P HP. rewrite (c_frequency_bin_energies Hc).
    apply Forall_forall. intros x Hx. apply repeat_spec in Hx. subst x.
    exact HP. }
  assert (Hout : out = frequency_bin_energies
                         (run getFFT savgol_filter s0 (cs ++ [Get])))
    by apply returned_energies.
  split; [| split; [| split]].
  - rewrite Hout.
    apply (run_energies_invariant getFFT savgol_filter
             (Forall (fun x => Float.ltb x (Fin 0) = false))).
    + apply Hzero. apply ltb_irrefl.
    + intros s1 e _. unfold postprocess. apply clamp_negative_not_below.
  - intro Hw. rewrite Hout.
    apply (run_energies_invariant getFFT savgol_filter
             (Forall finite_nonneg)).
    + apply Hzero. unfold finite_nonneg.
      cbn [Float.is_finite Float.geb Float.ltb].
      rewrite Rltb_false by lra. split; reflexivity.
    + intros s1 e Hst.
      assert (Hw1 : filter_width s1 = filter_width s0) by from_static Hst.
      rewrite postprocess_narrow by (rewrite Hw1; exact Hw).
      apply clamp_negative_finite_nonneg, nan_to_num_finite.
  - intro Hsg. rewrite Hout.
    apply (run_energies_invariant getFFT savgol_filter
             (Forall finite_nonneg)).
    + apply Hzero. unfold finite_nonneg.
      cbn [Float.is_finite Float.geb Float.ltb].
      rewrite Rltb_false by lra. split; reflexivity.
    + intros s1 e _. unfold postprocess.
      apply clamp_negative_finite_nonneg.
      destruct (apply_frequency_smoothing s1 && (3 <? filter_width s1)%Z).
      * apply Hsg, nan_to_num_finite.
      * apply nan_to_num_finite.
  - intros Hw Hd sanitized_energies filtered.
    split; [apply nan_to_num_finite |].
    pose proof (run_static getFFT savgol_filter cs s0) as Hst. fold s in Hst.
    assert (Hw1 : filter_width s = filter_width s0) by from_static Hst.
    assert (Hap : apply_frequency_smoothing s = true).
    { assert (H : apply_frequency_smoothing s = apply_frequency_smoothing s0)
        by from_static Hst.
      rewrite H. apply (c_apply_frequency_smoothing Hc). }
    assert (Hclamp : out = Np.clamp_negative filtered).
    { unfold out. rewrite get_returns_current.
      cbn [current_features out_frequency_bin_energies].
      destruct (get_dirty_fields getFFT savgol_filter s Hd)
        as [_ [_ [_ Hen]]].
      cbv zeta in Hen. rewrite Hen. unfold postprocess.
      rewrite Hap, Hw1.
      replace (3 <? filter_width s0)%Z with true
        by (symmetry; apply Z.ltb_lt; exact Hw).
      reflexivity. }
    split; [exact Hclamp |].
    intros b Hb. rewrite Hclamp. unfold Np.clamp_negative.
    set (f := fun x => if Float.ltb x Float.zero then Float.zero else x).
    rewrite nth_indep with (d' := f NaN) by (rewrite length_map; exact Hb).
    rewrite (map_nth f). apply clamped_finite_iff.
Qed.

(** C3, the claim as stated, fails.  With 200 bins over 4 spectrum
    positions the filter width is 5.  A window whose spectrum has overflowed
    gives plus infinity to bins 0 to 3, [np.nan_to_num] turns them into the
    largest finite double and the empty bins into 0, and the weighted sum of
    the filter around bin 2, (-3 + 12 + 17 + 12) / 35 = 38 / 35 times the
    largest finite double, overflows to plus infinity, which the clamp
    leaves: the energy returned for bin 2 is plus infinity. *)
Lemma C3_counterexample :
  exists s0,
    init (fun _ _ => []) wide_config = Ok s0 /\
    let out :=
      out_frequency_bin_energies
        (snd (get_audio_features overflowed_spectrum savgol_cubic
                (append_data s0 (repeat (Fin 0) 100)))) in
    nth 2 out NaN = PInf /\ ~ Forall finite_nonneg out.
Proof.
  destruct (init_wide_ok (fun _ _ => [])) as [s0 Hs0].
  exists s0. split; [exact Hs0 |].
  destruct (wide_first_update (repeat (Fin 0) 100) Hs0)
    as [Hd [Hfw [Hap Hraw]]].
  set (s := append_data s0 (repeat (Fin 0) 100)) in *.
  destruct wide_filtered as [Hlen [H2 _]]. cbv zeta in Hlen, H2.
  intro out.
  assert (Hout : out = Np.clamp_negative
                         (savgol_5_3 (Np.nan_to_num
                                        (repeat PInf 4 ++ repeat NaN 196)))).
  { unfold out. rewrite get_returns_current.
    cbn [current_features out_frequency_bin_energies].
    destruct (get_dirty_fields overflowed_spectrum savgol_cubic s Hd)
      as [_ [_ [_ Hen]]].
    cbv zeta in Hen. rewrite Hen. unfold postprocess.
    rewrite Hap, Hfw, Hraw. reflexivity. }
  assert (Hnth : nth 2 out NaN = PInf).
  { rewrite Hout. unfold Np.clamp_negative.
    set (f := fun x => if Float.ltb x Float.zero then Float.zero else x).
    rewrite nth_indep with (d' := f NaN)
      by (rewrite length_map, Hlen; lia).
    rewrite (map_nth f), H2. reflexivity. }
  split; [exact Hnth |].
  intro Hall. rewrite Forall_forall in Hall.
  assert (Hin : In (nth 2 out NaN) out).
  { apply nth_In. rewrite Hout. unfold Np.clamp_negative.
    rewrite length_map, Hlen. lia. }
  apply Hall in Hin. rewrite Hnth in Hin. destruct Hin as [Hfin _].
  discriminate.
Qed.

Lemma C3_bin_energies_not_below_zero_witness :
  exists s0,
    init (fun _ _ => []) wide_config = Ok s0 /\
    let out :=
      out_frequency_bin_energies
        (snd (get_audio_features overflowed_spectrum savgol_cubic
                (run overflowed_spectrum savgol_cubic s0
                     [Append (repeat (Fin 0) 100)]))) in
    finite_nonneg (nth 5 out NaN) /\
    Forall (fun x => Float.ltb x (Fin 0) = false) out.
Proof.
  destruct (init_wide_ok (fun _ _ => [])) as [s0 Hs0].
  exists s0. split; [exact Hs0 |].
  destruct (wide_first_update (repeat (Fin 0) 100) Hs0)
    as [Hd [Hfw [_ Hraw]]].
  pose proof (wide_shape (init_constructed _ _ Hs0)) as [_ [_ [_ [_ [Hfw0 _]]]]].
  destruct wide_filtered as [Hlen [_ H5]]. cbv zeta in Hlen, H5.
  destruct (@C3_bin_energies_not_below_zero
              overflowed_spectrum savgol_cubic (fun _ _ => []) wide_config
              s0 [Append (repeat (Fin 0) 100)] Hs0)
    as [Hnonneg [_ [_ Hfilter]]].
  intro out. split; [| exact Hnonneg].
  destruct Hfilter as [_ [_ Hiff]];
    [rewrite Hfw0; lia | exact Hd |].
  change (run overflowed_spectrum savgol_cubic s0
              [Append (repeat (Fin 0) 100)])
    with (append_data s0 (repeat (Fin 0) 100)) in Hiff.
  rewrite Hraw in Hiff. unfold savgol_cubic in Hiff.
  apply (Hiff 5%nat).
  - rewrite Hlen. lia.
  - rewrite H5. split; discriminate.
Defined.
